(** * swarfarm: the drop-log report generator (data_log/reports/generate.py)

    A shallow embedding of the report generation engine: Django querysets are
    modelled as a table in its default order together with an accumulated
    filter condition, aggregation queries as list functions over the selected
    rows, and Python exceptions as an error result. *)

From Stdlib Require Import String Ascii DecimalString ZArith QArith Bool Lia Arith
  Sorted List.
Import ListNotations.

Close Scope Q_scope.
Open Scope nat_scope.

Set Implicit Arguments.

(* ================================================================= *)
(** ** Exceptions *)

Inductive exn : Type :=
| IndexError
| KeyError (key : string)
| FieldError
| TypeError
| NotImplementedError (msg : string).

Inductive result (A : Type) : Type :=
| Ok (a : A)
| Raise (e : exn).

Arguments Ok {A} a.
Arguments Raise {A} e.

Definition bind {A B} (m : result A) (k : A -> result B) : result B :=
  match m with
  | Ok a => k a
  | Raise e => Raise e
  end.

Notation "x <- m ;; k" := (bind m (fun x => k))
  (at level 61, m at next level, right associativity).

Definition is_ok {A} (m : result A) : bool :=
  match m with Ok _ => true | Raise _ => false end.

(* ================================================================= *)
(** ** Querysets

    A queryset is lazy: [objects.filter(...)] only accumulates a condition
    over the model's table, and the rows are fetched, in the model's default
    order, when the queryset is counted, indexed, sliced or iterated. *)

Module QS.
Section Defs.
Variable row : Type.

Record t : Type := mk { base : list row; cond : row -> bool }.

(** [Model.objects] (all rows) and [Model.objects.none()]. *)
Definition objects (tbl : list row) : t := mk tbl (fun _ => true).
Definition none (tbl : list row) : t := mk tbl (fun _ => false).

(** Evaluating the queryset. *)
Definition rows (qs : t) : list row := List.filter (cond qs) (base qs).

(** [qs.filter(p)] and [qs.exclude(p)]. *)
Definition filter (p : row -> bool) (qs : t) : t :=
  mk (base qs) (fun r => cond qs r && p r).
Definition exclude (p : row -> bool) (qs : t) : t :=
  mk (base qs) (fun r => cond qs r && negb (p r)).

(** [qs.count()]. *)
Definition count (qs : t) : nat := length (rows qs).

(** [a | b]: the rows of the table satisfying either condition. *)
Definition or (a b : t) : t := mk (base a) (fun r => cond a r || cond b r).

(** [qs[i]] raises IndexError out of range. *)
Definition index (qs : t) (i : nat) : result row :=
  match nth_error (rows qs) i with
  | Some r => Ok r
  | None => Raise IndexError
  end.
End Defs.

(** A sliced queryset [qs[:n]] only supports counting and indexing; it is
    kept as the list of fetched rows. *)
Section Slice.
Variable row : Type.
Definition slice (n : nat) (qs : t row) : list row := firstn n (rows qs).
Definition slice_index (s : list row) (i : nat) : result row :=
  match nth_error s i with
  | Some r => Ok r
  | None => Raise IndexError
  end.
End Slice.
End QS.

(* ================================================================= *)
(** ** Log records

    [DungeonLog] and [RiftDungeonLog] rows.  Timestamps and durations are
    integers (seconds); [success] is meaningful for dungeon logs and [grade]
    for rift dungeon logs. *)

Record Log : Type := mkLog {
  log_pk : nat;
  log_level : nat;
  log_success : bool;
  log_grade : nat;
  wizard_id : nat;
  timestamp : Z
}.

(* ================================================================= *)
(** ** The sampling window selector *)

Definition two_weeks : Z := 14 * 24 * 3600.

Definition since (t0 : Z) (r : Log) : bool := (t0 <=? timestamp r)%Z.

(** [_records_to_report(qs, report_timespan, minimum_count)]; [now] is the
    value of [timezone.now()], one and the same instant at its two calls. *)
Definition _records_to_report (now : Z) (qs : QS.t Log)
           (report_timespan : Z) (minimum_count : nat) : result (QS.t Log) :=
  if QS.count (QS.filter (since (now - report_timespan)) qs) <? minimum_count
  then
    let results := QS.slice minimum_count qs in
    if 0 <? length results then
      earliest_record <- QS.slice_index results (length results - 1) ;;
      Ok (QS.filter (since (timestamp earliest_record)) qs)
    else Ok qs
  else Ok (QS.filter (since (now - report_timespan)) qs).

(** The rows of the selected window. *)
Definition window_rows (now : Z) (qs : QS.t Log) (T : Z) (M : nat)
  : result (list Log) :=
  w <- _records_to_report now qs T M ;; Ok (QS.rows w).

(** Most recent first: timestamps never increase along the list. *)
Fixpoint recent_first (l : list Log) : bool :=
  match l with
  | a :: (b :: _) as tl => (timestamp b <=? timestamp a)%Z && recent_first tl
  | _ => true
  end.

(** Strictly decreasing timestamps (no two records share one). *)
Fixpoint strictly_recent_first (l : list Log) : bool :=
  match l with
  | a :: (b :: _) as tl =>
      (timestamp b <? timestamp a)%Z && strictly_recent_first tl
  | _ => true
  end.

Definition newer_eq (a b : Log) : Prop := (timestamp b <= timestamp a)%Z.
Definition newer (a b : Log) : Prop := (timestamp b < timestamp a)%Z.

(** The window that the selector's description promises: the records of
    the time span when there are at least [M] of them, and otherwise the
    [min M total] most recent records. *)
Definition window_as_described (now : Z) (qs : QS.t Log) (T : Z) (M : nat)
           (W : list Log) : Prop :=
  let within := List.filter (since (now - T)) (QS.rows qs) in
  (M <= length within -> W = within) /\
  (length within < M -> W = firstn (Nat.min M (QS.count qs)) (QS.rows qs)) /\
  (QS.count qs = 0 -> W = []).

(** Two rift runs logged in the same second, both older than the time span. *)
Definition tied_logs : list Log :=
  [ mkLog 2 1 true 0 7 5%Z; mkLog 1 1 true 0 7 5%Z ].


(* ================================================================= *)
(** ** Grouping, ordering and aggregates

    [qs.values(k).annotate(...)] groups the selected rows by the key [k]
    and evaluates the aggregates on every group; [order_by] sorts the
    resulting rows.  Float columns are modelled by exact rationals. *)

Class EqDec (A : Type) : Type := eq_dec : forall x y : A, {x = y} + {x <> y}.

#[export] Instance nat_EqDec : EqDec nat := Nat.eq_dec.
#[export] Instance Z_EqDec : EqDec Z := Z.eq_dec.
#[export] Instance bool_EqDec : EqDec bool := bool_dec.
#[export] Instance string_EqDec : EqDec string := string_dec.
#[export] Instance prod_EqDec (A B : Type) `{EqDec A} `{EqDec B} : EqDec (A * B).
Proof. intros [a b] [a' b']. destruct (eq_dec a a'), (eq_dec b b');
  (left; congruence) || (right; congruence). Defined.
#[export] Instance option_EqDec (A : Type) `{EqDec A} : EqDec (option A).
Proof. intros [a|] [a'|]; try (right; congruence); [|left; reflexivity].
  destruct (eq_dec a a'); (left; congruence) || (right; congruence). Defined.

Definition same {A} `{EqDec A} (x y : A) : bool :=
  if eq_dec x y then true else false.

Section Aggregation.
Variables (row K : Type).
Context `{EqDec K}.

(** The distinct keys, in order of first occurrence. *)
Fixpoint distinct (ks : list K) : list K :=
  match ks with
  | [] => []
  | k :: tl => k :: List.filter (fun k' => negb (same k' k)) (distinct tl)
  end.

(** [values(key)]: one group of rows per distinct key. *)
Definition group_by (key : row -> K) (l : list row) : list (K * list row) :=
  map (fun k => (k, List.filter (fun r => same (key r) k) l))
      (distinct (map key l)).
End Aggregation.

Section Ordering.
Variable A : Type.
Variable le : A -> A -> bool.

Fixpoint insert_by (x : A) (l : list A) : list A :=
  match l with
  | [] => [x]
  | y :: tl => if le x y then x :: l else y :: insert_by x tl
  end.

(** [order_by]: a stable sort. *)
Definition order_by (l : list A) : list A := fold_right insert_by [] l.
End Ordering.

(** [Sum], [Min], [Max] and [Avg] are NULL on an empty set of rows. *)
Definition Sum (l : list Z) : option Z :=
  match l with
  | [] => None
  | _ => Some (fold_right Z.add 0%Z l)
  end.

Definition Min (l : list Z) : option Z :=
  match l with
  | [] => None
  | x :: tl => Some (fold_right Z.min x tl)
  end.

Definition Max (l : list Z) : option Z :=
  match l with
  | [] => None
  | x :: tl => Some (fold_right Z.max x tl)
  end.

Definition Avg (l : list Z) : option Q :=
  match l with
  | [] => None
  | _ => Some (inject_Z (fold_right Z.add 0%Z l)
               / inject_Z (Z.of_nat (length l)))%Q
  end.

Definition of_nat (n : nat) : Q := inject_Z (Z.of_nat n).

(** [Cast(Count('pk'), FloatField()) / total_log_count * 100], for a
    positive [total_log_count]: the database raises on a zero divisor,
    where the division of the rationals yields 0, so that the properties
    of the rows that carry a rate are stated for a positive divisor. *)
Definition percent_of (count total_log_count : nat) : Q :=
  (of_nat count / of_nat total_log_count * 100)%Q.

(** [Cast(Sum('quantity'), FloatField()) / total_log_count], for a
    positive [total_log_count] as well; the sum of no row is absent, and
    so is its quotient. *)
Definition per_run (sum : option Z) (total_log_count : nat) : option Q :=
  option_map (fun s => (inject_Z s / of_nat total_log_count)%Q) sum.

(* ================================================================= *)
(** ** Catalog and drop records

    A foreign key to a catalog row is kept as the joined row itself; rows
    are compared by primary key where the source filters on the relation. *)

Record GameItem : Type := mkGameItem {
  item_pk : nat;
  item_name : string;
  item_icon : string;
  item_category : nat
}.

Record Monster : Type := mkMonster {
  monster_pk : nat;
  monster_name : string;
  bestiary_slug : string;
  image_filename : string;
  monster_element : string;
  can_awaken : bool;
  is_awakened : bool;
  base_stars : nat;
  family_id : nat;
  com2us_id : nat
}.

Record ItemDrop : Type := mkItemDrop {
  id_pk : nat;
  id_log : nat;
  id_item : GameItem;
  id_quantity : Z
}.

Record MonsterDrop : Type := mkMonsterDrop {
  md_pk : nat;
  md_log : nat;
  md_monster : Monster;
  md_grade : nat
}.

Record MonsterPieceDrop : Type := mkMonsterPieceDrop {
  mp_pk : nat;
  mp_log : nat;
  mp_monster : Monster;
  mp_quantity : Z
}.

Record RuneDrop : Type := mkRuneDrop {
  rd_pk : nat;
  rd_log : nat;
  rd_stars : nat;
  rd_type : nat;
  rd_quality : nat;
  rd_slot : nat;
  rd_main_stat : nat;
  rd_innate_stat : option nat;
  rd_substats : list nat;
  rd_max_efficiency : Q;
  rd_value : Z
}.

Record RuneCraftDrop : Type := mkRuneCraftDrop {
  rc_pk : nat;
  rc_log : nat;
  rc_type : nat;
  rc_rune : nat;
  rc_quality : nat
}.

(** [level__dungeon__secretdungeon__monster] is kept as the joined monster. *)
Record SecretDungeonDrop : Type := mkSecretDungeonDrop {
  sd_pk : nat;
  sd_log : nat;
  sd_monster : Monster
}.

(** A queryable handle over the drop records of one category. *)
Inductive DropQS : Type :=
| ItemQS (qs : QS.t ItemDrop)
| MonsterQS (qs : QS.t MonsterDrop)
| MonsterPieceQS (qs : QS.t MonsterPieceDrop)
| RuneQS (qs : QS.t RuneDrop)
| RuneCraftQS (qs : QS.t RuneCraftDrop)
| SecretDungeonQS (qs : QS.t SecretDungeonDrop).

(** [qs.count()], equally [qs.aggregate(count=Count('pk'))['count']]. *)
Definition drop_count (h : DropQS) : nat :=
  match h with
  | ItemQS qs => QS.count qs
  | MonsterQS qs => QS.count qs
  | MonsterPieceQS qs => QS.count qs
  | RuneQS qs => QS.count qs
  | RuneCraftQS qs => QS.count qs
  | SecretDungeonQS qs => QS.count qs
  end.

(** Modelled from the spec: [data_log.models] and [bestiary.models] are not
    among the source files.  These are the related names of the six drop
    categories (item, monster, monster piece, rune, rune craft material,
    secret dungeon unlock); [grade_summary_report] spells 'items' and
    'monsters' out, and the other four follow the same naming.  The
    currency category code is that of the item catalog. *)
Definition ItemDrop_RELATED_NAME : string := "items".
Definition MonsterDrop_RELATED_NAME : string := "monsters".
Definition MonsterPieceDrop_RELATED_NAME : string := "monster_pieces".
Definition RuneDrop_RELATED_NAME : string := "runes".
Definition RuneCraftDrop_RELATED_NAME : string := "rune_crafts".
Definition DungeonSecretDungeonDrop_RELATED_NAME : string := "secret_dungeons".
Definition CATEGORY_CURRENCY : nat := 6.

(** Python dicts keep insertion order; assigning an existing key keeps its
    position. *)
Fixpoint dict_set (V : Type) (k : string) (v : V) (d : list (string * V))
  : list (string * V) :=
  match d with
  | [] => [(k, v)]
  | (k', v') :: tl =>
      if String.eqb k' k then (k, v) :: tl else (k', v') :: dict_set k v tl
  end.

Fixpoint dict_get (V : Type) (k : string) (d : list (string * V)) : result V :=
  match d with
  | [] => Raise (KeyError k)
  | (k', v) :: tl => if String.eqb k' k then Ok v else dict_get k tl
  end.

Definition dict_has (V : Type) (k : string) (d : list (string * V)) : bool :=
  existsb (fun kv => String.eqb (fst kv) k) d.

(* ================================================================= *)
(** ** String helpers of the summary composer *)

Definition upper (c : ascii) : ascii :=
  let n := nat_of_ascii c in
  if (97 <=? n) && (n <=? 122) then ascii_of_nat (n - 32) else c.

Definition lower (c : ascii) : ascii :=
  let n := nat_of_ascii c in
  if (65 <=? n) && (n <=? 90) then ascii_of_nat (n + 32) else c.

Fixpoint map_string (f : ascii -> ascii) (s : string) : string :=
  match s with
  | EmptyString => EmptyString
  | String c tl => String (f c) (map_string f tl)
  end.

(** [s.capitalize()] *)
Definition capitalize (s : string) : string :=
  match s with
  | EmptyString => EmptyString
  | String c tl => String (upper c) (map_string lower tl)
  end.

(** [s.split(c)] *)
Fixpoint split (c : ascii) (s : string) : list string :=
  match s with
  | EmptyString => [EmptyString]
  | String a tl =>
      if Ascii.eqb a c then EmptyString :: split c tl
      else match split c tl with
           | h :: t => String a h :: t
           | [] => [String a EmptyString]
           end
  end.

(** [s.rstrip(c)] *)
Fixpoint rstrip (c : ascii) (s : string) : string :=
  match s with
  | EmptyString => EmptyString
  | String a tl =>
      match rstrip c tl with
      | EmptyString => if Ascii.eqb a c then EmptyString else String a EmptyString
      | r => String a r
      end
  end.

(** [' '.join([s.capitalize() for s in drop_type.split('_')]).rstrip('s')] *)
Definition category_label (drop_type : string) : string :=
  rstrip "s"%char
    (String.concat " " (map capitalize (split "_"%char drop_type))).

(** [str(n)] *)
Definition str (n : nat) : string := NilZero.string_of_uint (Nat.to_uint n).

(* ================================================================= *)
(** ** Statistics rows *)

(** The annotations [count], [min], [max], [avg], [drop_chance] and
    [avg_per_run] of a group of drops with the given quantities. *)
Record Stats : Type := mkStats {
  st_count : nat;
  st_min : option Z;
  st_max : option Z;
  st_avg : option Q;
  st_drop_chance : Q;
  st_avg_per_run : option Q
}.

Definition quantity_stats (quantities : list Z) (total_log_count : nat) : Stats :=
  {| st_count := length quantities;
     st_min := Min quantities;
     st_max := Max quantities;
     st_avg := Avg quantities;
     st_drop_chance := percent_of (length quantities) total_log_count;
     st_avg_per_run := per_run (Sum quantities) total_log_count |}.

Record ChartEntry : Type := mkChart { chart_name : string; chart_count : nat }.

Record ItemTableRow : Type := mkItemTableRow {
  it_name : string;
  it_icon : string;
  it_stats : Stats
}.

Record MonsterTableRow : Type := mkMonsterTableRow {
  mt_name : string;
  mt_slug : string;
  mt_icon : string;
  mt_element : string;
  mt_can_awaken : bool;
  mt_is_awakened : bool;
  mt_stars : nat;
  mt_count : nat;
  mt_drop_chance : Q
}.

Record PieceTableRow : Type := mkPieceTableRow {
  pt_name : string;
  pt_icon : string;
  pt_element : string;
  pt_count : nat;
  pt_min : option Z;
  pt_max : option Z;
  pt_avg : option Q
}.

(** The table of one category in the summary.  Coded values are kept as
    codes: their replacement by labels ([replace_value_with_choice]) is a
    display step of [data_log.util]. *)
Inductive TableData : Type :=
| ItemTable (rows : list ItemTableRow)
| MonsterTable (rows : list MonsterTableRow)
| MonsterPieceTable (rows : list PieceTableRow)
| RuneTable (sets slots quality : list (nat * nat))
| RuneCraftTable (rows : list (nat * nat * nat * nat))
| SecretDungeonTable (rows : list (string * string * string * nat)).

(** Python truth value of the table: an empty list is false, the rune
    table (a dict of three entries) is always true. *)
Definition truthy (t : TableData) : bool :=
  match t with
  | ItemTable rows => negb (Nat.eqb (length rows) 0)
  | MonsterTable rows => negb (Nat.eqb (length rows) 0)
  | MonsterPieceTable rows => negb (Nat.eqb (length rows) 0)
  | RuneTable _ _ _ => true
  | RuneCraftTable rows => negb (Nat.eqb (length rows) 0)
  | SecretDungeonTable rows => negb (Nat.eqb (length rows) 0)
  end.

Record Summary : Type := mkSummary {
  table : list (string * TableData);
  chart : list ChartEntry
}.

(** [values(k).annotate(count=Count('pk'))]: the groups with their sizes. *)
Definition count_by (row K : Type) `{EqDec K} (key : row -> K) (l : list row)
  : list (K * nat) :=
  map (fun g => (fst g, length (snd g))) (group_by key l).

(** [.filter(count__gt=0)] *)
Definition count_gt_0 (K : Type) (l : list (K * nat)) : list (K * nat) :=
  List.filter (fun kc => 0 <? snd kc) l.

(** [.order_by('-count')] *)
Definition by_count_desc (K : Type) (l : list (K * nat)) : list (K * nat) :=
  order_by (fun a b => snd b <=? snd a) l.

(** [.order_by(key)] for a numeric key. *)
Definition by_key (l : list (nat * nat)) : list (nat * nat) :=
  order_by (fun a b => fst a <=? fst b) l.

(** [.order_by(key)] for a nullable numeric key: NULL comes last. *)
Definition by_nullable_key (l : list (option nat * nat)) : list (option nat * nat) :=
  order_by (fun a b =>
              match fst a, fst b with
              | Some x, Some y => x <=? y
              | Some _, None => true
              | None, Some _ => false
              | None, None => true
              end) l.

(* ================================================================= *)
(** ** The summary composer *)

Definition item_chart (qs : QS.t ItemDrop) : list ChartEntry :=
  map (fun kc => mkChart (fst kc) (snd kc))
      (by_count_desc
         (count_gt_0
            (count_by (fun d => item_name (id_item d))
               (QS.rows
                  (QS.exclude
                     (fun d => item_category (id_item d) =? CATEGORY_CURRENCY)
                     qs))))).

(** The rows are grouped by name and icon, and by the category they are
    ordered on; ordered by category, then by descending count. *)
Definition item_table (qs : QS.t ItemDrop) (total_log_count : nat)
  : list ItemTableRow :=
  let groups :=
    group_by (fun d => (item_name (id_item d), item_icon (id_item d),
                        item_category (id_item d)))
             (QS.rows qs) in
  let annotated :=
    map (fun g => (fst g, quantity_stats (map id_quantity (snd g))
                                         total_log_count)) groups in
  let kept := List.filter (fun r => 0 <? st_count (snd r)) annotated in
  let ordered :=
    order_by (fun a b =>
                let ca := snd (fst a) in
                let cb := snd (fst b) in
                (ca <? cb) || ((ca =? cb)
                               && (st_count (snd b) <=? st_count (snd a))))
             kept in
  map (fun r => mkItemTableRow (fst (fst (fst r))) (snd (fst (fst r))) (snd r))
      ordered.

Definition star_monster : string := "⭐ Monster".

Definition monster_chart (qs : QS.t MonsterDrop) : list ChartEntry :=
  map (fun kc => mkChart (fst kc) (snd kc))
      (by_count_desc
         (count_gt_0
            (count_by (fun d => (str (md_grade d) ++ star_monster)%string)
                      (QS.rows qs)))).

Definition monster_table (qs : QS.t MonsterDrop) (total_log_count : nat)
  : list MonsterTableRow :=
  map (fun g =>
         match g with
         | (n, s, i, e, c, a, st, rows) =>
             mkMonsterTableRow n s i e c a st (length rows)
               (percent_of (length rows) total_log_count)
         end)
      (group_by (fun d =>
                   let m := md_monster d in
                   (monster_name m, bestiary_slug m, image_filename m,
                    monster_element m, can_awaken m, is_awakened m,
                    base_stars m))
                (QS.rows qs)).

(** The aggregates are given inside [values(...)] itself, where they are
    applied before the other arguments: the rows are grouped by primary
    key, one row per drop record. *)
Definition monster_piece_table (qs : QS.t MonsterPieceDrop) : list PieceTableRow :=
  map (fun d =>
         let m := mp_monster d in
         mkPieceTableRow (monster_name m) (image_filename m) (monster_element m)
           1 (Min [mp_quantity d]) (Max [mp_quantity d]) (Avg [mp_quantity d]))
      (QS.rows qs).

Definition rune_table (qs : QS.t RuneDrop) : TableData :=
  RuneTable (by_key (count_by rd_type (QS.rows qs)))
            (by_key (count_by rd_slot (QS.rows qs)))
            (by_key (count_by rd_quality (QS.rows qs))).

Definition rune_craft_table (qs : QS.t RuneCraftDrop)
  : list (nat * nat * nat * nat) :=
  order_by
    (fun a b =>
       match fst a, fst b with
       | (ta, ra, qa), (tb, rb, qb) =>
           (ta <? tb) || ((ta =? tb) &&
             ((ra <? rb) || ((ra =? rb) && (qa <=? qb))))
       end)
    (count_by (fun d => (rc_type d, rc_rune d, rc_quality d)) (QS.rows qs)).

Definition secret_dungeon_table (qs : QS.t SecretDungeonDrop)
  : list (string * string * string * nat) :=
  count_by (fun d =>
              let m := sd_monster d in
              (monster_name m, monster_element m, image_filename m))
           (QS.rows qs).

(** One turn of the loop of [get_report_summary]: the chart entries and the
    table of one category. *)
Definition summary_of (drop_type : string) (h : DropQS) (total_log_count : nat)
  : result (list ChartEntry * TableData) :=
  if String.eqb drop_type ItemDrop_RELATED_NAME then
    match h with
    | ItemQS qs => Ok (item_chart qs, ItemTable (item_table qs total_log_count))
    | _ => Raise FieldError
    end
  else if String.eqb drop_type MonsterDrop_RELATED_NAME then
    match h with
    | MonsterQS qs =>
        Ok (monster_chart qs, MonsterTable (monster_table qs total_log_count))
    | _ => Raise FieldError
    end
  else
    let item_name := category_label drop_type in
    let count := drop_count h in
    let chart_data := if 0 <? count then [mkChart item_name count] else [] in
    table_data <-
      (if String.eqb drop_type MonsterPieceDrop_RELATED_NAME then
         match h with
         | MonsterPieceQS qs => Ok (MonsterPieceTable (monster_piece_table qs))
         | _ => Raise FieldError
         end
       else if String.eqb drop_type RuneDrop_RELATED_NAME then
         match h with
         | RuneQS qs => Ok (rune_table qs)
         | _ => Raise FieldError
         end
       else if String.eqb drop_type RuneCraftDrop_RELATED_NAME then
         match h with
         | RuneCraftQS qs => Ok (RuneCraftTable (rune_craft_table qs))
         | _ => Raise FieldError
         end
       else if String.eqb drop_type DungeonSecretDungeonDrop_RELATED_NAME then
         match h with
         | SecretDungeonQS qs => Ok (SecretDungeonTable (secret_dungeon_table qs))
         | _ => Raise FieldError
         end
       else
         Raise (NotImplementedError
                  ("No summary table generation for " ++ drop_type))) ;;
    Ok (chart_data, table_data).

Fixpoint summary_loop (drops : list (string * DropQS)) (total_log_count : nat)
         (summary : Summary) : result Summary :=
  match drops with
  | [] => Ok summary
  | (drop_type, qs) :: rest =>
      ct <- summary_of drop_type qs total_log_count ;;
      summary_loop rest total_log_count
        {| chart := chart summary ++ fst ct;
           table := if truthy (snd ct)
                    then dict_set drop_type (snd ct) (table summary)
                    else table summary |}
  end.

Definition get_report_summary (drops : list (string * DropQS))
           (total_log_count : nat) : result Summary :=
  summary_loop drops total_log_count {| table := []; chart := [] |}.

(* ================================================================= *)
(** ** Histograms *)

(** Modelled from the spec: [floor_to_nearest] and [ceil_to_nearest] of
    [data_log.util] are not among the source files; they round down and up
    to the nearest multiple, [floor(x/m)*m] and [ceil(x/m)*m]. *)
Definition floor_to_nearest (num multiple_of : Z) : Z :=
  (num / multiple_of * multiple_of)%Z.
Definition ceil_to_nearest (num multiple_of : Z) : Z :=
  (- ((- num) / multiple_of) * multiple_of)%Z.

(** [range(start, stop, step)] for a positive step. *)
Definition range (start stop step : Z) : list Z :=
  map (fun i => (start + step * Z.of_nat i)%Z)
      (seq 0 (Z.to_nat ((stop - start + step - 1) / step))).

(** The bucket of a value: the bins are left endpoints, a bucket runs up to
    the next endpoint and the last one is open above; a value below the
    first endpoint has no bucket. *)
Fixpoint bin_of (bins : list Z) (v : Q) : option Z :=
  match bins with
  | [] => None
  | lo :: rest =>
      match rest with
      | [] => if Qle_bool (inject_Z lo) v then Some lo else None
      | hi :: _ =>
          if Qle_bool (inject_Z lo) v && negb (Qle_bool (inject_Z hi) v)
          then Some lo
          else bin_of rest v
      end
  end.

Record HistogramRow : Type := mkHistogramRow {
  bin : Z;
  slices : list (string * nat)
}.

(** [django_pivot.histogram.histogram(qs, column, bins, slice_on)], a
    third-party function, by its contract: one row per bin, in order, with
    one count per choice of the slicing field, zero where no record falls;
    it reads the last of the bins, so an empty sequence of bins raises. *)
Definition histogram (row : Type) (rows : list row) (column : row -> Q)
           (bins : list Z) (slice_on : row -> nat)
           (choices : list (nat * string)) : result (list HistogramRow) :=
  match bins with
  | [] => Raise IndexError
  | _ =>
      Ok (map (fun b =>
                 mkHistogramRow b
                   (map (fun ch =>
                           (snd ch,
                            length (List.filter
                                      (fun r => same (bin_of bins (column r)) (Some b)
                                                && (slice_on r =? fst ch))
                                      rows)))
                        choices))
              bins)
  end.

(* ================================================================= *)
(** ** The category aggregators *)

Record ItemReportRow : Type := mkItemReportRow {
  ir_item : nat;
  ir_name : string;
  ir_icon : string;
  ir_stats : Stats
}.

(** An ['occurrences'] block: the total and the count per value. *)
Record Occurrences (K : Type) : Type := mkOccurrences {
  total : nat;
  data : list (K * nat)
}.

Record MonsterStats : Type := mkMonsterStats {
  ms_monsters : Occurrences (nat * string * string * nat * string);
  ms_family : Occurrences (nat * string);
  ms_nat_stars : Occurrences (nat * Q);
  ms_element : Occurrences string;
  ms_awakened : Occurrences bool
}.

Record RuneStats : Type := mkRuneStats {
  rs_stars : Occurrences string;
  rs_type : Occurrences nat;
  rs_quality : Occurrences nat;
  rs_slot : Occurrences nat;
  rs_main_stat : Occurrences nat;
  rs_innate_stat : Occurrences (option nat);
  rs_substats : Occurrences nat;
  rs_max_efficiency : list HistogramRow;
  rs_value : list HistogramRow
}.

(** What an aggregator returns: [None], the statistics of its category, or
    a plain string. *)
Inductive CategoryReport : Type :=
| NoReport
| ItemReport (rows : list ItemReportRow)
| MonsterReport (r : MonsterStats)
| RuneReport (r : RuneStats)
| TextReport (s : string).

Definition get_item_report (qs : QS.t ItemDrop) (total_log_count : nat)
  : CategoryReport :=
  if QS.count qs =? 0 then NoReport
  else
    let results :=
      order_by (fun a b => st_count (ir_stats b) <=? st_count (ir_stats a))
        (map (fun g =>
                match g with
                | (item, name, icon, rows) =>
                    mkItemReportRow item name icon
                      (quantity_stats (map id_quantity rows) total_log_count)
                end)
             (group_by (fun d => (item_pk (id_item d), item_name (id_item d),
                                  item_icon (id_item d)))
                       (QS.rows qs))) in
    ItemReport results.

Definition get_monster_report (qs : QS.t MonsterDrop) (total_log_count : nat)
  : CategoryReport :=
  if QS.count qs =? 0 then NoReport
  else
    let mons_by_nat_stars :=
      map (fun g => (fst g, percent_of (length (snd g)) total_log_count,
                     length (snd g)))
          (group_by (fun d => base_stars (md_monster d)) (QS.rows qs)) in
    MonsterReport
      {| ms_monsters :=
           mkOccurrences (QS.count qs)
             (count_by (fun d =>
                          let m := md_monster d in
                          (monster_pk m, monster_name m, monster_element m,
                           com2us_id m, image_filename m))
                       (QS.rows qs));
         ms_family :=
           mkOccurrences (QS.count qs)
             (count_by (fun d => (family_id (md_monster d),
                                  monster_name (md_monster d)))
                       (QS.rows qs));
         ms_nat_stars := mkOccurrences (QS.count qs) mons_by_nat_stars;
         ms_element :=
           mkOccurrences (QS.count qs)
             (count_by (fun d => monster_element (md_monster d)) (QS.rows qs));
         ms_awakened :=
           mkOccurrences (QS.count qs)
             (count_by (fun d => is_awakened (md_monster d)) (QS.rows qs)) |}.

Definition get_monster_piece_report (qs : QS.t MonsterPieceDrop)
           (total_log_count : nat) : CategoryReport :=
  TextReport "monster piece report".

(** [unnest] yields one row per element of the array column. *)
Definition flat_substats (qs : QS.t RuneDrop) : list nat :=
  flat_map rd_substats (QS.rows qs).

(** [Counter(all_substats)] *)
Definition Counter (l : list nat) : list (nat * nat) := count_by (fun x => x) l.

Section RuneReport.
(** [qs.model.QUALITY_CHOICES], the code and label of each rune quality. *)
Variable QUALITY_CHOICES : list (nat * string).

Definition get_rune_report (qs : QS.t RuneDrop) (total_log_count : nat)
  : result CategoryReport :=
  if QS.count qs =? 0 then Ok NoReport
  else
    let all_substats := flat_substats qs in
    let substat_counts := Counter all_substats in
    match Min (map rd_value (QS.rows qs)), Max (map rd_value (QS.rows qs)) with
    | Some min_value, Some max_value =>
        let min_value := floor_to_nearest min_value 1000 in
        let max_value := ceil_to_nearest max_value 1000 in
        max_efficiency <-
          histogram (QS.rows qs) rd_max_efficiency (range 0 100 5)
                    rd_quality QUALITY_CHOICES ;;
        value <-
          histogram (QS.rows qs) (fun r => inject_Z (rd_value r))
                    (range min_value max_value 500)
                    rd_quality QUALITY_CHOICES ;;
        Ok (RuneReport
              {| rs_stars :=
                   mkOccurrences (QS.count qs)
                     (by_count_desc
                        (count_by (fun r => (str (rd_stars r) ++ "⭐")%string)
                                  (QS.rows qs)));
                 rs_type :=
                   mkOccurrences (QS.count qs)
                     (by_count_desc (count_by rd_type (QS.rows qs)));
                 rs_quality :=
                   mkOccurrences (QS.count qs)
                     (by_count_desc (count_by rd_quality (QS.rows qs)));
                 rs_slot :=
                   mkOccurrences (QS.count qs)
                     (by_count_desc (count_by rd_slot (QS.rows qs)));
                 rs_main_stat :=
                   mkOccurrences (QS.count qs)
                     (by_key (count_by rd_main_stat (QS.rows qs)));
                 rs_innate_stat :=
                   mkOccurrences (QS.count qs)
                     (by_nullable_key (count_by rd_innate_stat (QS.rows qs)));
                 rs_substats :=
                   mkOccurrences (length all_substats)
                     (by_key substat_counts);
                 rs_max_efficiency := max_efficiency;
                 rs_value := value |})
    | _, _ => Raise TypeError
    end.
End RuneReport.

Definition get_rune_craft_report (qs : QS.t RuneCraftDrop)
           (total_log_count : nat) : CategoryReport :=
  TextReport "rune craft report".

Definition get_secret_dungeon_report (qs : QS.t SecretDungeonDrop)
           (total_log_count : nat) : CategoryReport :=
  TextReport "secret dungeon report".

(* ================================================================= *)
(** ** Log models and the drop category resolver *)

(** A log model ([DungeonLog], [RiftDungeonLog]): its table in the
    default order, most recent first, and the tables of the drop models
    related to it; a category the model has no relation for is [None]. *)
Record LogModel : Type := mkLogModel {
  objects : list Log;
  items : option (list ItemDrop);
  monsters : option (list MonsterDrop);
  monster_pieces : option (list MonsterPieceDrop);
  runes : option (list RuneDrop);
  rune_crafts : option (list RuneCraftDrop);
  secret_dungeons : option (list SecretDungeonDrop)
}.

(** [getattr(model, drop_type).field.model.objects], or [None] where
    [hasattr(model, drop_type)] is false. *)
Definition related_objects (model : LogModel) (drop_type : string)
  : option DropQS :=
  if String.eqb drop_type ItemDrop_RELATED_NAME then
    option_map (fun t => ItemQS (QS.objects t)) (items model)
  else if String.eqb drop_type MonsterDrop_RELATED_NAME then
    option_map (fun t => MonsterQS (QS.objects t)) (monsters model)
  else if String.eqb drop_type MonsterPieceDrop_RELATED_NAME then
    option_map (fun t => MonsterPieceQS (QS.objects t)) (monster_pieces model)
  else if String.eqb drop_type RuneDrop_RELATED_NAME then
    option_map (fun t => RuneQS (QS.objects t)) (runes model)
  else if String.eqb drop_type RuneCraftDrop_RELATED_NAME then
    option_map (fun t => RuneCraftQS (QS.objects t)) (rune_crafts model)
  else if String.eqb drop_type DungeonSecretDungeonDrop_RELATED_NAME then
    option_map (fun t => SecretDungeonQS (QS.objects t)) (secret_dungeons model)
  else None.

(** [log__in=qs] *)
Definition log_in (qs : QS.t Log) (log : nat) : bool :=
  existsb (fun l => log_pk l =? log) (QS.rows qs).

Definition filter_log_in (h : DropQS) (qs : QS.t Log) : DropQS :=
  match h with
  | ItemQS d => ItemQS (QS.filter (fun r => log_in qs (id_log r)) d)
  | MonsterQS d => MonsterQS (QS.filter (fun r => log_in qs (md_log r)) d)
  | MonsterPieceQS d =>
      MonsterPieceQS (QS.filter (fun r => log_in qs (mp_log r)) d)
  | RuneQS d => RuneQS (QS.filter (fun r => log_in qs (rd_log r)) d)
  | RuneCraftQS d => RuneCraftQS (QS.filter (fun r => log_in qs (rc_log r)) d)
  | SecretDungeonQS d =>
      SecretDungeonQS (QS.filter (fun r => log_in qs (sd_log r)) d)
  end.

Record LevelDropReport : Type := mkLevelDropReport {
  summary : Summary;
  categories : list (string * CategoryReport)
}.

Inductive DropSummary : Type :=
| ItemSummary (name icon : string) (stats : Stats)
| MonsterSummary (name icon : string) (stars count : nat) (drop_chance : Q).

Record GradeSummary : Type := mkGradeSummary {
  gs_grade : string;
  gs_drops : list DropSummary
}.

Fixpoint map_result (A B : Type) (f : A -> result B) (l : list A)
  : result (list B) :=
  match l with
  | [] => Ok []
  | a :: tl => b <- f a ;; bs <- map_result f tl ;; Ok (b :: bs)
  end.

Section Reports.
Variable QUALITY_CHOICES : list (nat * string).
(** [GameItem.objects] and [Monster.objects] *)
Variable GameItem_objects : list GameItem.
Variable Monster_objects : list Monster.

(** The dispatch table from category to aggregator. *)
Definition DROP_TYPES : list (string * (DropQS -> nat -> result CategoryReport)) :=
  [ (ItemDrop_RELATED_NAME,
     fun h n => match h with
                | ItemQS qs => Ok (get_item_report qs n)
                | _ => Raise FieldError
                end);
    (MonsterDrop_RELATED_NAME,
     fun h n => match h with
                | MonsterQS qs => Ok (get_monster_report qs n)
                | _ => Raise FieldError
                end);
    (MonsterPieceDrop_RELATED_NAME,
     fun h n => match h with
                | MonsterPieceQS qs => Ok (get_monster_piece_report qs n)
                | _ => Raise FieldError
                end);
    (RuneDrop_RELATED_NAME,
     fun h n => match h with
                | RuneQS qs => get_rune_report QUALITY_CHOICES qs n
                | _ => Raise FieldError
                end);
    (RuneCraftDrop_RELATED_NAME,
     fun h n => match h with
                | RuneCraftQS qs => Ok (get_rune_craft_report qs n)
                | _ => Raise FieldError
                end);
    (DungeonSecretDungeonDrop_RELATED_NAME,
     fun h n => match h with
                | SecretDungeonQS qs => Ok (get_secret_dungeon_report qs n)
                | _ => Raise FieldError
                end) ].

Fixpoint drop_querysets_loop (model : LogModel) (qs : QS.t Log)
         (drop_types : list string) (drop_querysets : list (string * DropQS))
  : list (string * DropQS) :=
  match drop_types with
  | [] => drop_querysets
  | drop_type :: rest =>
      drop_querysets_loop model qs rest
        match related_objects model drop_type with
        | Some drop_objects =>
            dict_set drop_type (filter_log_in drop_objects qs) drop_querysets
        | None => drop_querysets
        end
  end.

(** [get_drop_querysets(qs)]; [model] is [qs.model]. *)
Definition get_drop_querysets (model : LogModel) (qs : QS.t Log)
  : list (string * DropQS) :=
  drop_querysets_loop model qs (map fst DROP_TYPES) [].

(** The loop of [level_drop_report]: its variable [qs] is the drop
    queryset of the category, whose own count is passed on. *)
Fixpoint level_drop_loop (drops : list (string * DropQS))
         (report_data : list (string * CategoryReport))
  : result (list (string * CategoryReport)) :=
  match drops with
  | [] => Ok report_data
  | (key, qs) :: rest =>
      aggregator <- dict_get key DROP_TYPES ;;
      r <- aggregator qs (drop_count qs) ;;
      level_drop_loop rest (dict_set key r report_data)
  end.

Definition level_drop_report (model : LogModel) (qs : QS.t Log)
  : result LevelDropReport :=
  let drops := get_drop_querysets model qs in
  s <- get_report_summary drops (QS.count qs) ;;
  report_data <- level_drop_loop drops [] ;;
  Ok (mkLevelDropReport s report_data).

Definition grade_item_summary (drops : list (string * DropQS))
           (qs grade_qs : QS.t Log) (item : GameItem) : result DropSummary :=
  h <- dict_get "items" drops ;;
  match h with
  | ItemQS d =>
      let matching :=
        QS.filter (fun r => log_in grade_qs (id_log r)
                            && (item_pk (id_item r) =? item_pk item)) d in
      Ok (ItemSummary (item_name item) (item_icon item)
            (quantity_stats (map id_quantity (QS.rows matching))
                            (QS.count qs)))
  | _ => Raise FieldError
  end.

Definition grade_monster_summary (drops : list (string * DropQS))
           (qs grade_qs : QS.t Log) (monster : Monster) : result DropSummary :=
  h <- dict_get "monsters" drops ;;
  match h with
  | MonsterQS d =>
      let matching :=
        QS.filter (fun r => log_in grade_qs (md_log r)
                            && (monster_pk (md_monster r) =? monster_pk monster))
                  d in
      Ok (MonsterSummary (monster_name monster) (image_filename monster)
            (base_stars monster) (QS.count matching)
            (percent_of (QS.count matching) (QS.count qs)))
  | _ => Raise FieldError
  end.

Definition grade_summary_report (model : LogModel) (qs : QS.t Log)
           (grade_choices : list (nat * string)) : result (list GradeSummary) :=
  let drops := get_drop_querysets model qs in
  all_items <-
    (if dict_has "items" drops then
       h <- dict_get "items" drops ;;
       match h with
       | ItemQS d =>
           Ok (QS.rows
                 (QS.filter
                    (fun i => existsb (fun r => item_pk (id_item r) =? item_pk i)
                                      (QS.rows d))
                    (QS.objects GameItem_objects)))
       | _ => Raise FieldError
       end
     else Ok []) ;;
  all_monsters <-
    (if dict_has "monsters" drops then
       h <- dict_get "monsters" drops ;;
       match h with
       | MonsterQS d =>
           Ok (QS.rows
                 (QS.filter
                    (fun m => existsb (fun r => monster_pk (md_monster r)
                                                =? monster_pk m)
                                      (QS.rows d))
                    (QS.objects Monster_objects)))
       | _ => Raise FieldError
       end
     else Ok []) ;;
  map_result
    (fun grade =>
       let grade_qs := QS.filter (fun l => log_grade l =? fst grade) qs in
       item_drops <-
         map_result (grade_item_summary drops qs grade_qs) all_items ;;
       monster_drops <-
         map_result (grade_monster_summary drops qs grade_qs) all_monsters ;;
       Ok (mkGradeSummary (snd grade) (item_drops ++ monster_drops)))
    grade_choices.
End Reports.

(* ================================================================= *)
(** ** The report orchestrator *)

Record Level : Type := mkLevel { level_pk : nat }.

Inductive ContentType : Type := DungeonLogType | RiftDungeonLogType.

Inductive GradeEntryReport : Type :=
| GradeNone
| GradeLevel (r : LevelDropReport)
| GradeSummaries (l : list GradeSummary).

Record GradeEntry : Type := mkGradeEntry {
  ge_grade : string;
  ge_report : GradeEntryReport
}.

Inductive Payload : Type :=
| LevelPayload (r : LevelDropReport)
| RiftPayload (l : list GradeEntry).

Record LevelReport : Type := mkLevelReport {
  level : Level;
  content_type : ContentType;
  start_timestamp : Z;
  end_timestamp : Z;
  log_count : nat;
  unique_contributors : nat;
  report : Payload
}.

(** [qs.aggregate(Count('wizard_id', distinct=True))] *)
Definition count_distinct_wizards (qs : QS.t Log) : nat :=
  length (distinct (map wizard_id (QS.rows qs))).

Section Orchestrator.
Variable QUALITY_CHOICES : list (nat * string).
Variable GameItem_objects : list GameItem.
Variable Monster_objects : list Monster.
(** [Level.objects], the two log models and [RiftDungeonLog.GRADE_CHOICES] *)
Variable Level_objects : list Level.
Variable DungeonLog : LogModel.
Variable RiftDungeonLog : LogModel.
Variable GRADE_CHOICES : list (nat * string).
(** The value of [timezone.now()] during the run. *)
Variable now : Z.

(** [Level.objects.filter(pk__in=levels)] for the levels of a log model. *)
Definition logged_levels (model : LogModel) : list Level :=
  QS.rows
    (QS.filter
       (fun lv => existsb (fun l => log_level l =? level_pk lv) (objects model))
       (QS.objects Level_objects)).

(** The window of a level: its successful dungeon runs. *)
Definition dungeon_window (lv : Level) : result (QS.t Log) :=
  _records_to_report now
    (QS.filter (fun l => (log_level l =? level_pk lv) && log_success l)
               (QS.objects (objects DungeonLog)))
    two_weeks 2500.

(** The body of the loop of [generate_dungeon_log_reports]: the report
    created for the level, if any. *)
Definition dungeon_level_report (lv : Level) : result (option LevelReport) :=
  records <- dungeon_window lv ;;
  if 0 <? QS.count records then
    report_data <-
      level_drop_report QUALITY_CHOICES DungeonLog records ;;
    oldest <- QS.index records (QS.count records - 1) ;;
    newest <- QS.index records 0 ;;
    Ok (Some {| level := lv;
                content_type := DungeonLogType;
                start_timestamp := timestamp oldest;
                end_timestamp := timestamp newest;
                log_count := QS.count records;
                unique_contributors := count_distinct_wizards records;
                report := LevelPayload report_data |})
  else Ok None.

(** A run over the levels: the reports created so far are kept when an
    exception ends the run. *)
Fixpoint run_levels (step : Level -> result (option LevelReport))
         (levels : list Level) (created : list LevelReport)
  : list LevelReport * result unit :=
  match levels with
  | [] => (created, Ok tt)
  | lv :: rest =>
      match step lv with
      | Raise e => (created, Raise e)
      | Ok None => run_levels step rest created
      | Ok (Some r) => run_levels step rest (created ++ [r])
      end
  end.

Definition generate_dungeon_log_reports : list LevelReport * result unit :=
  run_levels dungeon_level_report (logged_levels DungeonLog) [].

(** The window of one grade of a rift level. *)
Definition rift_window (lv : Level) (grade : nat) : result (QS.t Log) :=
  _records_to_report now
    (QS.filter (fun l => (log_level l =? level_pk lv) && (log_grade l =? grade))
               (QS.objects (objects RiftDungeonLog)))
    two_weeks 2500.

(** The loop over the grades: the union of the windows and the entries
    of the payload. *)
Fixpoint rift_grades (lv : Level) (grades : list (nat * string))
         (all_records : QS.t Log) (report_data : list GradeEntry)
  : result (QS.t Log * list GradeEntry) :=
  match grades with
  | [] => Ok (all_records, report_data)
  | (grade, grade_desc) :: rest =>
      records <- rift_window lv grade ;;
      grade_report <-
        (if 0 <? QS.count records then
           r <- level_drop_report QUALITY_CHOICES RiftDungeonLog records ;;
           Ok (GradeLevel r)
         else Ok GradeNone) ;;
      rift_grades lv rest (QS.or all_records records)
                  (report_data ++ [mkGradeEntry grade_desc grade_report])
  end.

Definition rift_level_report (lv : Level) : result (option LevelReport) :=
  ar <- rift_grades lv GRADE_CHOICES (QS.none (objects RiftDungeonLog)) [] ;;
  let all_records := fst ar in
  let report_data := snd ar in
  if 0 <? QS.count all_records then
    s <- grade_summary_report QUALITY_CHOICES GameItem_objects
           Monster_objects RiftDungeonLog all_records GRADE_CHOICES ;;
    let report_data :=
      report_data ++ [mkGradeEntry "summary" (GradeSummaries s)] in
    oldest <- QS.index all_records (QS.count all_records - 1) ;;
    newest <- QS.index all_records 0 ;;
    Ok (Some {| level := lv;
                content_type := RiftDungeonLogType;
                start_timestamp := timestamp oldest;
                end_timestamp := timestamp newest;
                log_count := QS.count all_records;
                unique_contributors := count_distinct_wizards all_records;
                report := RiftPayload report_data |})
  else Ok None.

Definition generate_rift_dungeon_reports : list LevelReport * result unit :=
  run_levels rift_level_report (logged_levels RiftDungeonLog) [].
End Orchestrator.

(* ================================================================= *)
(** ** Recognised category keys *)

Definition recognized_keys : list string :=
  [ ItemDrop_RELATED_NAME; MonsterDrop_RELATED_NAME;
    MonsterPieceDrop_RELATED_NAME; RuneDrop_RELATED_NAME;
    RuneCraftDrop_RELATED_NAME; DungeonSecretDungeonDrop_RELATED_NAME ].

Definition recognized (key : string) : bool :=
  existsb (String.eqb key) recognized_keys.

(** The handle stored under a key is a queryset of that key's drop model. *)
Definition handle_of_key (entry : string * DropQS) : bool :=
  match snd entry with
  | ItemQS _ => String.eqb (fst entry) ItemDrop_RELATED_NAME
  | MonsterQS _ => String.eqb (fst entry) MonsterDrop_RELATED_NAME
  | MonsterPieceQS _ => String.eqb (fst entry) MonsterPieceDrop_RELATED_NAME
  | RuneQS _ => String.eqb (fst entry) RuneDrop_RELATED_NAME
  | RuneCraftQS _ => String.eqb (fst entry) RuneCraftDrop_RELATED_NAME
  | SecretDungeonQS _ =>
      String.eqb (fst entry) DungeonSecretDungeonDrop_RELATED_NAME
  end.

(** The failure of an unrecognised key. *)
Definition no_summary_table (drop_type : string) : exn :=
  NotImplementedError ("No summary table generation for " ++ drop_type).

(** A rate as the rate invariant wants it: the percentage of [count] in
    [total], between 0 and 100. *)
Definition rate_of (count total : nat) (drop_chance : Q) : Prop :=
  (drop_chance == of_nat count / of_nat total * 100)%Q.

Definition within_percent (drop_chance : Q) : Prop :=
  (0 <= drop_chance)%Q /\ (drop_chance <= 100)%Q.

(** An average per run over [total] runs: the sum of the quantities
    divided by [total], and no value when there is no quantity to sum. *)
Definition avg_per_run_of (quantities : list Z) (total : nat)
           (avg_per_run : option Q) : Prop :=
  match quantities with
  | [] => avg_per_run = None
  | _ :: _ =>
      exists v, avg_per_run = Some v /\
                (v == inject_Z (fold_right Z.add 0%Z quantities) / of_nat total)%Q
  end.

(** A single rune whose sell value is a whole number of thousands. *)
Definition round_value_rune : RuneDrop :=
  mkRuneDrop 1 1 6 3 4 2 1 None [1; 2] (inject_Z 80) 3000.

(** Two runes with three substats and one substat. *)
Definition two_runes : list RuneDrop :=
  [ mkRuneDrop 1 1 6 3 4 2 1 None [1; 2; 3] (inject_Z 80) 1500;
    mkRuneDrop 2 1 5 3 3 4 2 (Some 5) [2] (inject_Z 60) 2500 ].

(** The bins of the sell value histogram of a rune report. *)
Definition value_bins (qs : QS.t RuneDrop) : option (list Z) :=
  match Min (map rd_value (QS.rows qs)), Max (map rd_value (QS.rows qs)) with
  | Some lo, Some hi =>
      Some (range (floor_to_nearest lo 1000) (ceil_to_nearest hi 1000) 500)
  | _, _ => None
  end.


(** The rate invariant of a row: its drop chance is the percentage of
    [count] in [total], it is not negative, and it is at most 100 when the
    count does not exceed the total. *)
Definition rate_invariant (count total : nat) (drop_chance : Q) : Prop :=
  rate_of count total drop_chance /\
  (0 <= drop_chance)%Q /\
  (count <= total -> (drop_chance <= 100)%Q).

(** The grouping keys of the item and monster tables. *)
Definition item_table_key (d : ItemDrop) : string * string * nat :=
  (item_name (id_item d), item_icon (id_item d), item_category (id_item d)).

Definition item_report_key (d : ItemDrop) : nat * string * string :=
  (item_pk (id_item d), item_name (id_item d), item_icon (id_item d)).

Definition monster_table_key (d : MonsterDrop)
  : string * string * string * string * bool * bool * nat :=
  let m := md_monster d in
  (monster_name m, bestiary_slug m, image_filename m, monster_element m,
   can_awaken m, is_awakened m, base_stars m).

(** The number of rows of a key. *)
Definition matching (row K : Type) `{EqDec K} (key : row -> K) (k : K)
           (l : list row) : nat :=
  length (List.filter (fun r => same (key r) k) l).

(** One successful run of level 1 that dropped the same item twice. *)
Definition mana_stone : GameItem := mkGameItem 1 "Mana Stone" "mana.png" 6.
Definition crystal : GameItem := mkGameItem 2 "Crystal" "crystal.png" 6.

Definition double_drop_model : LogModel :=
  {| objects := [ mkLog 1 1 true 0 7 100%Z ];
     items := Some [ mkItemDrop 1 1 mana_stone 500; mkItemDrop 2 1 mana_stone 700 ];
     monsters := None;
     monster_pieces := None;
     runes := None;
     rune_crafts := None;
     secret_dungeons := None |}.

(* ================================================================= *)
(** ** The cross-grade summary, spelled out *)

(** The item and monster drops of the logs of a queryset. *)
Definition window_item_drops (model : LogModel) (qs : QS.t Log) : list ItemDrop :=
  match items model with
  | Some t => List.filter (fun r => log_in qs (id_log r)) t
  | None => []
  end.

Definition window_monster_drops (model : LogModel) (qs : QS.t Log)
  : list MonsterDrop :=
  match monsters model with
  | Some t => List.filter (fun r => log_in qs (md_log r)) t
  | None => []
  end.

(** The catalog rows of the items and monsters that dropped. *)
Definition dropped_items (GameItem_objects : list GameItem) (model : LogModel)
           (qs : QS.t Log) : list GameItem :=
  List.filter (fun i => existsb (fun r => item_pk (id_item r) =? item_pk i)
                                (window_item_drops model qs))
              GameItem_objects.

Definition dropped_monsters (Monster_objects : list Monster) (model : LogModel)
           (qs : QS.t Log) : list Monster :=
  List.filter (fun m => existsb (fun r => monster_pk (md_monster r) =? monster_pk m)
                                (window_monster_drops model qs))
              Monster_objects.

Definition of_grade (grade : nat) (qs : QS.t Log) : QS.t Log :=
  QS.filter (fun l => log_grade l =? grade) qs.

(** The drops of an item, or of a monster, in the logs of one grade. *)
Definition grade_item_drops (model : LogModel) (qs : QS.t Log) (grade : nat)
           (item : GameItem) : list ItemDrop :=
  List.filter (fun r => log_in (of_grade grade qs) (id_log r)
                        && (item_pk (id_item r) =? item_pk item))
              (window_item_drops model qs).

Definition grade_monster_drops (model : LogModel) (qs : QS.t Log) (grade : nat)
           (monster : Monster) : list MonsterDrop :=
  List.filter (fun r => log_in (of_grade grade qs) (md_log r)
                        && (monster_pk (md_monster r) =? monster_pk monster))
              (window_monster_drops model qs).

(** The entries of an item and of a monster in the summary of a grade: the
    denominator is the count of the whole queryset. *)
Definition item_entry (model : LogModel) (qs : QS.t Log) (grade : nat)
           (item : GameItem) : DropSummary :=
  ItemSummary (item_name item) (item_icon item)
    (quantity_stats (map id_quantity (grade_item_drops model qs grade item))
                    (QS.count qs)).

Definition monster_entry (model : LogModel) (qs : QS.t Log) (grade : nat)
           (monster : Monster) : DropSummary :=
  MonsterSummary (monster_name monster) (image_filename monster)
    (base_stars monster)
    (length (grade_monster_drops model qs grade monster))
    (percent_of (length (grade_monster_drops model qs grade monster))
                (QS.count qs)).

Definition grade_summaries (GameItem_objects : list GameItem)
           (Monster_objects : list Monster) (model : LogModel) (qs : QS.t Log)
           (grade_choices : list (nat * string)) : list GradeSummary :=
  map (fun grade =>
         mkGradeSummary (snd grade)
           (map (item_entry model qs (fst grade))
                (dropped_items GameItem_objects model qs)
            ++ map (monster_entry model qs (fst grade))
                   (dropped_monsters Monster_objects model qs)))
      grade_choices.

(** The entry of a category in the mapping of the resolver. *)
Definition category_entry (key : string) (h : option DropQS) (qs : QS.t Log)
  : list (string * DropQS) :=
  match h with
  | Some d => [(key, filter_log_in d qs)]
  | None => []
  end.

(** A rift level with one run of grade 1, which dropped an item, and one
    run of grade 2, which dropped nothing. *)
Definition two_grade_model : LogModel :=
  {| objects := [ mkLog 2 1 true 2 8 200%Z; mkLog 1 1 true 1 7 100%Z ];
     items := Some [ mkItemDrop 1 1 crystal 3 ];
     monsters := None;
     monster_pieces := None;
     runes := None;
     rune_crafts := None;
     secret_dungeons := None |}.

Definition grades_A_B : list (nat * string) := [ (1, "A"%string); (2, "B"%string) ].

(** The time range and count that a report records about a window listed
    most recent first: the timestamps of its last and first records, which
    bound those of all its records, and an end that is not after [now]
    when no record of the window is. *)
Definition records_window (now : Z) (r : LevelReport) (window : list Log) : Prop :=
  log_count r = length window /\
  0 < length window /\
  (exists oldest newest,
     nth_error window (length window - 1) = Some oldest /\
     nth_error window 0 = Some newest /\
     start_timestamp r = timestamp oldest /\
     end_timestamp r = timestamp newest) /\
  Forall (fun l => (start_timestamp r <= timestamp l <= end_timestamp r)%Z)
         window /\
  (start_timestamp r <= end_timestamp r)%Z /\
  ((forall l, In l window -> (timestamp l <= now)%Z) ->
   (end_timestamp r <= now)%Z).

(** A level whose only run is a failed one. *)
Definition failed_run_model : LogModel :=
  {| objects := [ mkLog 1 1 false 0 7 50%Z ];
     items := None; monsters := None; monster_pieces := None;
     runes := None; rune_crafts := None; secret_dungeons := None |}.

(** A level with one successful run, stamped 200. *)
Definition one_run_model : LogModel :=
  {| objects := [ mkLog 1 1 true 0 7 200%Z ];
     items := None; monsters := None; monster_pieces := None;
     runes := None; rune_crafts := None; secret_dungeons := None |}.

(* ================================================================= *)
(** ** The payload of a rift report, spelled out *)

(** The entry that the loop over the grades appends for a grade choice:
    its description, and the report of its window, [None] when the window
    is empty. *)
Definition entry_of_grade (QUALITY_CHOICES : list (nat * string))
           (RiftDungeonLog : LogModel) (now : Z) (lv : Level)
           (grade : nat * string) (e : GradeEntry) : Prop :=
  ge_grade e = snd grade /\
  exists w, rift_window RiftDungeonLog now lv (fst grade) = Ok w /\
    (QS.count w = 0 -> ge_report e = GradeNone) /\
    (0 < QS.count w ->
     exists rep, level_drop_report QUALITY_CHOICES RiftDungeonLog w = Ok rep /\
                 ge_report e = GradeLevel rep).

(** Whether a log is in the window of a grade. *)
Definition window_cond (RiftDungeonLog : LogModel) (now : Z) (lv : Level)
           (grade : nat) (r : Log) : bool :=
  match rift_window RiftDungeonLog now lv grade with
  | Ok w => QS.cond w r
  | Raise _ => false
  end.

(** The count of an item in the block of a grade of the summary, and the
    number of its drop records in the window of a grade. *)
Definition summary_item_count (model : LogModel) (qs : QS.t Log) (grade : nat)
           (item : GameItem) : nat :=
  match item_entry model qs grade item with
  | ItemSummary _ _ st => st_count st
  | MonsterSummary _ _ _ _ _ => 0
  end.

Definition window_item_count (RiftDungeonLog : LogModel) (now : Z) (lv : Level)
           (grade : nat) (item : GameItem) : nat :=
  match rift_window RiftDungeonLog now lv grade with
  | Ok w =>
      length (List.filter (fun r => item_pk (id_item r) =? item_pk item)
                          (window_item_drops RiftDungeonLog w))
  | Raise _ => 0
  end.

Definition grades_A_B_C : list (nat * string) :=
  [ (1, "A"%string); (2, "B"%string); (3, "C"%string) ].

(* ================================================================= *)
(** ** Orders of report rows *)

(** Descending order of the counts of item report rows and chart entries. *)
Definition count_desc (a b : ItemReportRow) : Prop :=
  st_count (ir_stats b) <= st_count (ir_stats a).

Definition chart_desc (a b : ChartEntry) : Prop :=
  chart_count b <= chart_count a.

(** The minimum and maximum quantity of a row are present and in order. *)
Definition quantity_range (st : Stats) : Prop :=
  exists lo hi, st_min st = Some lo /\ st_max st = Some hi /\ (lo <= hi)%Z.

(** Whether the table of a category is kept in the summary: the category
    has drops, or it is the rune category. *)
Definition has_table (entry : string * DropQS) : bool :=
  (0 <? drop_count (snd entry)) || String.eqb (fst entry) RuneDrop_RELATED_NAME.

(** The chart entries of a category other than items and monsters. *)
Definition category_chart (drop_type : string) (h : DropQS) : list ChartEntry :=
  if 0 <? drop_count h
  then [mkChart (category_label drop_type) (drop_count h)]
  else [].

(** The logs that the drop records of a handle refer to. *)
Definition drop_logs (h : DropQS) : list nat :=
  match h with
  | ItemQS qs => map id_log (QS.rows qs)
  | MonsterQS qs => map md_log (QS.rows qs)
  | MonsterPieceQS qs => map mp_log (QS.rows qs)
  | RuneQS qs => map rd_log (QS.rows qs)
  | RuneCraftQS qs => map rc_log (QS.rows qs)
  | SecretDungeonQS qs => map sd_log (QS.rows qs)
  end.

Definition is_some (A : Type) (o : option A) : bool :=
  match o with Some _ => true | None => false end.

(** The name of an entry of a grade block of the cross-grade summary. *)
Definition entry_name (d : DropSummary) : string :=
  match d with
  | ItemSummary name _ _ => name
  | MonsterSummary name _ _ _ _ => name
  end.

(** [l1] is [l2] with some of its elements left out. *)
Inductive Subseq (A : Type) : list A -> list A -> Prop :=
| Subseq_nil : Subseq [] []
| Subseq_skip (x : A) (l1 l2 : list A) : Subseq l1 l2 -> Subseq l1 (x :: l2)
| Subseq_take (x : A) (l1 l2 : list A) : Subseq l1 l2 -> Subseq (x :: l1) (x :: l2).

(** The number of records of the window of a grade of a rift level. *)
Definition window_count (RiftDungeonLog : LogModel) (now : Z) (lv : Level)
           (grade : nat) : nat :=
  match rift_window RiftDungeonLog now lv grade with
  | Ok w => QS.count w
  | Raise _ => 0
  end.

(** Whether a level occurs in a log row of a model. *)
Definition logged (model : LogModel) (lv : Level) : Prop :=
  exists l, In l (objects model) /\ log_level l = level_pk lv.

(** Examples: a monster and two of its drops, and a run of each of three
    successive days. *)
Definition fire_imp : Monster :=
  mkMonster 1 "Imp" "imp" "imp.png" "fire" true false 2 10 101.

Definition two_imp_drops : list MonsterDrop :=
  [ mkMonsterDrop 1 1 fire_imp 2; mkMonsterDrop 2 2 fire_imp 2 ].

Definition three_item_drops : list ItemDrop :=
  [ mkItemDrop 1 1 mana_stone 500; mkItemDrop 2 1 crystal 3;
    mkItemDrop 3 2 crystal 5 ].

Definition three_day_logs : list Log :=
  [ mkLog 3 1 true 0 7 300%Z; mkLog 2 1 true 0 8 200%Z; mkLog 1 1 true 0 7 100%Z ].
(* ================================================================= *)
(** ** List and queryset lemmas *)

Lemma filter_andb (A : Type) (c p : A -> bool) (l : list A) :
  List.filter (fun r => c r && p r) l = List.filter p (List.filter c l).
Proof.
  induction l as [|a l IH]; simpl; [reflexivity|].
  destruct (c a); simpl; [destruct (p a)|]; now rewrite IH.
Qed.

Lemma rows_filter (A : Type) (p : A -> bool) (qs : QS.t A) :
  QS.rows (QS.filter p qs) = List.filter p (QS.rows qs).
Proof. unfold QS.rows, QS.filter; simpl. apply filter_andb. Qed.

Lemma filter_all (A : Type) (p : A -> bool) (l : list A) :
  Forall (fun x => p x = true) l -> List.filter p l = l.
Proof.
  induction 1 as [|a l Ha _ IH]; simpl; [reflexivity|].
  now rewrite Ha, IH.
Qed.

Lemma filter_nothing (A : Type) (p : A -> bool) (l : list A) :
  Forall (fun x => p x = false) l -> List.filter p l = [].
Proof.
  induction 1 as [|a l Ha _ IH]; simpl; [reflexivity|].
  now rewrite Ha.
Qed.

Lemma recent_first_sorted (l : list Log) :
  recent_first l = true -> StronglySorted newer_eq l.
Proof.
  intros H. apply Sorted_StronglySorted.
  - intros a b c Hab Hbc. unfold newer_eq in *. lia.
  - induction l as [|a [|b l] IH]; constructor.
    + constructor.
    + constructor.
    + apply IH. simpl in H. apply andb_prop in H. apply H.
    + constructor. simpl in H. apply andb_prop in H.
      unfold newer_eq. apply Z.leb_le. apply H.
Qed.

Lemma strictly_recent_first_sorted (l : list Log) :
  strictly_recent_first l = true -> StronglySorted newer l.
Proof.
  intros H. apply Sorted_StronglySorted.
  - intros a b c Hab Hbc. unfold newer in *. lia.
  - induction l as [|a [|b l] IH]; constructor.
    + constructor.
    + constructor.
    + apply IH. simpl in H. apply andb_prop in H. apply H.
    + constructor. simpl in H. apply andb_prop in H.
      unfold newer. apply Z.ltb_lt. apply H.
Qed.

Lemma sorted_filter (A : Type) (R : A -> A -> Prop) (p : A -> bool) l :
  StronglySorted R l -> StronglySorted R (List.filter p l).
Proof.
  induction 1 as [|a l Hs IH Hall]; simpl; [constructor|].
  destruct (p a); [|exact IH].
  constructor; [exact IH|].
  rewrite Forall_forall in *. intros x Hx.
  apply filter_In in Hx. apply Hall, Hx.
Qed.

(** In a list sorted by [R], every element of the first [k] is related to
    every element after them. *)
Lemma sorted_split (A : Type) (R : A -> A -> Prop) (l : list A) (k : nat) :
  StronglySorted R l ->
  forall a b, In a (firstn k l) -> In b (skipn k l) -> R a b.
Proof.
  intros Hs. revert k.
  induction Hs as [|x l Hs IH Hall]; intros k a b Ha Hb.
  - rewrite firstn_nil in Ha. destruct Ha.
  - destruct k as [|k]; simpl in *; [destruct Ha|].
    destruct Ha as [<-|Ha].
    + rewrite Forall_forall in Hall. apply Hall.
      rewrite <- (firstn_skipn k l). apply in_or_app. now right.
    + eapply IH; eassumption.
Qed.

Lemma sorted_boundary (l : list Log) (k : nat) (e : Log) :
  StronglySorted newer_eq l -> nth_error l k = Some e ->
  Forall (fun a => since (timestamp e) a = true) (firstn (S k) l) /\
  Forall (fun b => (timestamp b <= timestamp e)%Z) (skipn (S k) l).
Proof.
  intros Hs. revert k.
  induction Hs as [|x l Hs IH Hall]; intros k Hk.
  - destruct k; discriminate.
  - destruct k as [|k].
    + injection Hk as <-. split.
      * simpl. constructor; [|constructor]. unfold since. apply Z.leb_le. lia.
      * exact Hall.
    + simpl in Hk. destruct (IH k Hk) as [Hf Hb]. split; [|exact Hb].
      change (firstn (S (S k)) (x :: l)) with (x :: firstn (S k) l).
      constructor; [|exact Hf].
      rewrite Forall_forall in Hall. apply nth_error_In in Hk.
      unfold since. apply Z.leb_le. apply (Hall e Hk).
Qed.

Lemma nth_error_firstn_last (A : Type) (l : list A) (k : nat) (e : A) :
  nth_error l k = Some e -> In e (firstn (S k) l).
Proof.
  revert k. induction l as [|x l IH]; intros [|k] H; try discriminate.
  - injection H as <-. now left.
  - right. apply IH. exact H.
Qed.

(* ================================================================= *)
(** ** The sampling window selector: properties *)

(** C1, as stated, fails: with a minimum count of 1 and two records sharing
    the boundary timestamp, the count-bounded window holds both records,
    not the single most recent one. *)
Lemma records_to_report_ties_counterexample :
  recent_first tied_logs = true /\
  window_rows 100 (QS.objects tied_logs) 10 1 = Ok tied_logs /\
  ~ window_as_described 100 (QS.objects tied_logs) 10 1 tied_logs.
Proof.
  split; [reflexivity|]. split; [reflexivity|].
  intros (_ & H & _). specialize (H ltac:(simpl; lia)). discriminate H.
Qed.

(** C1, amended: for a stream ordered most recent first, the selector
    returns exactly the records of the time span when these are at least
    [M]; otherwise it returns the [k = min M total] most recent records
    followed by every later record of the stream that shares the timestamp
    of the [k]-th one (none when timestamps are pairwise distinct), and the
    empty window when the stream is empty.  It never raises. *)
Theorem records_to_report_window (now : Z) (qs : QS.t Log) (T : Z) (M : nat) :
  recent_first (QS.rows qs) = true ->
  exists W, window_rows now qs T M = Ok W /\
    let within := List.filter (since (now - T)) (QS.rows qs) in
    let k := Nat.min M (QS.count qs) in
    (M <= length within -> W = within) /\
    (length within < M -> 0 < QS.count qs ->
       exists e, nth_error (QS.rows qs) (k - 1) = Some e /\
         W = firstn k (QS.rows qs) ++
             List.filter (fun r => (timestamp r =? timestamp e)%Z)
                         (skipn k (QS.rows qs)) /\
         (strictly_recent_first (QS.rows qs) = true ->
            W = firstn k (QS.rows qs))) /\
    (QS.count qs = 0 -> W = []).
Proof.
  intros Hsorted. apply recent_first_sorted in Hsorted.
  unfold window_rows, _records_to_report, QS.count, QS.slice.
  rewrite rows_filter.
  set (rs := QS.rows qs) in *.
  set (within := List.filter (since (now - T)) rs).
  destruct (Nat.ltb_spec (length within) M) as [Hlt|Hge].
  - rewrite length_firstn.
    destruct (Nat.ltb_spec 0 (Nat.min M (length rs))) as [Hpos|Hzero].
    + assert (Hk : Nat.min M (length rs) - 1 < length rs) by lia.
      destruct (nth_error rs (Nat.min M (length rs) - 1)) as [e|] eqn:He;
        [|apply nth_error_None in He; lia].
      unfold QS.slice_index. rewrite nth_error_firstn.
      destruct (Nat.ltb_spec (Nat.min M (length rs) - 1) M); [|lia].
      rewrite He. simpl. rewrite rows_filter. fold rs.
      eexists; split; [reflexivity|]. simpl.
      split; [intros; lia|].
      split; [|intros; lia].
      intros _ _. exists e. split; [reflexivity|].
      set (k := Nat.min M (length rs)) in *.
      assert (Hsk : S (k - 1) = k) by lia.
      destruct (@sorted_boundary rs (k - 1) e Hsorted He) as [Hf Hb]. rewrite Hsk in Hf, Hb.
      assert (Hsplit : List.filter (since (timestamp e)) rs =
                firstn k rs ++
                List.filter (fun r => (timestamp r =? timestamp e)%Z) (skipn k rs)).
      { rewrite <- (firstn_skipn k rs) at 1. rewrite filter_app.
        rewrite (filter_all _ Hf). f_equal.
        apply filter_ext_in. intros b Hin.
        rewrite Forall_forall in Hb. specialize (Hb b Hin).
        unfold since. destruct (Z.leb_spec (timestamp e) (timestamp b));
          destruct (Z.eqb_spec (timestamp b) (timestamp e)); try reflexivity; lia. }
      split; [exact Hsplit|].
      intros Hstrict. rewrite Hsplit.
      apply strictly_recent_first_sorted in Hstrict.
      rewrite filter_nothing; [apply app_nil_r|].
      apply Forall_forall. intros b Hin.
      assert (Hn : newer e b).
      { apply (@sorted_split Log newer rs k Hstrict); [|exact Hin].
        rewrite <- Hsk. apply nth_error_firstn_last. exact He. }
      unfold newer in Hn. apply Z.eqb_neq. lia.
    + simpl. fold rs. eexists; split; [reflexivity|]. simpl.
      split; [intros; lia|].
      assert (Hlen : length rs = 0) by lia.
      split; [intros; lia|].
      intros _. destruct rs; [reflexivity|discriminate].
  - simpl. rewrite rows_filter. fold rs. fold within.
    eexists; split; [reflexivity|]. simpl.
    split; [reflexivity|]. split; [intros; lia|].
    intros H0. destruct rs; [reflexivity|discriminate].
Qed.

(** The theorem at two records logged at distinct times, none recent. *)
Lemma records_to_report_window_witness :
  exists W, window_rows 100 (QS.objects
               [mkLog 2 1 true 0 7 6%Z; mkLog 1 1 true 0 7 5%Z]) 10 1 = Ok W /\
            W = [mkLog 2 1 true 0 7 6%Z].
Proof.
  destruct (@records_to_report_window 100
              (QS.objects [mkLog 2 1 true 0 7 6%Z; mkLog 1 1 true 0 7 5%Z])
              10 1 eq_refl) as (W & HW & _ & H & _).
  exists W. split; [exact HW|].
  destruct (H ltac:(vm_compute; lia) ltac:(vm_compute; lia)) as (e & _ & _ & Hs).
  exact (Hs eq_refl).
Defined.

(* ================================================================= *)
(** ** Grouping and ordering: properties *)

Lemma same_true (A : Type) `{EqDec A} (x y : A) : same x y = true <-> x = y.
Proof. unfold same. destruct (eq_dec x y); split; congruence. Qed.

Lemma same_refl (A : Type) `{EqDec A} (x : A) : same x x = true.
Proof. now apply same_true. Qed.

Lemma insert_by_In (A : Type) (le : A -> A -> bool) (x y : A) (l : list A) :
  In y (insert_by le x l) <-> y = x \/ In y l.
Proof.
  induction l as [|z l IH]; simpl.
  - intuition.
  - destruct (le x z); simpl; [intuition|]. rewrite IH. intuition.
Qed.

Lemma order_by_In (A : Type) (le : A -> A -> bool) (y : A) (l : list A) :
  In y (order_by le l) <-> In y l.
Proof.
  unfold order_by. induction l as [|x l IH]; simpl; [tauto|].
  rewrite insert_by_In, IH. intuition.
Qed.

Lemma insert_by_length (A : Type) (le : A -> A -> bool) (x : A) (l : list A) :
  length (insert_by le x l) = S (length l).
Proof.
  induction l as [|z l IH]; simpl; [reflexivity|].
  destruct (le x z); simpl; [reflexivity|]. now rewrite IH.
Qed.

Lemma order_by_length (A : Type) (le : A -> A -> bool) (l : list A) :
  length (order_by le l) = length l.
Proof.
  unfold order_by. induction l as [|x l IH]; simpl; [reflexivity|].
  now rewrite insert_by_length, IH.
Qed.

Lemma distinct_In (K : Type) `{EqDec K} (k : K) (ks : list K) :
  In k (distinct ks) <-> In k ks.
Proof.
  induction ks as [|a ks IH]; simpl; [tauto|].
  rewrite filter_In, IH. split.
  - intros [Ha|[Hin _]]; auto.
  - intros [Ha|Hin]; [now left|].
    destruct (eq_dec a k) as [E|E]; [now left|right].
    split; [exact Hin|].
    destruct (same k a) eqn:S; [|reflexivity].
    apply same_true in S. congruence.
Qed.

(** Every group holds exactly the rows of its key, and is not empty. *)
Lemma group_by_In (row K : Type) `{EqDec K} (key : row -> K) (l : list row)
      (k : K) (g : list row) :
  In (k, g) (group_by key l) ->
  g = List.filter (fun r => same (key r) k) l /\ 0 < length g.
Proof.
  unfold group_by. intros Hin. apply in_map_iff in Hin.
  destruct Hin as (k' & E & Hk). injection E as -> <-.
  split; [reflexivity|].
  apply distinct_In in Hk. apply in_map_iff in Hk.
  destruct Hk as (r & <- & Hr).
  assert (Hin : In r (List.filter (fun r0 => same (key r0) (key r)) l)).
  { apply filter_In. split; [exact Hr|apply same_refl]. }
  destruct (List.filter (fun r0 => same (key r0) (key r)) l);
    [destruct Hin|simpl; lia].
Qed.

Lemma filter_length_le (A : Type) (p : A -> bool) (l : list A) :
  length (List.filter p l) <= length l.
Proof.
  induction l as [|a l IH]; simpl; [lia|]. destruct (p a); simpl; lia.
Qed.

Lemma distinct_NoDup (K : Type) `{EqDec K} (ks : list K) : NoDup (distinct ks).
Proof.
  induction ks as [|k ks IH]; simpl; constructor.
  - intros Hin. apply filter_In in Hin. destruct Hin as [_ Hk].
    rewrite same_refl in Hk. discriminate Hk.
  - apply NoDup_filter. exact IH.
Qed.

Lemma indicator_sum (K : Type) `{EqDec K} (x : K) (ks : list K) :
  NoDup ks -> In x ks ->
  list_sum (map (fun k => if same x k then 1 else 0) ks) = 1.
Proof.
  induction 1 as [|k ks Hk Hnd IH]; intros Hin; [destruct Hin|].
  simpl. destruct (same x k) eqn:E.
  - apply same_true in E. subst k.
    assert (Hzero : list_sum (map (fun k => if same x k then 1 else 0) ks) = 0).
    { clear IH Hnd Hin. induction ks as [|a ks IH]; simpl; [reflexivity|].
      destruct (same x a) eqn:Ea.
      - apply same_true in Ea. subst a. exfalso. apply Hk. now left.
      - apply IH. intros Hin. apply Hk. now right. }
    lia.
  - destruct Hin as [<-|Hin]; [now rewrite same_refl in E|].
    simpl. now apply IH.
Qed.

Lemma list_sum_map_add (A : Type) (f g : A -> nat) (l : list A) :
  list_sum (map (fun a => f a + g a) l)
  = list_sum (map f l) + list_sum (map g l).
Proof. induction l as [|a l IH]; simpl; lia. Qed.

(** The groups of a list ordered by key partition it: their sizes add up
    to its length. *)
Lemma count_partition (row K : Type) `{EqDec K} (key : row -> K)
      (ks : list K) (l : list row) :
  NoDup ks -> (forall r, In r l -> In (key r) ks) ->
  list_sum (map (fun k => length (List.filter (fun r => same (key r) k) l)) ks)
  = length l.
Proof.
  intros Hnd. induction l as [|r l IH]; intros Hin.
  - simpl. clear. induction ks as [|k ks IH]; simpl; auto.
  - rewrite (map_ext _ (fun k => (if same (key r) k then 1 else 0)
                                 + length (List.filter
                                             (fun r0 => same (key r0) k) l))).
    + rewrite list_sum_map_add.
      rewrite IH by (intros r0 Hr0; apply Hin; now right).
      rewrite indicator_sum; [reflexivity|exact Hnd|].
      apply Hin. now left.
    + intros k. simpl. destruct (same (key r) k); reflexivity.
Qed.

Lemma count_by_sum (row K : Type) `{EqDec K} (key : row -> K) (l : list row) :
  list_sum (map snd (count_by key l)) = length l.
Proof.
  unfold count_by, group_by. rewrite !map_map. simpl.
  apply count_partition.
  - apply distinct_NoDup.
  - intros r Hr. apply distinct_In. now apply in_map.
Qed.

Lemma insert_by_sum (K : Type) (le : K * nat -> K * nat -> bool)
      (x : K * nat) (l : list (K * nat)) :
  list_sum (map snd (insert_by le x l)) = snd x + list_sum (map snd l).
Proof.
  induction l as [|y l IH]; simpl; [reflexivity|].
  destruct (le x y); simpl; [reflexivity|]. rewrite IH. lia.
Qed.

Lemma order_by_sum (K : Type) (le : K * nat -> K * nat -> bool)
      (l : list (K * nat)) :
  list_sum (map snd (order_by le l)) = list_sum (map snd l).
Proof.
  unfold order_by. induction l as [|x l IH]; simpl; [reflexivity|].
  now rewrite insert_by_sum, IH.
Qed.

(* ================================================================= *)
(** ** Rates *)

Lemma of_nat_nonneg (n : nat) : (0 <= of_nat n)%Q.
Proof. unfold of_nat, Qle. simpl. lia. Qed.

Lemma of_nat_pos (n : nat) : 0 < n -> (0 < of_nat n)%Q.
Proof. intros Hn. unfold of_nat, Qlt. simpl. lia. Qed.

Lemma percent_of_nonneg (count total : nat) : (0 <= percent_of count total)%Q.
Proof.
  unfold percent_of.
  apply Qmult_le_0_compat; [|unfold Qle; simpl; lia].
  destruct total as [|t].
  - unfold of_nat, Qdiv, Qinv, Qmult, Qle. simpl. lia.
  - apply Qle_shift_div_l; [apply of_nat_pos; lia|].
    rewrite Qmult_0_l. apply of_nat_nonneg.
Qed.

Lemma percent_of_le_100 (count total : nat) :
  0 < total -> count <= total -> (percent_of count total <= 100)%Q.
Proof.
  intros Ht Hc. unfold percent_of.
  setoid_replace 100%Q with (1 * 100)%Q at 2 by reflexivity.
  apply Qmult_le_compat_r; [|unfold Qle; simpl; lia].
  apply Qle_shift_div_r; [apply of_nat_pos; exact Ht|].
  rewrite Qmult_1_l. unfold of_nat. rewrite <- Zle_Qle. lia.
Qed.

Lemma percent_of_gt_100 (count total : nat) :
  0 < total -> total < count -> ~ (percent_of count total <= 100)%Q.
Proof.
  intros Ht Hc Hle. unfold percent_of in Hle.
  assert (H1 : (of_nat count / of_nat total <= 1)%Q).
  { apply Qmult_lt_0_le_reg_r with (z := 100%Q); [reflexivity|].
    now rewrite Qmult_1_l. }
  assert (H2 : (of_nat count <= of_nat total)%Q).
  { setoid_replace (of_nat count)
      with (of_nat count / of_nat total * of_nat total)%Q.
    - setoid_replace (of_nat total) with (1 * of_nat total)%Q at 3
        by (now rewrite Qmult_1_l).
      apply Qmult_le_compat_r; [exact H1|apply of_nat_nonneg].
    - field. intros E. pose proof (of_nat_pos Ht) as P. rewrite E in P.
      discriminate P. }
  unfold of_nat in H2. rewrite <- Zle_Qle in H2. lia.
Qed.

(* ================================================================= *)
(** ** The category aggregators: properties *)

(** C2: the aggregators of the monster piece, rune craft and secret dungeon
    categories return a fixed string for every handle, an empty one
    included, where the item, monster and rune aggregators return [None]
    on an empty handle. *)
Theorem placeholder_aggregators (QUALITY_CHOICES : list (nat * string)) (n : nat) :
  (forall qs, get_monster_piece_report qs n = TextReport "monster piece report") /\
  (forall qs, get_rune_craft_report qs n = TextReport "rune craft report") /\
  (forall qs, get_secret_dungeon_report qs n = TextReport "secret dungeon report") /\
  get_monster_piece_report (QS.objects []) n <> NoReport /\
  get_rune_craft_report (QS.objects []) n <> NoReport /\
  get_secret_dungeon_report (QS.objects []) n <> NoReport /\
  get_item_report (QS.objects []) n = NoReport /\
  get_monster_report (QS.objects []) n = NoReport /\
  get_rune_report QUALITY_CHOICES (QS.objects []) n = Ok NoReport.
Proof.
  repeat split; try reflexivity; discriminate.
Qed.

Lemma length_flat_map_sum (A B : Type) (f : A -> list B) (l : list A) :
  length (flat_map f l) = list_sum (map (fun a => length (f a)) l).
Proof.
  induction l as [|a l IH]; simpl; [reflexivity|].
  now rewrite length_app, IH.
Qed.

Lemma range_nonempty (start stop step : Z) :
  (0 < step)%Z -> (start < stop)%Z -> range start stop step <> [].
Proof.
  intros Hs Hlt. unfold range.
  assert (H1 : (1 <= (stop - start + step - 1) / step)%Z).
  { apply Z.div_le_lower_bound; lia. }
  destruct (Z.to_nat ((stop - start + step - 1) / step)) as [|n] eqn:E;
    [lia|discriminate].
Qed.

Lemma histogram_ok (row : Type) (rows : list row) (column : row -> Q)
      (bins : list Z) (slice_on : row -> nat) (choices : list (nat * string)) :
  bins <> [] -> exists h, histogram rows column bins slice_on choices = Ok h.
Proof.
  intros Hb. unfold histogram. destruct bins; [congruence|]. eexists. reflexivity.
Qed.

(** C6: for a rune drop set that is not empty, the total of the substat
    block of the rune report is the sum, over the runes, of the lengths of
    their substat lists, and the counts per substat add up to it; the
    report is returned whenever the sell value histogram has a bin. *)
Theorem rune_report_substats_total (QUALITY_CHOICES : list (nat * string))
        (qs : QS.t RuneDrop) (n : nat) :
  0 < QS.count qs ->
  (forall r, get_rune_report QUALITY_CHOICES qs n = Ok (RuneReport r) ->
     total (rs_substats r)
     = list_sum (map (fun d => length (rd_substats d)) (QS.rows qs)) /\
     list_sum (map snd (data (rs_substats r))) = total (rs_substats r)) /\
  (forall bins, value_bins qs = Some bins -> bins <> [] ->
     exists r, get_rune_report QUALITY_CHOICES qs n = Ok (RuneReport r)).
Proof.
  intros Hpos. unfold get_rune_report, value_bins.
  destruct (Nat.eqb_spec (QS.count qs) 0) as [E|_]; [lia|].
  destruct (Min (map rd_value (QS.rows qs))) as [lo|];
    [|split; [intros r H; discriminate H|intros bins H; discriminate H]].
  destruct (Max (map rd_value (QS.rows qs))) as [hi|];
    [|split; [intros r H; discriminate H|intros bins H; discriminate H]].
  split.
  - intros r H.
    destruct (histogram (QS.rows qs) rd_max_efficiency (range 0 100 5)
                        rd_quality QUALITY_CHOICES) as [me|e];
      [|discriminate H].
    destruct (histogram (QS.rows qs) (fun r0 => inject_Z (rd_value r0))
                (range (floor_to_nearest lo 1000) (ceil_to_nearest hi 1000) 500)
                rd_quality QUALITY_CHOICES) as [v|e];
      [|discriminate H].
    simpl in H. injection H as <-. simpl. split.
    + unfold flat_substats. apply length_flat_map_sum.
    + unfold by_key, Counter. rewrite order_by_sum. apply count_by_sum.
  - intros bins Hb Hne. injection Hb as <-.
    destruct (@histogram_ok RuneDrop (QS.rows qs) rd_max_efficiency
                (range 0 100 5) rd_quality QUALITY_CHOICES) as [me Hme];
      [apply range_nonempty; lia|].
    destruct (@histogram_ok RuneDrop (QS.rows qs)
                (fun r0 => inject_Z (rd_value r0))
                (range (floor_to_nearest lo 1000) (ceil_to_nearest hi 1000) 500)
                rd_quality QUALITY_CHOICES Hne) as [v Hv].
    rewrite Hme, Hv. simpl. eexists. reflexivity.
Qed.

(** Two runes with three substats and one: the total is four, not two. *)
Lemma rune_report_substats_total_witness :
  exists r, get_rune_report [] (QS.objects two_runes) 2 = Ok (RuneReport r) /\
            total (rs_substats r) = 4.
Proof.
  destruct (@rune_report_substats_total [] (QS.objects two_runes) 2
              ltac:(vm_compute; lia)) as [Htotal Hret].
  destruct (Hret _ eq_refl ltac:(vm_compute; discriminate)) as [r Hr].
  exists r. split; [exact Hr|]. exact (proj1 (Htotal r Hr)).
Defined.

(** C5: for a rune drop set whose sell values are one and the same whole
    number of thousands, the sell value histogram has no bin at all: the
    rune falls in no cell, and the report is not produced. *)
Theorem value_histogram_without_bins (QUALITY_CHOICES : list (nat * string)) :
  QS.count (QS.objects [round_value_rune]) = 1 /\
  value_bins (QS.objects [round_value_rune]) = Some [] /\
  bin_of [] (inject_Z (rd_value round_value_rune)) = None /\
  get_rune_report QUALITY_CHOICES (QS.objects [round_value_rune]) 1
  = Raise IndexError.
Proof.
  repeat split.
Qed.

(* ================================================================= *)
(** ** The sell value histogram when it has bins *)

Lemma Qle_bool_inject (a b : Z) :
  Qle_bool (inject_Z a) (inject_Z b) = (a <=? b)%Z.
Proof. unfold Qle_bool, inject_Z. simpl. now rewrite !Z.mul_1_r. Qed.

Lemma fold_min_le (tl : list Z) (x v : Z) :
  In v (x :: tl) -> (fold_right Z.min x tl <= v)%Z.
Proof.
  induction tl as [|a tl IH]; simpl.
  - intros [<-|[]]. lia.
  - intros [<-|[<-|H]].
    + specialize (IH (or_introl eq_refl)). lia.
    + lia.
    + specialize (IH (or_intror H)). lia.
Qed.

Lemma Min_le (l : list Z) (m v : Z) :
  Min l = Some m -> In v l -> (m <= v)%Z.
Proof.
  destruct l as [|x tl]; [discriminate|]. simpl.
  intros E. injection E as <-. apply fold_min_le.
Qed.

Lemma floor_to_nearest_le (x : Z) : (floor_to_nearest x 1000 <= x)%Z.
Proof.
  unfold floor_to_nearest. rewrite Z.mul_comm. apply Z.mul_div_le. lia.
Qed.

Lemma range_In (start stop step b : Z) :
  (0 < step)%Z -> In b (range start stop step) ->
  exists i, b = (start + step * Z.of_nat i)%Z /\ (start <= b < stop)%Z.
Proof.
  intros Hs Hin. unfold range in Hin. apply in_map_iff in Hin.
  destruct Hin as (i & <- & Hi). apply in_seq in Hi.
  exists i. split; [reflexivity|].
  assert (Hq : (Z.of_nat i + 1 <= (stop - start + step - 1) / step)%Z) by lia.
  pose proof (Z.mul_div_le (stop - start + step - 1) step Hs) as Hm.
  nia.
Qed.

Lemma range_hd (start stop step : Z) :
  range start stop step <> [] ->
  hd_error (range start stop step) = Some start.
Proof.
  unfold range.
  destruct (Z.to_nat ((stop - start + step - 1) / step)) as [|n];
    [intros H; now contradiction H|].
  intros _. simpl. f_equal. lia.
Qed.

Lemma bin_of_cons (lo hi : Z) (rest : list Z) (v : Q) :
  bin_of (lo :: hi :: rest) v
  = if Qle_bool (inject_Z lo) v && negb (Qle_bool (inject_Z hi) v)
    then Some lo else bin_of (hi :: rest) v.
Proof. reflexivity. Qed.

(** A value that is not below the first bin has a bucket. *)
Lemma bin_of_covers (bins : list Z) (first v : Z) :
  hd_error bins = Some first -> (first <= v)%Z ->
  exists b, In b bins /\ bin_of bins (inject_Z v) = Some b /\ (b <= v)%Z.
Proof.
  revert first. induction bins as [|lo rest IH]; intros first Hhd Hle;
    [discriminate|].
  injection Hhd as ->. destruct rest as [|hi rest'].
  - simpl. rewrite Qle_bool_inject. destruct (Z.leb_spec first v); [|lia].
    exists first. split; [now left|]. split; [reflexivity|lia].
  - rewrite bin_of_cons, !Qle_bool_inject.
    destruct (Z.leb_spec first v); [|lia].
    destruct (Z.leb_spec hi v) as [Hhi|Hhi]; cbn [andb negb].
    + destruct (IH hi eq_refl Hhi) as (b & Hin & Hb & Hbv).
      exists b. split; [now right|]. split; assumption.
    + exists first. split; [now left|]. split; [reflexivity|lia].
Qed.

(** Whenever the sell value histogram has a bin, its bins are multiples of
    500 from the minimum rounded down to the thousand up to, and not
    including, the maximum rounded up to the thousand; every rune of the
    set has a bucket; and the histogram has one row per bin with one count
    per quality choice, zero or not. *)
Lemma value_histogram_cells (QUALITY_CHOICES : list (nat * string))
      (qs : QS.t RuneDrop) (bins : list Z) :
  value_bins qs = Some bins -> bins <> [] ->
  (exists lo hi,
      Min (map rd_value (QS.rows qs)) = Some lo /\
      Max (map rd_value (QS.rows qs)) = Some hi /\
      hd_error bins = Some (floor_to_nearest lo 1000) /\
      Forall (fun b => (b mod 500 = 0)%Z /\
                       (floor_to_nearest lo 1000 <= b
                        < ceil_to_nearest hi 1000)%Z) bins) /\
  (forall r, In r (QS.rows qs) ->
     exists b, In b bins /\
               bin_of bins (inject_Z (rd_value r)) = Some b) /\
  (exists h,
      histogram (QS.rows qs) (fun r => inject_Z (rd_value r)) bins
                rd_quality QUALITY_CHOICES = Ok h /\
      map bin h = bins /\
      Forall (fun row => map fst (slices row) = map snd QUALITY_CHOICES) h).
Proof.
  unfold value_bins.
  destruct (Min (map rd_value (QS.rows qs))) as [lo|] eqn:Emin; [|discriminate].
  destruct (Max (map rd_value (QS.rows qs))) as [hi|] eqn:Emax; [|discriminate].
  intros E Hne. injection E as <-.
  pose proof (range_hd _ _ _ Hne) as Hhd.
  split; [|split].
  - exists lo, hi. repeat split; auto.
    apply Forall_forall. intros b Hb.
    apply range_In in Hb; [|lia]. destruct Hb as (i & Hb & Hrange).
    split; [|exact Hrange]. subst b. unfold floor_to_nearest.
    replace (lo / 1000 * 1000 + 500 * Z.of_nat i)%Z
      with ((2 * (lo / 1000) + Z.of_nat i) * 500)%Z by lia.
    apply Z_mod_mult.
  - intros r Hr.
    assert (Hlo : (lo <= rd_value r)%Z).
    { eapply Min_le; [exact Emin|]. now apply in_map. }
    pose proof (floor_to_nearest_le lo) as Hfl.
    destruct (@bin_of_covers _ _ (rd_value r) Hhd ltac:(lia)) as (b & Hin & Hb & _).
    exists b. split; assumption.
  - unfold histogram.
    destruct (range (floor_to_nearest lo 1000) (ceil_to_nearest hi 1000) 500)
      as [|b0 bs] eqn:Er; [congruence|].
    eexists. split; [reflexivity|]. split.
    + rewrite map_map. simpl. f_equal. apply map_id.
    + apply Forall_forall. intros row Hrow. apply in_map_iff in Hrow.
      destruct Hrow as (b & <- & _). simpl. rewrite map_map. reflexivity.
Qed.

(* ================================================================= *)
(** ** The summary composer: key validation *)

Lemma summary_of_unrecognized (key : string) (h : DropQS) (total_log_count : nat) :
  recognized key = false ->
  summary_of key h total_log_count = Raise (no_summary_table key).
Proof.
  unfold recognized, recognized_keys. simpl. intros H.
  repeat (apply orb_false_elim in H; destruct H as [?E H]).
  unfold summary_of. rewrite E, E0, E1, E2, E3, E4. reflexivity.
Qed.

Lemma summary_of_recognized (key : string) (h : DropQS) (total_log_count : nat) :
  handle_of_key (key, h) = true ->
  exists ct, summary_of key h total_log_count = Ok ct.
Proof.
  unfold handle_of_key. simpl.
  destruct h; intros E; apply String.eqb_eq in E; subst key;
    eexists; reflexivity.
Qed.

Lemma handle_of_key_recognized (key : string) (h : DropQS) :
  handle_of_key (key, h) = true -> recognized key = true.
Proof.
  unfold handle_of_key. simpl.
  destruct h; intros E; apply String.eqb_eq in E; subst key; reflexivity.
Qed.

Lemma summary_loop_app (pre rest : list (string * DropQS)) (n : nat) (s : Summary) :
  summary_loop (pre ++ rest) n s
  = (s' <- summary_loop pre n s ;; summary_loop rest n s').
Proof.
  revert s. induction pre as [|[k h] pre IH]; intros s; simpl; [reflexivity|].
  destruct (summary_of k h n) as [ct|e]; simpl; [apply IH|reflexivity].
Qed.

Lemma summary_loop_ok (drops : list (string * DropQS)) (n : nat) (s : Summary) :
  Forall (fun e => handle_of_key e = true) drops ->
  exists s', summary_loop drops n s = Ok s'.
Proof.
  intros Hall. revert s.
  induction Hall as [|[k h] drops Hk _ IH]; intros s; simpl.
  - eexists. reflexivity.
  - destruct (summary_of_recognized k h n Hk) as [ct ->]. simpl. apply IH.
Qed.

(** C8: called with a positive total log count, the divisor of its rates,
    the summary composer raises [NotImplementedError] as soon as its loop
    reaches a key that is not one of the six recognised category keys, and
    it never raises on a mapping of recognised keys to their handles. *)
Theorem summary_key_validation (drops : list (string * DropQS))
        (total_log_count : nat) :
  0 < total_log_count ->
  (forall pre key h post,
     drops = pre ++ (key, h) :: post ->
     Forall (fun e => handle_of_key e = true) pre ->
     recognized key = false ->
     summary_of key h total_log_count = Raise (no_summary_table key) /\
     get_report_summary drops total_log_count = Raise (no_summary_table key)) /\
  (Forall (fun e => handle_of_key e = true) drops ->
   exists s, get_report_summary drops total_log_count = Ok s).
Proof.
  intros _. split.
  - intros pre key h post -> Hpre Hkey.
    pose proof (summary_of_unrecognized key h total_log_count Hkey) as Hraise.
    split; [exact Hraise|].
    unfold get_report_summary. rewrite summary_loop_app.
    destruct (summary_loop_ok total_log_count {| table := []; chart := [] |} Hpre)
      as [s' ->].
    simpl. rewrite Hraise. reflexivity.
  - intros Hall. apply summary_loop_ok. exact Hall.
Qed.

(** An artifact category after the item category, which holds a drop,
    raises; the item category alone does not. *)
Lemma summary_key_validation_witness :
  get_report_summary
    [ ("items"%string, ItemQS (QS.objects [mkItemDrop 1 1 mana_stone 500]));
      ("artifacts"%string, RuneQS (QS.objects [])) ] 1
  = Raise (no_summary_table "artifacts") /\
  exists s,
    get_report_summary
      [ ("items"%string, ItemQS (QS.objects [mkItemDrop 1 1 mana_stone 500])) ] 1
    = Ok s.
Proof.
  split.
  - apply (proj1 (@summary_key_validation
                    [ ("items"%string,
                       ItemQS (QS.objects [mkItemDrop 1 1 mana_stone 500]));
                      ("artifacts"%string, RuneQS (QS.objects [])) ] 1
                    ltac:(lia))
                 [ ("items"%string,
                    ItemQS (QS.objects [mkItemDrop 1 1 mana_stone 500])) ]
                 "artifacts"%string (RuneQS (QS.objects [])) []).
    + reflexivity.
    + constructor; [reflexivity|constructor].
    + reflexivity.
  - apply (proj2 (@summary_key_validation
                    [ ("items"%string,
                       ItemQS (QS.objects [mkItemDrop 1 1 mana_stone 500])) ] 1
                    ltac:(lia))).
    constructor; [reflexivity|constructor].
Defined.

(* ================================================================= *)
(** ** Drop chances *)

Lemma rate_invariant_percent_of (count total : nat) :
  0 < total -> rate_invariant count total (percent_of count total).
Proof.
  intros Ht. split; [|split].
  - unfold rate_of, percent_of. reflexivity.
  - apply percent_of_nonneg.
  - intros Hc. apply percent_of_le_100; assumption.
Qed.

Lemma item_table_row (qs : QS.t ItemDrop) (total : nat) (row : ItemTableRow) :
  In row (item_table qs total) ->
  exists category,
    st_count (it_stats row)
    = matching item_table_key (it_name row, it_icon row, category) (QS.rows qs) /\
    st_drop_chance (it_stats row) = percent_of (st_count (it_stats row)) total.
Proof.
  unfold item_table. intros Hin.
  apply in_map_iff in Hin. destruct Hin as ([[[name icon] category] st] & <- & Hin).
  apply order_by_In in Hin. apply filter_In in Hin. destruct Hin as [Hin _].
  apply in_map_iff in Hin. destruct Hin as ([k g] & E & Hin).
  simpl in E. injection E as -> <-.
  apply group_by_In in Hin. destruct Hin as [-> _].
  exists category. simpl. rewrite !length_map. split; reflexivity.
Qed.

Lemma item_report_row (qs : QS.t ItemDrop) (total : nat)
      (rows : list ItemReportRow) (row : ItemReportRow) :
  get_item_report qs total = ItemReport rows -> In row rows ->
  st_count (ir_stats row)
  = matching item_report_key (ir_item row, ir_name row, ir_icon row) (QS.rows qs) /\
  st_drop_chance (ir_stats row) = percent_of (st_count (ir_stats row)) total.
Proof.
  unfold get_item_report. destruct (QS.count qs =? 0); [discriminate|].
  intros E Hin. injection E as <-.
  apply order_by_In in Hin. apply in_map_iff in Hin.
  destruct Hin as ([[[item name] icon] g] & <- & Hin).
  apply group_by_In in Hin. destruct Hin as [-> _].
  simpl. rewrite !length_map. split; reflexivity.
Qed.

Lemma monster_table_row (qs : QS.t MonsterDrop) (total : nat)
      (row : MonsterTableRow) :
  In row (monster_table qs total) ->
  mt_count row
  = matching monster_table_key
      (mt_name row, mt_slug row, mt_icon row, mt_element row,
       mt_can_awaken row, mt_is_awakened row, mt_stars row) (QS.rows qs) /\
  mt_drop_chance row = percent_of (mt_count row) total.
Proof.
  unfold monster_table. intros Hin. apply in_map_iff in Hin.
  destruct Hin as ([[[[[[[n s] i] e] c] a] st] g] & <- & Hin).
  apply group_by_In in Hin. destruct Hin as [-> _].
  simpl. split; reflexivity.
Qed.

Lemma nat_stars_row (qs : QS.t MonsterDrop) (total : nat) (r : MonsterStats)
      (stars count : nat) (drop_chance : Q) :
  get_monster_report qs total = MonsterReport r ->
  In (stars, drop_chance, count) (data (ms_nat_stars r)) ->
  count = matching (fun d => base_stars (md_monster d)) stars (QS.rows qs) /\
  drop_chance = percent_of count total.
Proof.
  unfold get_monster_report. destruct (QS.count qs =? 0); [discriminate|].
  intros E Hin. injection E as <-. simpl in Hin.
  apply in_map_iff in Hin. destruct Hin as ([k g] & E & Hin).
  simpl in E. injection E as -> <- <-.
  apply group_by_In in Hin. destruct Hin as [-> _].
  split; reflexivity.
Qed.

(** C4, as stated, fails: a run that dropped the same item twice gives
    that item a drop chance of 200 in the summary table of its level. *)
Lemma drop_chance_above_100_counterexample :
  exists rep row,
    level_drop_report [] double_drop_model
      (QS.objects (objects double_drop_model)) = Ok rep /\
    In ("items"%string, ItemTable [row]) (table (summary rep)) /\
    st_count (it_stats row) = 2 /\
    (st_drop_chance (it_stats row) == 200)%Q /\
    ~ within_percent (st_drop_chance (it_stats row)).
Proof.
  eexists. eexists. split; [vm_compute; reflexivity|].
  split; [left; reflexivity|].
  split; [reflexivity|]. split; [reflexivity|].
  intros [_ H]. vm_compute in H. apply H. reflexivity.
Qed.

(** C4, amended: with a positive total log count, every drop chance of the
    item and monster tables of the summary, of the item report and of the
    native star block of the monster report is the percentage, in the total
    log count, of the drop records of the row's key; it is not negative,
    and it is at most 100 when these records are no more than the total
    log count. *)
Theorem drop_chance_rate (total_log_count : nat) :
  0 < total_log_count ->
  (forall qs row, In row (item_table qs total_log_count) ->
     exists category,
       st_count (it_stats row)
       = matching item_table_key (it_name row, it_icon row, category)
                  (QS.rows qs) /\
       rate_invariant (st_count (it_stats row)) total_log_count
                      (st_drop_chance (it_stats row))) /\
  (forall qs row, In row (monster_table qs total_log_count) ->
     mt_count row
     = matching monster_table_key
         (mt_name row, mt_slug row, mt_icon row, mt_element row,
          mt_can_awaken row, mt_is_awakened row, mt_stars row) (QS.rows qs) /\
     rate_invariant (mt_count row) total_log_count (mt_drop_chance row)) /\
  (forall qs rows row,
     get_item_report qs total_log_count = ItemReport rows -> In row rows ->
     st_count (ir_stats row)
     = matching item_report_key (ir_item row, ir_name row, ir_icon row)
                (QS.rows qs) /\
     rate_invariant (st_count (ir_stats row)) total_log_count
                    (st_drop_chance (ir_stats row))) /\
  (forall qs r stars count drop_chance,
     get_monster_report qs total_log_count = MonsterReport r ->
     In (stars, drop_chance, count) (data (ms_nat_stars r)) ->
     count = matching (fun d => base_stars (md_monster d)) stars (QS.rows qs) /\
     rate_invariant count total_log_count drop_chance).
Proof.
  intros Ht. split; [|split; [|split]].
  - intros qs row Hin. destruct (@item_table_row qs total_log_count row Hin) as (c & Hc & ->).
    exists c. split; [exact Hc|]. now apply rate_invariant_percent_of.
  - intros qs row Hin. destruct (@monster_table_row qs total_log_count row Hin) as [Hc ->].
    split; [exact Hc|]. now apply rate_invariant_percent_of.
  - intros qs rows row E Hin. destruct (@item_report_row qs total_log_count rows row E Hin) as [Hc ->].
    split; [exact Hc|]. now apply rate_invariant_percent_of.
  - intros qs r stars count dc E Hin.
    destruct (@nat_stars_row qs total_log_count r stars count dc E Hin) as [Hc ->].
    split; [exact Hc|]. now apply rate_invariant_percent_of.
Qed.

(** One item drop in two runs: a drop chance of 50. *)
Lemma drop_chance_rate_witness :
  rate_invariant 1 2 (percent_of 1 2).
Proof.
  destruct (@drop_chance_rate 2 ltac:(lia)) as (Hitem & _).
  destruct (Hitem (QS.objects [mkItemDrop 1 1 mana_stone 500])
                  (mkItemTableRow "Mana Stone" "mana.png"
                     (quantity_stats [500%Z] 2))
                  ltac:(left; reflexivity)) as (c & _ & H).
  exact H.
Defined.

(** In [level_drop_report] the aggregators are handed the count of the
    drop queryset of their category: the two drops of the single run have
    a drop chance of 100 in the item report and of 200 in the summary. *)
Example level_drop_report_denominators :
  exists s row,
    level_drop_report [] double_drop_model
      (QS.objects (objects double_drop_model))
    = Ok (mkLevelDropReport s [("items"%string, ItemReport [row])]) /\
    QS.count (QS.objects (objects double_drop_model)) = 1 /\
    st_count (ir_stats row) = 2 /\
    (st_drop_chance (ir_stats row) == 100)%Q.
Proof.
  eexists. eexists. split; [vm_compute; reflexivity|].
  split; [reflexivity|]. split; reflexivity.
Qed.

(* ================================================================= *)
(** ** The drop category resolver: properties *)

Lemma rows_objects (A : Type) (tbl : list A) : QS.rows (QS.objects tbl) = tbl.
Proof.
  unfold QS.rows, QS.objects. simpl.
  induction tbl as [|a l IH]; simpl; [reflexivity|]. now rewrite IH.
Qed.

(** The mapping of the resolver lists the categories the model supports, in
    the order of the dispatch table. *)
Lemma get_drop_querysets_eq (QUALITY_CHOICES : list (nat * string))
      (model : LogModel) (qs : QS.t Log) :
  get_drop_querysets QUALITY_CHOICES model qs
  = category_entry ItemDrop_RELATED_NAME
      (option_map (fun t => ItemQS (QS.objects t)) (items model)) qs
    ++ category_entry MonsterDrop_RELATED_NAME
         (option_map (fun t => MonsterQS (QS.objects t)) (monsters model)) qs
    ++ category_entry MonsterPieceDrop_RELATED_NAME
         (option_map (fun t => MonsterPieceQS (QS.objects t))
                     (monster_pieces model)) qs
    ++ category_entry RuneDrop_RELATED_NAME
         (option_map (fun t => RuneQS (QS.objects t)) (runes model)) qs
    ++ category_entry RuneCraftDrop_RELATED_NAME
         (option_map (fun t => RuneCraftQS (QS.objects t)) (rune_crafts model)) qs
    ++ category_entry DungeonSecretDungeonDrop_RELATED_NAME
         (option_map (fun t => SecretDungeonQS (QS.objects t))
                     (secret_dungeons model)) qs.
Proof.
  destruct model as [o i m p r c s].
  unfold get_drop_querysets. simpl.
  destruct i, m, p, r, c, s; reflexivity.
Qed.

Lemma get_drop_querysets_typed (QUALITY_CHOICES : list (nat * string))
      (model : LogModel) (qs : QS.t Log) :
  Forall (fun e => handle_of_key e = true)
         (get_drop_querysets QUALITY_CHOICES model qs).
Proof.
  rewrite get_drop_querysets_eq. destruct model as [o i m p r c s]. simpl.
  repeat (apply Forall_app; split);
    match goal with
    | |- Forall _ (category_entry _ (option_map _ ?x) _) =>
        destruct x; simpl; repeat constructor
    end.
Qed.

Lemma drops_has_items (QUALITY_CHOICES : list (nat * string))
      (model : LogModel) (qs : QS.t Log) :
  match items model with
  | Some t =>
      dict_has "items" (get_drop_querysets QUALITY_CHOICES model qs) = true /\
      dict_get "items" (get_drop_querysets QUALITY_CHOICES model qs)
      = Ok (ItemQS (QS.filter (fun r => log_in qs (id_log r)) (QS.objects t)))
  | None =>
      dict_has "items" (get_drop_querysets QUALITY_CHOICES model qs) = false
  end.
Proof.
  rewrite get_drop_querysets_eq. destruct model as [o i m p r c s]. simpl.
  destruct i, m, p, r, c, s; simpl; repeat split; reflexivity.
Qed.

Lemma drops_has_monsters (QUALITY_CHOICES : list (nat * string))
      (model : LogModel) (qs : QS.t Log) :
  match monsters model with
  | Some t =>
      dict_has "monsters" (get_drop_querysets QUALITY_CHOICES model qs) = true /\
      dict_get "monsters" (get_drop_querysets QUALITY_CHOICES model qs)
      = Ok (MonsterQS (QS.filter (fun r => log_in qs (md_log r)) (QS.objects t)))
  | None =>
      dict_has "monsters" (get_drop_querysets QUALITY_CHOICES model qs) = false
  end.
Proof.
  rewrite get_drop_querysets_eq. destruct model as [o i m p r c s]. simpl.
  destruct i, m, p, r, c, s; simpl; repeat split; reflexivity.
Qed.

Lemma map_result_ok (A B : Type) (f : A -> result B) (g : A -> B) (l : list A) :
  (forall a, In a l -> f a = Ok (g a)) -> map_result f l = Ok (map g l).
Proof.
  induction l as [|a l IH]; intros H; simpl; [reflexivity|].
  rewrite (H a (or_introl eq_refl)). simpl.
  rewrite IH; [reflexivity|]. intros b Hb. apply H. now right.
Qed.

(* ================================================================= *)
(** ** The cross-grade summary: properties *)

(** The summary is returned for every queryset, and it is the list of the
    grades with the entries of the dropped items and monsters. *)
Lemma grade_summary_report_eq (QUALITY_CHOICES : list (nat * string))
      (GameItem_objects : list GameItem) (Monster_objects : list Monster)
      (model : LogModel) (qs : QS.t Log) (grade_choices : list (nat * string)) :
  grade_summary_report QUALITY_CHOICES GameItem_objects Monster_objects
                       model qs grade_choices
  = Ok (grade_summaries GameItem_objects Monster_objects model qs grade_choices).
Proof.
  unfold grade_summary_report, grade_summaries.
  pose proof (drops_has_items QUALITY_CHOICES model qs) as Hi.
  pose proof (drops_has_monsters QUALITY_CHOICES model qs) as Hm.
  set (drops := get_drop_querysets QUALITY_CHOICES model qs) in *.
  assert (Hitems :
    (if dict_has "items" drops then
       h <- dict_get "items" drops ;;
       match h with
       | ItemQS d =>
           Ok (QS.rows
                 (QS.filter
                    (fun i => existsb (fun r => item_pk (id_item r) =? item_pk i)
                                      (QS.rows d))
                    (QS.objects GameItem_objects)))
       | _ => Raise FieldError
       end
     else Ok []) = Ok (dropped_items GameItem_objects model qs)).
  { unfold dropped_items, window_item_drops.
    destruct (items model) as [t|].
    - destruct Hi as [-> ->]. simpl.
      rewrite !rows_filter, !rows_objects. reflexivity.
    - rewrite Hi. simpl.
      rewrite filter_nothing; [reflexivity|].
      apply Forall_forall. reflexivity. }
  assert (Hmonsters :
    (if dict_has "monsters" drops then
       h <- dict_get "monsters" drops ;;
       match h with
       | MonsterQS d =>
           Ok (QS.rows
                 (QS.filter
                    (fun m => existsb (fun r => monster_pk (md_monster r)
                                                =? monster_pk m)
                                      (QS.rows d))
                    (QS.objects Monster_objects)))
       | _ => Raise FieldError
       end
     else Ok []) = Ok (dropped_monsters Monster_objects model qs)).
  { unfold dropped_monsters, window_monster_drops.
    destruct (monsters model) as [t|].
    - destruct Hm as [-> ->]. simpl.
      rewrite !rows_filter, !rows_objects. reflexivity.
    - rewrite Hm. simpl.
      rewrite filter_nothing; [reflexivity|].
      apply Forall_forall. reflexivity. }
  rewrite Hitems, Hmonsters. simpl.
  apply map_result_ok. intros grade _.
  rewrite (@map_result_ok _ _ _ (item_entry model qs (fst grade))).
  - rewrite (@map_result_ok _ _ _ (monster_entry model qs (fst grade)));
      [reflexivity|].
    intros monster Hin. unfold grade_monster_summary, monster_entry,
      grade_monster_drops, window_monster_drops, dropped_monsters,
      window_monster_drops in *.
    destruct (monsters model) as [t|].
    + destruct Hm as [_ ->]. simpl. unfold QS.count.
      rewrite !rows_filter, !rows_objects. reflexivity.
    + simpl in Hin. apply filter_In in Hin. destruct Hin as [_ Hin].
      discriminate Hin.
  - intros item Hin. unfold grade_item_summary, item_entry,
      grade_item_drops, window_item_drops, dropped_items,
      window_item_drops in *.
    destruct (items model) as [t|].
    + destruct Hi as [_ ->]. simpl.
      rewrite !rows_filter, !rows_objects. reflexivity.
    + simpl in Hin. apply filter_In in Hin. destruct Hin as [_ Hin].
      discriminate Hin.
Qed.

(* ================================================================= *)
(** ** The cross-grade summary: denominators *)

Lemma Forall2_map_self (A B : Type) (P : A -> B -> Prop) (f : A -> B)
      (l : list A) :
  (forall a, In a l -> P a (f a)) -> Forall2 P l (map f l).
Proof.
  induction l as [|a l IH]; intros H; simpl; constructor.
  - apply H. now left.
  - apply IH. intros b Hb. apply H. now right.
Qed.

Lemma avg_per_run_of_per_run (quantities : list Z) (total : nat) :
  avg_per_run_of quantities total (per_run (Sum quantities) total).
Proof.
  destruct quantities as [|q tl]; simpl; [reflexivity|].
  eexists. split; [reflexivity|]. unfold of_nat. reflexivity.
Qed.

Lemma rate_of_percent_of (count total : nat) :
  rate_of count total (percent_of count total).
Proof. unfold rate_of, percent_of. reflexivity. Qed.

Lemma log_in_count (qs : QS.t Log) (log : nat) :
  log_in qs log = true -> 0 < QS.count qs.
Proof.
  unfold log_in, QS.count. intros H. apply existsb_exists in H.
  destruct H as (l & Hl & _). destruct (QS.rows qs); [destruct Hl|simpl; lia].
Qed.

(** An item, or a monster, that dropped in a queryset has a drop record
    whose log is a record of the queryset: the queryset is not empty. *)
Lemma dropped_items_count (GameItem_objects : list GameItem) (model : LogModel)
      (qs : QS.t Log) (item : GameItem) :
  In item (dropped_items GameItem_objects model qs) -> 0 < QS.count qs.
Proof.
  unfold dropped_items, window_item_drops. intros H.
  apply filter_In in H. destruct H as [_ H].
  apply existsb_exists in H. destruct H as (r & Hr & _).
  destruct (items model) as [t|]; [|destruct Hr].
  apply filter_In in Hr. destruct Hr as [_ Hr].
  exact (log_in_count _ _ Hr).
Qed.

Lemma dropped_monsters_count (Monster_objects : list Monster) (model : LogModel)
      (qs : QS.t Log) (monster : Monster) :
  In monster (dropped_monsters Monster_objects model qs) -> 0 < QS.count qs.
Proof.
  unfold dropped_monsters, window_monster_drops. intros H.
  apply filter_In in H. destruct H as [_ H].
  apply existsb_exists in H. destruct H as (r & Hr & _).
  destruct (monsters model) as [t|]; [|destruct Hr].
  apply filter_In in Hr. destruct Hr as [_ Hr].
  exact (log_in_count _ _ Hr).
Qed.

(** C10: the cross-grade summary is returned for every queryset, with one
    block per grade choice, in order; the block of a grade holds one entry
    per item that dropped in the queryset, then one per monster.  The
    count of an entry is the number of drops of the item, or monster, in
    the logs of the grade; its drop chance is that count divided by the
    count of the whole queryset, all grades together, times 100, and the
    average per run of an item is the sum of the quantities of these drops
    divided by the count of the whole queryset, absent when the grade has
    no drop of the item.  Whenever a block has an entry, the count of the
    whole queryset, the divisor, is positive. *)
Theorem grade_summary_denominator (QUALITY_CHOICES : list (nat * string))
        (GameItem_objects : list GameItem) (Monster_objects : list Monster)
        (model : LogModel) (qs : QS.t Log) (grade_choices : list (nat * string)) :
  exists summaries,
    grade_summary_report QUALITY_CHOICES GameItem_objects Monster_objects
                         model qs grade_choices = Ok summaries /\
    (forall s entry, In s summaries -> In entry (gs_drops s) ->
       0 < QS.count qs) /\
    Forall2
      (fun grade s =>
         gs_grade s = snd grade /\
         exists item_entries monster_entries,
           gs_drops s = item_entries ++ monster_entries /\
           Forall2
             (fun item entry =>
                exists st,
                  entry = ItemSummary (item_name item) (item_icon item) st /\
                  st_count st
                  = length (grade_item_drops model qs (fst grade) item) /\
                  rate_of (st_count st) (QS.count qs) (st_drop_chance st) /\
                  avg_per_run_of
                    (map id_quantity
                         (grade_item_drops model qs (fst grade) item))
                    (QS.count qs) (st_avg_per_run st))
             (dropped_items GameItem_objects model qs) item_entries /\
           Forall2
             (fun monster entry =>
                exists drop_chance,
                  entry = MonsterSummary (monster_name monster)
                            (image_filename monster) (base_stars monster)
                            (length (grade_monster_drops model qs (fst grade)
                                                         monster))
                            drop_chance /\
                  rate_of (length (grade_monster_drops model qs (fst grade)
                                                       monster))
                          (QS.count qs) drop_chance)
             (dropped_monsters Monster_objects model qs) monster_entries)
      grade_choices summaries.
Proof.
  exists (grade_summaries GameItem_objects Monster_objects model qs grade_choices).
  split; [apply grade_summary_report_eq|].
  unfold grade_summaries. split.
  - intros s entry Hs He. apply in_map_iff in Hs.
    destruct Hs as (grade & <- & _). cbn [gs_drops] in He.
    apply in_app_or in He. destruct He as [He|He];
      apply in_map_iff in He; destruct He as (x & _ & Hx).
    + exact (dropped_items_count _ _ _ _ Hx).
    + exact (dropped_monsters_count _ _ _ _ Hx).
  - apply Forall2_map_self. intros grade _. cbn [gs_grade gs_drops].
    split; [reflexivity|].
    eexists. eexists. split; [reflexivity|]. split.
    + apply Forall2_map_self. intros item _. unfold item_entry.
      eexists. split; [reflexivity|].
      cbn [quantity_stats st_count st_drop_chance st_avg_per_run].
      rewrite length_map. split; [reflexivity|].
      split; [apply rate_of_percent_of|apply avg_per_run_of_per_run].
    + apply Forall2_map_self. intros monster _. unfold monster_entry.
      eexists. split; [reflexivity|apply rate_of_percent_of].
Qed.

(** One run of grade A with an item drop of quantity 3 and one run of
    grade B: the drop chance of the item in grade A is 50, one drop in the
    two runs of both grades, and not 100, one drop in the single run of
    grade A; its average per run is 3/2, not 3. *)
Lemma grade_summary_denominator_witness :
  exists st v,
    grade_summary_report [] [crystal] [] two_grade_model
      (QS.objects (objects two_grade_model)) grades_A_B
    = Ok [ mkGradeSummary "A" [ItemSummary "Crystal" "crystal.png" st];
           mkGradeSummary "B"
             [ItemSummary "Crystal" "crystal.png" (quantity_stats [] 2)] ] /\
    st_count st = 1 /\
    QS.count (of_grade 1 (QS.objects (objects two_grade_model))) = 1 /\
    (st_drop_chance st == 50)%Q /\
    st_avg_per_run st = Some v /\ (v == 3 # 2)%Q.
Proof.
  destruct (grade_summary_denominator [] [crystal] [] two_grade_model
              (QS.objects (objects two_grade_model)) grades_A_B)
    as (ss & Hss & _ & Hall).
  assert (E : ss = [ mkGradeSummary "A"
                       [ItemSummary "Crystal" "crystal.png"
                                    (quantity_stats [3%Z] 2)];
                     mkGradeSummary "B"
                       [ItemSummary "Crystal" "crystal.png"
                                    (quantity_stats [] 2)] ]).
  { cbv in Hss. injection Hss as <-. reflexivity. }
  subst ss.
  inversion Hall as [|grade s gs ss' HA _]; subst.
  destruct HA as (_ & ies & mes & Hdrops & Hitems & _).
  change (dropped_items [crystal] two_grade_model
            (QS.objects (objects two_grade_model))) with [crystal] in Hitems.
  inversion Hitems as [|item e is' es' He Hnil]; subst.
  inversion Hnil; subst.
  destruct He as (st & Hst & Hcount & Hrate & Havg).
  cbn [gs_drops app] in Hdrops. injection Hdrops as Hentry.
  rewrite Hst in Hentry. injection Hentry as Est.
  exists st.
  change (map id_quantity
            (grade_item_drops two_grade_model
               (QS.objects (objects two_grade_model)) (fst (1, "A"%string))
               crystal)) with [3%Z] in Havg.
  destruct Havg as (v & Hv & Hveq).
  exists v.
  split; [rewrite <- Est; reflexivity|].
  split; [rewrite <- Est; reflexivity|].
  split; [reflexivity|]. split.
  - unfold rate_of in Hrate. rewrite Hrate, Hcount. reflexivity.
  - split; [exact Hv|]. rewrite Hveq. reflexivity.
Defined.

(* ================================================================= *)
(** ** The report orchestrator: properties *)

(** The selector always returns, and its window is a restriction of the
    queryset it was given. *)
Lemma records_to_report_ok (now : Z) (qs : QS.t Log) (T : Z) (M : nat) :
  exists w, _records_to_report now qs T M = Ok w /\
            QS.base w = QS.base qs /\
            (forall r, QS.cond w r = true -> QS.cond qs r = true).
Proof.
  unfold _records_to_report.
  destruct (QS.count (QS.filter (since (now - T)) qs) <? M).
  - destruct (Nat.ltb_spec 0 (length (QS.slice M qs))) as [Hpos|_].
    + unfold QS.slice_index.
      destruct (nth_error (QS.slice M qs) (length (QS.slice M qs) - 1))
        as [e|] eqn:He; [|apply nth_error_None in He; lia].
      simpl. eexists. split; [reflexivity|]. split; [reflexivity|].
      simpl. intros r Hr. apply andb_prop in Hr. apply Hr.
    + eexists. split; [reflexivity|]. split; [reflexivity|]. auto.
  - eexists. split; [reflexivity|]. split; [reflexivity|].
    simpl. intros r Hr. apply andb_prop in Hr. apply Hr.
Qed.

Lemma rows_empty_of_cond (A : Type) (a b : QS.t A) :
  QS.base a = QS.base b ->
  (forall r, QS.cond a r = true -> QS.cond b r = true) ->
  QS.count b = 0 -> QS.count a = 0.
Proof.
  unfold QS.count, QS.rows. intros -> Himp Hb.
  rewrite filter_nothing; [reflexivity|].
  apply Forall_forall. intros r Hin.
  destruct (QS.cond a r) eqn:E; [|reflexivity].
  assert (Hr : In r (List.filter (QS.cond b) (QS.base b))).
  { apply filter_In. split; [exact Hin|apply Himp, E]. }
  destruct (List.filter (QS.cond b) (QS.base b)); [destruct Hr|discriminate Hb].
Qed.

Lemma run_levels_In (step : Level -> result (option LevelReport))
      (levels : list Level) (created : list LevelReport) (r : LevelReport) :
  In r (fst (run_levels step levels created)) ->
  In r created \/ exists lv, In lv levels /\ step lv = Ok (Some r).
Proof.
  revert created. induction levels as [|lv levels IH]; intros created; simpl.
  - auto.
  - destruct (step lv) as [[r'|]|e] eqn:E; simpl.
    + intros H. apply IH in H. destruct H as [H|(lv' & Hl & Hs)].
      * apply in_app_or in H. destruct H as [H|[<-|[]]]; [now left|].
        right. exists lv. split; [now left|exact E].
      * right. exists lv'. split; [now right|exact Hs].
    + intros H. apply IH in H. destruct H as [H|(lv' & Hl & Hs)];
        [now left|]. right. exists lv'. split; [now right|exact Hs].
    + auto.
Qed.

Section OrchestratorProps.
Variable QUALITY_CHOICES : list (nat * string).
Variable GameItem_objects : list GameItem.
Variable Monster_objects : list Monster.
Variable Level_objects : list Level.
Variable DungeonLog : LogModel.
Variable RiftDungeonLog : LogModel.
Variable GRADE_CHOICES : list (nat * string).
Variable now : Z.

Lemma dungeon_window_ok (lv : Level) :
  exists w, dungeon_window DungeonLog now lv = Ok w /\
            QS.base w = objects DungeonLog.
Proof.
  unfold dungeon_window.
  destruct (records_to_report_ok now
              (QS.filter (fun l => (log_level l =? level_pk lv) && log_success l)
                         (QS.objects (objects DungeonLog)))
              two_weeks 2500) as (w & Hw & Hb & _).
  exists w. split; [exact Hw|exact Hb].
Qed.

Lemma rift_window_ok (lv : Level) (grade : nat) :
  exists w, rift_window RiftDungeonLog now lv grade = Ok w /\
            QS.base w = objects RiftDungeonLog /\
            (forall r, QS.cond w r = true -> log_grade r = grade).
Proof.
  unfold rift_window.
  destruct (records_to_report_ok now
              (QS.filter
                 (fun l => (log_level l =? level_pk lv) && (log_grade l =? grade))
                 (QS.objects (objects RiftDungeonLog)))
              two_weeks 2500) as (w & Hw & Hb & Hc).
  exists w. split; [exact Hw|]. split; [exact Hb|].
  intros r Hr. apply Hc in Hr. simpl in Hr.
  apply andb_prop in Hr. destruct Hr as [_ Hr].
  now apply Nat.eqb_eq in Hr.
Qed.

(** What a created dungeon report records about its window. *)
Lemma dungeon_level_report_some (lv : Level) (r : LevelReport) :
  dungeon_level_report QUALITY_CHOICES DungeonLog now lv = Ok (Some r) ->
  exists w oldest newest,
    dungeon_window DungeonLog now lv = Ok w /\
    0 < QS.count w /\
    level r = lv /\
    log_count r = QS.count w /\
    nth_error (QS.rows w) (QS.count w - 1) = Some oldest /\
    nth_error (QS.rows w) 0 = Some newest /\
    start_timestamp r = timestamp oldest /\
    end_timestamp r = timestamp newest.
Proof.
  unfold dungeon_level_report.
  destruct (dungeon_window DungeonLog now lv) as [w|e]; [|discriminate].
  cbn [bind].
  destruct (Nat.ltb_spec 0 (QS.count w)) as [Hpos|_]; [|discriminate].
  destruct (level_drop_report QUALITY_CHOICES DungeonLog w) as [rd|e];
    [|discriminate].
  cbn [bind]. unfold QS.index.
  destruct (nth_error (QS.rows w) (QS.count w - 1)) as [oldest|] eqn:Eo;
    [|discriminate].
  cbn [bind].
  destruct (nth_error (QS.rows w) 0) as [newest|] eqn:En; [|discriminate].
  cbn [bind]. intros E. injection E as <-.
  exists w, oldest, newest. cbn [level log_count start_timestamp end_timestamp].
  repeat split; auto.
Qed.

Lemma filter_orb_nil (A : Type) (p q : A -> bool) (l : list A) :
  List.filter p l = [] -> List.filter q l = [] ->
  List.filter (fun r => p r || q r) l = [].
Proof.
  induction l as [|a l IH]; simpl; [reflexivity|].
  destruct (p a); [discriminate|]. destruct (q a); [discriminate|].
  exact IH.
Qed.

(** The loop over the grades when every grade has an empty window. *)
Lemma rift_grades_all_empty (lv : Level) (grades : list (nat * string))
      (acc : QS.t Log) (rd : list GradeEntry) :
  QS.base acc = objects RiftDungeonLog -> QS.count acc = 0 ->
  (forall g, In g grades ->
     exists w, rift_window RiftDungeonLog now lv (fst g) = Ok w /\
               QS.count w = 0) ->
  exists ar rd', rift_grades QUALITY_CHOICES RiftDungeonLog now lv grades acc rd
                 = Ok (ar, rd') /\ QS.count ar = 0.
Proof.
  revert acc rd. induction grades as [|[g desc] grades IH];
    intros acc rd Hbase Hacc Hall; simpl.
  - exists acc, rd. split; [reflexivity|exact Hacc].
  - destruct (Hall (g, desc) (or_introl eq_refl)) as (w & Hw & Hcount).
    simpl in Hw. rewrite Hw. simpl.
    destruct (Nat.ltb_spec 0 (QS.count w)) as [Hpos|_]; [lia|]. simpl.
    apply IH.
    + exact Hbase.
    + destruct (rift_window_ok lv g) as (w' & Hw' & Hb & _).
      rewrite Hw in Hw'. injection Hw' as <-.
      unfold QS.count, QS.rows, QS.or in *. simpl.
      rewrite filter_orb_nil; [reflexivity| |].
      * now apply length_zero_iff_nil.
      * rewrite Hbase, <- Hb. now apply length_zero_iff_nil.
    + intros g' Hg'. apply Hall. now right.
Qed.

(** C3: a level whose window of successful dungeon runs is empty, and a
    rift level all of whose grade windows are empty, is passed over
    without an error and without a report: every report created by
    either run belongs to a level whose window holds a record. *)
Theorem empty_window_skipped :
  (forall lv, exists w,
      dungeon_window DungeonLog now lv = Ok w /\
      (QS.count w = 0 ->
       dungeon_level_report QUALITY_CHOICES DungeonLog now lv = Ok None /\
       forall r,
         In r (fst (generate_dungeon_log_reports QUALITY_CHOICES
                      Level_objects DungeonLog now)) ->
         level r <> lv)) /\
  (forall r,
      In r (fst (generate_dungeon_log_reports QUALITY_CHOICES
                   Level_objects DungeonLog now)) ->
      exists w, dungeon_window DungeonLog now (level r) = Ok w /\
                0 < QS.count w) /\
  (forall lv,
      (forall g, In g GRADE_CHOICES ->
         exists w, rift_window RiftDungeonLog now lv (fst g) = Ok w /\
                   QS.count w = 0) ->
      rift_level_report QUALITY_CHOICES GameItem_objects Monster_objects
                        RiftDungeonLog GRADE_CHOICES now lv = Ok None /\
      forall r,
        In r (fst (generate_rift_dungeon_reports QUALITY_CHOICES
                     GameItem_objects Monster_objects Level_objects
                     RiftDungeonLog GRADE_CHOICES now)) ->
        level r <> lv) /\
  (forall r,
      In r (fst (generate_rift_dungeon_reports QUALITY_CHOICES
                   GameItem_objects Monster_objects Level_objects
                   RiftDungeonLog GRADE_CHOICES now)) ->
      exists all_records entries,
        rift_grades QUALITY_CHOICES RiftDungeonLog now (level r) GRADE_CHOICES
                    (QS.none (objects RiftDungeonLog)) []
        = Ok (all_records, entries) /\
        0 < QS.count all_records).
Proof.
  assert (Hd : forall r,
      In r (fst (generate_dungeon_log_reports QUALITY_CHOICES
                   Level_objects DungeonLog now)) ->
      exists w, dungeon_window DungeonLog now (level r) = Ok w /\
                0 < QS.count w).
  { intros r Hr. apply run_levels_In in Hr.
    destruct Hr as [[]|(lv & _ & Hs)].
    apply dungeon_level_report_some in Hs.
    destruct Hs as (w & _ & _ & Hw & Hpos & <- & _).
    exists w. split; assumption. }
  assert (Hr : forall r,
      In r (fst (generate_rift_dungeon_reports QUALITY_CHOICES
                   GameItem_objects Monster_objects Level_objects
                   RiftDungeonLog GRADE_CHOICES now)) ->
      exists all_records entries,
        rift_grades QUALITY_CHOICES RiftDungeonLog now (level r) GRADE_CHOICES
                    (QS.none (objects RiftDungeonLog)) []
        = Ok (all_records, entries) /\
        0 < QS.count all_records).
  { intros r Hin. apply run_levels_In in Hin.
    destruct Hin as [[]|(lv & _ & Hs)].
    unfold rift_level_report in Hs.
    destruct (rift_grades QUALITY_CHOICES RiftDungeonLog now lv GRADE_CHOICES
                (QS.none (objects RiftDungeonLog)) []) as [[ar rd]|e] eqn:E;
      [|discriminate].
    cbn [bind fst snd] in Hs.
    destruct (Nat.ltb_spec 0 (QS.count ar)) as [Hpos|_]; [|discriminate].
    rewrite grade_summary_report_eq in Hs. cbn [bind] in Hs.
    unfold QS.index in Hs.
    destruct (nth_error (QS.rows ar) (QS.count ar - 1)); [|discriminate].
    cbn [bind] in Hs. destruct (nth_error (QS.rows ar) 0); [|discriminate].
    cbn [bind] in Hs. injection Hs as <-. cbn [level].
    exists ar, rd. split; [exact E|exact Hpos]. }
  split; [|split; [exact Hd|split; [|exact Hr]]].
  - intros lv. destruct (dungeon_window_ok lv) as (w & Hw & _).
    exists w. split; [exact Hw|]. intros Hzero. split.
    + unfold dungeon_level_report. rewrite Hw. simpl.
      destruct (Nat.ltb_spec 0 (QS.count w)); [lia|reflexivity].
    + intros r Hin <-. destruct (Hd r Hin) as (w' & Hw' & Hpos).
      rewrite Hw in Hw'. injection Hw' as <-. lia.
  - intros lv Hall.
    destruct (@rift_grades_all_empty lv GRADE_CHOICES
                (QS.none (objects RiftDungeonLog)) [] eq_refl) as
        (ar & rd & Hg & Hzero).
    { unfold QS.count, QS.rows. simpl. rewrite filter_nothing;
        [reflexivity|]. apply Forall_forall. reflexivity. }
    { exact Hall. }
    split.
    + unfold rift_level_report. rewrite Hg. simpl.
      destruct (Nat.ltb_spec 0 (QS.count ar)); [lia|reflexivity].
    + intros r Hin <-. destruct (Hr r Hin) as (ar' & rd' & Hg' & Hpos).
      rewrite Hg in Hg'. injection Hg' as <- <-. lia.
Qed.
End OrchestratorProps.

(** The level of failed runs only is passed over. *)
Lemma empty_window_skipped_witness :
  dungeon_level_report [] failed_run_model 100 (mkLevel 1) = Ok None /\
  fst (generate_dungeon_log_reports [] [mkLevel 1] failed_run_model 100) = [].
Proof.
  destruct (proj1 (empty_window_skipped [] [] [] [mkLevel 1] failed_run_model
                     failed_run_model [] 100) (mkLevel 1)) as (w & Hw & H).
  assert (Hzero : QS.count w = 0).
  { vm_compute in Hw. injection Hw as <-. reflexivity. }
  split; [exact (proj1 (H Hzero))|reflexivity].
Defined.

(* ================================================================= *)
(** ** The time range of a report *)

Lemma sorted_bounds (l : list Log) (oldest newest : Log) :
  StronglySorted newer_eq l ->
  nth_error l (length l - 1) = Some oldest ->
  nth_error l 0 = Some newest ->
  Forall (fun x => (timestamp oldest <= timestamp x <= timestamp newest)%Z) l.
Proof.
  intros Hs Ho Hn.
  destruct l as [|a l]; [discriminate|].
  injection Hn as ->.
  destruct (@sorted_boundary (newest :: l) (length (newest :: l) - 1) oldest Hs Ho)
    as [Hf _].
  replace (S (length (newest :: l) - 1)) with (length (newest :: l)) in Hf
    by (simpl; lia).
  rewrite firstn_all in Hf.
  inversion Hs as [|? ? _ Hall]; subst.
  apply Forall_forall. intros x Hx.
  rewrite Forall_forall in Hf. specialize (Hf x Hx).
  unfold since in Hf. apply Z.leb_le in Hf. split; [exact Hf|].
  destruct Hx as [<-|Hx]; [lia|].
  rewrite Forall_forall in Hall. apply (Hall x Hx).
Qed.

Lemma records_window_of (now : Z) (r : LevelReport) (w : QS.t Log)
      (oldest newest : Log) :
  recent_first (QS.base w) = true ->
  0 < QS.count w ->
  log_count r = QS.count w ->
  nth_error (QS.rows w) (QS.count w - 1) = Some oldest ->
  nth_error (QS.rows w) 0 = Some newest ->
  start_timestamp r = timestamp oldest ->
  end_timestamp r = timestamp newest ->
  records_window now r (QS.rows w).
Proof.
  unfold QS.count. intros Hs Hpos Hc Ho Hn Hst Hen.
  assert (Hsorted : StronglySorted newer_eq (QS.rows w)).
  { unfold QS.rows. apply sorted_filter. now apply recent_first_sorted. }
  pose proof (sorted_bounds Hsorted Ho Hn) as Hb.
  assert (Hnewest : In newest (QS.rows w)) by (eapply nth_error_In; eassumption).
  unfold records_window. rewrite Hst, Hen.
  split; [exact Hc|]. split; [exact Hpos|].
  split; [exists oldest, newest; auto|].
  split; [exact Hb|]. split.
  - rewrite Forall_forall in Hb. specialize (Hb newest Hnewest). lia.
  - intros Hnow. apply Hnow. exact Hnewest.
Qed.

(** The union of the grade windows stays a queryset of the rift table. *)
Lemma rift_grades_base (QUALITY_CHOICES : list (nat * string))
      (RiftDungeonLog : LogModel) (now : Z) (lv : Level)
      (grades : list (nat * string)) (acc : QS.t Log) (rd : list GradeEntry)
      (ar : QS.t Log) (rd' : list GradeEntry) :
  rift_grades QUALITY_CHOICES RiftDungeonLog now lv grades acc rd = Ok (ar, rd') ->
  QS.base ar = QS.base acc.
Proof.
  revert acc rd. induction grades as [|[g desc] grades IH]; intros acc rd; simpl.
  - intros E. injection E as <- _. reflexivity.
  - destruct (rift_window RiftDungeonLog now lv g) as [w|e]; [|discriminate].
    cbn [bind].
    destruct (if 0 <? QS.count w
              then r <- level_drop_report QUALITY_CHOICES RiftDungeonLog w ;;
                   Ok (GradeLevel r)
              else Ok GradeNone) as [gr|e]; [|discriminate].
    cbn [bind]. intros E. apply IH in E. exact E.
Qed.

(** A run of level 1 stamped 200 reported at time 100. *)
Lemma report_end_after_now_counterexample :
  exists r,
    fst (generate_dungeon_log_reports [] [mkLevel 1] one_run_model 100) = [r] /\
    recent_first (objects one_run_model) = true /\
    end_timestamp r = 200%Z /\
    ~ (start_timestamp r <= end_timestamp r <= 100)%Z.
Proof.
  eexists. split; [vm_compute; reflexivity|].
  split; [reflexivity|]. split; [reflexivity|].
  simpl. lia.
Qed.

Section TimeRange.
Variable QUALITY_CHOICES : list (nat * string).
Variable GameItem_objects : list GameItem.
Variable Monster_objects : list Monster.
Variable Level_objects : list Level.
Variable DungeonLog : LogModel.
Variable RiftDungeonLog : LogModel.
Variable GRADE_CHOICES : list (nat * string).
Variable now : Z.

Lemma rift_level_report_some (lv : Level) (r : LevelReport) :
  rift_level_report QUALITY_CHOICES GameItem_objects Monster_objects
                    RiftDungeonLog GRADE_CHOICES now lv = Ok (Some r) ->
  exists ar entries oldest newest,
    rift_grades QUALITY_CHOICES RiftDungeonLog now lv GRADE_CHOICES
                (QS.none (objects RiftDungeonLog)) [] = Ok (ar, entries) /\
    0 < QS.count ar /\
    level r = lv /\
    log_count r = QS.count ar /\
    nth_error (QS.rows ar) (QS.count ar - 1) = Some oldest /\
    nth_error (QS.rows ar) 0 = Some newest /\
    start_timestamp r = timestamp oldest /\
    end_timestamp r = timestamp newest /\
    report r
    = RiftPayload
        (entries ++
         [mkGradeEntry "summary"
            (GradeSummaries
               (grade_summaries GameItem_objects Monster_objects
                                RiftDungeonLog ar GRADE_CHOICES))]).
Proof.
  unfold rift_level_report.
  destruct (rift_grades QUALITY_CHOICES RiftDungeonLog now lv GRADE_CHOICES
              (QS.none (objects RiftDungeonLog)) []) as [[ar rd]|e] eqn:E;
    [|discriminate].
  cbn [bind fst snd].
  destruct (Nat.ltb_spec 0 (QS.count ar)) as [Hpos|_]; [|discriminate].
  rewrite grade_summary_report_eq. cbn [bind]. unfold QS.index.
  destruct (nth_error (QS.rows ar) (QS.count ar - 1)) as [oldest|] eqn:Eo;
    [|discriminate].
  cbn [bind].
  destruct (nth_error (QS.rows ar) 0) as [newest|] eqn:En; [|discriminate].
  cbn [bind]. intros H. injection H as <-.
  exists ar, rd, oldest, newest.
  cbn [level log_count start_timestamp end_timestamp report].
  repeat split; auto.
Qed.

(** C9, amended: with the log tables listed most recent first, every
    report created by either run records the count of its window, which
    is not empty, the timestamp of the oldest record of the window as
    its start and that of the newest as its end, so that start <= end;
    the end is not after [now] when no record of the window is
    stamped after [now]. *)
Theorem report_time_range :
  recent_first (objects DungeonLog) = true ->
  recent_first (objects RiftDungeonLog) = true ->
  (forall r,
      In r (fst (generate_dungeon_log_reports QUALITY_CHOICES
                   Level_objects DungeonLog now)) ->
      exists w, dungeon_window DungeonLog now (level r) = Ok w /\
                records_window now r (QS.rows w)) /\
  (forall r,
      In r (fst (generate_rift_dungeon_reports QUALITY_CHOICES
                   GameItem_objects Monster_objects Level_objects
                   RiftDungeonLog GRADE_CHOICES now)) ->
      exists all_records entries,
        rift_grades QUALITY_CHOICES RiftDungeonLog now (level r) GRADE_CHOICES
                    (QS.none (objects RiftDungeonLog)) []
        = Ok (all_records, entries) /\
        records_window now r (QS.rows all_records)).
Proof.
  intros Hd Hr. split.
  - intros r Hin. apply run_levels_In in Hin.
    destruct Hin as [[]|(lv & _ & Hs)].
    apply dungeon_level_report_some in Hs.
    destruct Hs as (w & oldest & newest & Hw & Hpos & <- & Hc & Ho & Hn & Hst & Hen).
    exists w. split; [exact Hw|].
    destruct (dungeon_window_ok DungeonLog now (level r)) as (w' & Hw' & Hb).
    rewrite Hw in Hw'. injection Hw' as <-.
    eapply records_window_of; try eassumption. now rewrite Hb.
  - intros r Hin. apply run_levels_In in Hin.
    destruct Hin as [[]|(lv & _ & Hs)].
    apply rift_level_report_some in Hs.
    destruct Hs as (ar & rd & oldest & newest & Hg & Hpos & <- & Hc & Ho & Hn
                    & Hst & Hen & _).
    exists ar, rd. split; [exact Hg|].
    eapply records_window_of; try eassumption.
    apply rift_grades_base in Hg. rewrite Hg. exact Hr.
Qed.
End TimeRange.

(** The report of the level whose single run is stamped 200, at time 300. *)
Lemma report_time_range_witness :
  exists r w,
    fst (generate_dungeon_log_reports [] [mkLevel 1] one_run_model 300) = [r] /\
    dungeon_window one_run_model 300 (level r) = Ok w /\
    records_window 300 r (QS.rows w).
Proof.
  destruct (proj1 (@report_time_range [] [] [] [mkLevel 1] one_run_model
                     one_run_model [] 300 eq_refl eq_refl)
                  (mkLevelReport (mkLevel 1) DungeonLogType 200 200 1 1
                     (LevelPayload
                        (mkLevelDropReport (mkSummary [] []) [])))
                  (or_introl eq_refl)) as (w & Hw & H).
  eexists. exists w. split; [reflexivity|]. split; [exact Hw|exact H].
Defined.

(* ================================================================= *)
(** ** The payload of a rift report *)

Section RiftPayload.
Variable QUALITY_CHOICES : list (nat * string).
Variable GameItem_objects : list GameItem.
Variable Monster_objects : list Monster.
Variable RiftDungeonLog : LogModel.
Variable now : Z.
Variable lv : Level.

(** The loop over the grades: the condition of the union and the entries
    appended. *)
Lemma rift_grades_spec (grades : list (nat * string)) (acc : QS.t Log)
      (rd : list GradeEntry) (ar : QS.t Log) (rd' : list GradeEntry) :
  rift_grades QUALITY_CHOICES RiftDungeonLog now lv grades acc rd
  = Ok (ar, rd') ->
  (forall r, QS.cond ar r
             = QS.cond acc r
               || existsb (fun g => window_cond RiftDungeonLog now lv (fst g) r)
                          grades) /\
  exists entries,
    rd' = rd ++ entries /\
    Forall2 (entry_of_grade QUALITY_CHOICES RiftDungeonLog now lv)
            grades entries.
Proof.
  revert acc rd. induction grades as [|[g desc] grades IH]; intros acc rd.
  - simpl. intros E. injection E as <- <-. split.
    + intros r. now rewrite orb_false_r.
    + exists []. split; [now rewrite app_nil_r|constructor].
  - cbn [rift_grades].
    destruct (rift_window RiftDungeonLog now lv g) as [w|e] eqn:Ew;
      [|discriminate].
    cbn [bind].
    destruct (if 0 <? QS.count w
              then r <- level_drop_report QUALITY_CHOICES RiftDungeonLog w ;;
                   Ok (GradeLevel r)
              else Ok GradeNone) as [gr|e] eqn:Egr; [|discriminate].
    cbn [bind]. intros E. apply IH in E.
    destruct E as [Hcond (entries & -> & Hentries)]. split.
    + intros r. rewrite Hcond. cbn [QS.or QS.cond existsb fst].
      unfold window_cond at 2. rewrite Ew. now rewrite orb_assoc.
    + exists (mkGradeEntry desc gr :: entries).
      split; [now rewrite <- app_assoc|].
      constructor; [|exact Hentries].
      split; [reflexivity|]. exists w. split; [exact Ew|].
      cbn [ge_report fst].
      destruct (Nat.ltb_spec 0 (QS.count w)) as [Hpos|Hzero].
      * split; [lia|]. intros _.
        destruct (level_drop_report QUALITY_CHOICES RiftDungeonLog w)
          as [rep|e]; [|discriminate].
        cbn [bind] in Egr. injection Egr as <-. exists rep. auto.
      * split; [|lia]. intros _. now injection Egr as <-.
Qed.

Variable GRADE_CHOICES : list (nat * string).
Variable all_records : QS.t Log.
Variable entries : list GradeEntry.
Hypothesis Hgrades :
  rift_grades QUALITY_CHOICES RiftDungeonLog now lv GRADE_CHOICES
              (QS.none (objects RiftDungeonLog)) []
  = Ok (all_records, entries).

(** The logs of a grade in the union are the logs of the window of the
    grade. *)
Lemma of_grade_rows (g : nat * string) (w : QS.t Log) :
  In g GRADE_CHOICES ->
  rift_window RiftDungeonLog now lv (fst g) = Ok w ->
  QS.rows (of_grade (fst g) all_records) = QS.rows w.
Proof.
  intros Hg Hw.
  destruct (rift_grades_spec _ _ _ Hgrades) as [Hcond _].
  pose proof (rift_grades_base _ _ _ _ _ _ _ Hgrades) as Hbase.
  destruct (rift_window_ok RiftDungeonLog now lv (fst g)) as (w' & Hw' & Hb & Hgr).
  rewrite Hw in Hw'. injection Hw' as <-.
  unfold of_grade, QS.rows, QS.filter. cbn [QS.base QS.cond].
  rewrite Hbase. cbn [QS.none QS.base]. rewrite Hb.
  apply filter_ext. intros r. rewrite Hcond. cbn [QS.none QS.cond orb].
  destruct (QS.cond w r) eqn:Ec.
  - rewrite (Hgr r Ec), Nat.eqb_refl, andb_true_r.
    apply existsb_exists. exists g. split; [exact Hg|].
    unfold window_cond. now rewrite Hw.
  - destruct (Nat.eqb_spec (log_grade r) (fst g)) as [Eg|_];
      [|apply andb_false_r].
    rewrite andb_true_r.
    destruct (existsb (fun g0 => window_cond RiftDungeonLog now lv (fst g0) r)
                      GRADE_CHOICES) eqn:Ex; [|reflexivity].
    apply existsb_exists in Ex. destruct Ex as (g' & _ & Hwc).
    unfold window_cond in Hwc.
    destruct (rift_window_ok RiftDungeonLog now lv (fst g'))
      as (w' & Hw' & _ & Hgr').
    rewrite Hw' in Hwc. pose proof (Hgr' r Hwc) as Eg'.
    assert (E : fst g' = fst g) by congruence.
    rewrite E, Hw in Hw'. injection Hw' as <-. congruence.
Qed.

Lemma window_in_union (g : nat * string) (w : QS.t Log) (pk : nat) :
  In g GRADE_CHOICES ->
  rift_window RiftDungeonLog now lv (fst g) = Ok w ->
  log_in (of_grade (fst g) all_records) pk = log_in w pk /\
  (log_in w pk = true -> log_in all_records pk = true).
Proof.
  intros Hg Hw. pose proof (of_grade_rows g Hg Hw) as Hrows.
  unfold log_in. rewrite Hrows. split; [reflexivity|].
  intros H. apply existsb_exists in H. destruct H as (l & Hl & Hpk).
  apply existsb_exists. exists l. split; [|exact Hpk].
  rewrite <- Hrows in Hl. unfold of_grade in Hl.
  rewrite rows_filter in Hl. apply filter_In in Hl. apply Hl.
Qed.

(** The count of an item in the block of a grade of the summary is the
    number of drop records of the item in the window of the grade. *)
Lemma summary_item_count_window (g : nat * string) (item : GameItem) :
  In g GRADE_CHOICES ->
  summary_item_count RiftDungeonLog all_records (fst g) item
  = window_item_count RiftDungeonLog now lv (fst g) item.
Proof.
  intros Hg.
  destruct (rift_window_ok RiftDungeonLog now lv (fst g)) as (w & Hw & _).
  unfold summary_item_count, window_item_count, item_entry, quantity_stats.
  cbn [st_count]. rewrite Hw, length_map. f_equal.
  unfold grade_item_drops, window_item_drops.
  destruct (items RiftDungeonLog) as [t|]; [|reflexivity].
  rewrite <- !filter_andb. apply filter_ext. intros r.
  destruct (window_in_union g (id_log r) Hg Hw) as [-> Himp].
  destruct (log_in w (id_log r)) eqn:E; simpl.
  - now rewrite (Himp eq_refl).
  - apply andb_false_r.
Qed.
End RiftPayload.

(** C7, as stated, fails: with three grade choices of which two have
    records, the payload has four entries, one of them the third grade
    with no report. *)
Lemma rift_payload_three_grades_counterexample :
  exists rep payload,
    rift_level_report [] [crystal] [] two_grade_model grades_A_B_C 300
                      (mkLevel 1) = Ok (Some rep) /\
    report rep = RiftPayload payload /\
    map (fun g => existsb (fun l => log_grade l =? fst g)
                          (objects two_grade_model)) grades_A_B_C
    = [true; true; false] /\
    map ge_grade payload = ["A"; "B"; "C"; "summary"]%string /\
    nth_error payload 2 = Some (mkGradeEntry "C" GradeNone) /\
    length payload <> 3.
Proof.
  eexists. eexists. split; [vm_compute; reflexivity|].
  split; [reflexivity|]. split; [reflexivity|]. split; [reflexivity|].
  split; [reflexivity|]. simpl. lia.
Qed.

(** C7, amended: the payload of a rift report has one entry per grade
    choice, in the order of the choices, with no report for a grade whose
    window is empty, followed by the summary entry: three entries when
    there are two grade choices.  In the summary, the count of an item in
    the block of a grade is the number of drop records of the item in the
    window of that grade, so that the counts over the grades sum to the
    total of the item over the windows of the grades. *)
Theorem rift_report_payload (QUALITY_CHOICES : list (nat * string))
        (GameItem_objects : list GameItem) (Monster_objects : list Monster)
        (RiftDungeonLog : LogModel) (GRADE_CHOICES : list (nat * string))
        (now : Z) (lv : Level) (rep : LevelReport) :
  rift_level_report QUALITY_CHOICES GameItem_objects Monster_objects
                    RiftDungeonLog GRADE_CHOICES now lv = Ok (Some rep) ->
  exists entries all_records,
    let summaries :=
      grade_summaries GameItem_objects Monster_objects RiftDungeonLog
                      all_records GRADE_CHOICES in
    let payload :=
      entries ++ [mkGradeEntry "summary" (GradeSummaries summaries)] in
    report rep = RiftPayload payload /\
    Forall2 (entry_of_grade QUALITY_CHOICES RiftDungeonLog now lv)
            GRADE_CHOICES entries /\
    length payload = length GRADE_CHOICES + 1 /\
    map ge_grade payload = map snd GRADE_CHOICES ++ ["summary"%string] /\
    map gs_grade summaries = map snd GRADE_CHOICES /\
    (forall g item, In g GRADE_CHOICES ->
       summary_item_count RiftDungeonLog all_records (fst g) item
       = window_item_count RiftDungeonLog now lv (fst g) item) /\
    (forall item,
       list_sum (map (fun g => summary_item_count RiftDungeonLog all_records
                                                  (fst g) item) GRADE_CHOICES)
       = list_sum (map (fun g => window_item_count RiftDungeonLog now lv
                                                   (fst g) item) GRADE_CHOICES)).
Proof.
  intros H. apply rift_level_report_some in H.
  destruct H as (ar & rd & _ & _ & Hg & _ & _ & _ & _ & _ & _ & _ & Hrep).
  destruct (rift_grades_spec _ _ _ _ _ _ _ Hg) as [_ (es & Hes & Hentries)].
  simpl in Hes. subst es.
  exists rd, ar. cbv zeta.
  assert (Hlen : length rd = length GRADE_CHOICES).
  { clear - Hentries. induction Hentries; simpl; congruence. }
  assert (Hnames : map ge_grade rd = map snd GRADE_CHOICES).
  { clear - Hentries. induction Hentries as [|g e gs es [He _] _ IH]; simpl;
      congruence. }
  split; [exact Hrep|]. split; [exact Hentries|].
  split; [rewrite length_app; simpl; lia|].
  split; [rewrite map_app, Hnames; reflexivity|].
  split; [unfold grade_summaries; rewrite map_map; reflexivity|].
  assert (Hcount : forall g item, In g GRADE_CHOICES ->
     summary_item_count RiftDungeonLog ar (fst g) item
     = window_item_count RiftDungeonLog now lv (fst g) item).
  { intros g item Hin. eapply summary_item_count_window; eassumption. }
  split; [exact Hcount|].
  intros item. f_equal. apply map_ext_in. intros g Hin. now apply Hcount.
Qed.

(** Two grade choices, each with one run: three entries, and the single
    drop of the item counted in the block of grade A. *)
Lemma rift_report_payload_witness :
  exists rep payload,
    rift_level_report [] [crystal] [] two_grade_model grades_A_B 300
                      (mkLevel 1) = Ok (Some rep) /\
    report rep = RiftPayload payload /\
    length payload = 3 /\
    map ge_grade payload = ["A"; "B"; "summary"]%string.
Proof.
  eexists.
  destruct (@rift_report_payload [] [crystal] [] two_grade_model grades_A_B
              300 (mkLevel 1) _ ltac:(vm_compute; reflexivity))
    as (entries & ar & Hrep & _ & Hlen & Hnames & _).
  eexists. split; [vm_compute; reflexivity|].
  split; [exact Hrep|]. split; [exact Hlen|exact Hnames].
Defined.

(* ================================================================= *)
(** ** Ordering: sortedness and sums *)

Lemma insert_by_sorted (A : Type) (le : A -> A -> bool) (x : A) (l : list A) :
  (forall a b, le a b = false -> le b a = true) ->
  Sorted (fun a b => le a b = true) l ->
  Sorted (fun a b => le a b = true) (insert_by le x l).
Proof.
  intros Htotal Hs. induction Hs as [|y l Hs IH Hhd]; simpl.
  - repeat constructor.
  - destruct (le x y) eqn:E.
    + constructor; [constructor; assumption|]. now constructor.
    + constructor; [exact IH|].
      destruct Hhd as [|z l Hyz]; simpl.
      * constructor. now apply Htotal.
      * destruct (le x z); constructor; [now apply Htotal|exact Hyz].
Qed.

Lemma order_by_sorted (A : Type) (le : A -> A -> bool) (l : list A) :
  (forall a b, le a b = false -> le b a = true) ->
  Sorted (fun a b => le a b = true) (order_by le l).
Proof.
  intros Htotal. unfold order_by. induction l as [|x l IH]; simpl.
  - constructor.
  - now apply insert_by_sorted.
Qed.

Lemma Sorted_impl (A : Type) (R R' : A -> A -> Prop) (l : list A) :
  (forall a b, R a b -> R' a b) -> Sorted R l -> Sorted R' l.
Proof.
  intros Himp. induction 1 as [|x l Hs IH Hhd]; constructor; [exact IH|].
  destruct Hhd; constructor. now apply Himp.
Qed.

Lemma insert_by_sum_of (A : Type) (le : A -> A -> bool) (f : A -> nat)
      (x : A) (l : list A) :
  list_sum (map f (insert_by le x l)) = f x + list_sum (map f l).
Proof.
  induction l as [|y l IH]; simpl; [reflexivity|].
  destruct (le x y); simpl; [reflexivity|]. rewrite IH. lia.
Qed.

Lemma order_by_sum_of (A : Type) (le : A -> A -> bool) (f : A -> nat)
      (l : list A) :
  list_sum (map f (order_by le l)) = list_sum (map f l).
Proof.
  unfold order_by. induction l as [|x l IH]; simpl; [reflexivity|].
  now rewrite insert_by_sum_of, IH.
Qed.

Lemma group_by_sum (row K : Type) `{EqDec K} (key : row -> K) (l : list row) :
  list_sum (map (fun g => length (snd g)) (group_by key l)) = length l.
Proof.
  unfold group_by. rewrite map_map. simpl.
  apply count_partition.
  - apply distinct_NoDup.
  - intros r Hr. apply distinct_In. now apply in_map.
Qed.

Lemma fold_max_ge (tl : list Z) (x v : Z) :
  In v (x :: tl) -> (v <= fold_right Z.max x tl)%Z.
Proof.
  induction tl as [|a tl IH]; simpl.
  - intros [<-|[]]. lia.
  - intros [<-|[<-|H]].
    + specialize (IH (or_introl eq_refl)). lia.
    + lia.
    + specialize (IH (or_intror H)). lia.
Qed.

Lemma quantity_range_nonempty (quantities : list Z) (n : nat) :
  0 < length quantities -> quantity_range (quantity_stats quantities n).
Proof.
  destruct quantities as [|x tl]; simpl; [lia|]. intros _.
  exists (fold_right Z.min x tl), (fold_right Z.max x tl).
  split; [reflexivity|]. split; [reflexivity|].
  pose proof (@fold_min_le tl x x (or_introl eq_refl)).
  pose proof (@fold_max_ge tl x x (or_introl eq_refl)).
  lia.
Qed.

(* ================================================================= *)
(** ** The item report *)

(** X1: called with a positive total log count, the divisor of its rates,
    on a handle that holds drops, the item report is returned; its rows
    are in descending order of count and their counts add up to the
    number of drops of the handle.  Every row counts at least one drop,
    has its minimum and maximum quantity, in order, and has as average per
    run the sum of the quantities of the drops of its item divided by the
    total log count. *)
Theorem item_report_rows (qs : QS.t ItemDrop) (total_log_count : nat) :
  0 < total_log_count ->
  0 < QS.count qs ->
  exists rows,
    get_item_report qs total_log_count = ItemReport rows /\
    list_sum (map (fun r => st_count (ir_stats r)) rows) = QS.count qs /\
    Sorted count_desc rows /\
    Forall (fun r =>
              0 < st_count (ir_stats r) /\
              quantity_range (ir_stats r) /\
              avg_per_run_of
                (map id_quantity
                     (List.filter
                        (fun d => same (item_report_key d)
                                       (ir_item r, ir_name r, ir_icon r))
                        (QS.rows qs)))
                total_log_count (st_avg_per_run (ir_stats r)))
           rows.
Proof.
  intros _ Hpos. unfold get_item_report.
  destruct (Nat.eqb_spec (QS.count qs) 0) as [E|_]; [lia|].
  eexists. split; [reflexivity|]. split; [|split].
  - rewrite order_by_sum_of, map_map. unfold QS.count.
    rewrite <- (group_by_sum item_report_key (QS.rows qs)).
    apply f_equal, map_ext. intros [[[item name] icon] g]. simpl.
    apply length_map.
  - eapply Sorted_impl; [|apply order_by_sorted].
    + intros a b H. unfold count_desc. now apply Nat.leb_le in H.
    + intros a b H. apply Nat.leb_le. apply Nat.leb_gt in H. lia.
  - apply Forall_forall. intros r Hr. apply order_by_In in Hr.
    apply in_map_iff in Hr. destruct Hr as ([[[item name] icon] g] & <- & Hg).
    apply group_by_In in Hg. destruct Hg as [Eg Hlen].
    cbn [ir_stats ir_item ir_name ir_icon quantity_stats st_count
         st_avg_per_run].
    rewrite length_map. split; [exact Hlen|]. split.
    + apply quantity_range_nonempty. now rewrite length_map.
    + unfold item_report_key. rewrite <- Eg. apply avg_per_run_of_per_run.
Qed.

(* ================================================================= *)
(** ** The monster report *)

(** X2: called with a positive total log count, the divisor of its rates,
    on a handle that holds drops, the monster report is returned with
    five blocks, each with the number of drops of the handle as its total
    and with counts that add up to that total; the drop chance of a native
    star row is its count divided by the total log count, times 100. *)
Theorem monster_report_blocks (qs : QS.t MonsterDrop) (total_log_count : nat) :
  0 < total_log_count ->
  0 < QS.count qs ->
  exists r,
    get_monster_report qs total_log_count = MonsterReport r /\
    (total (ms_monsters r) = QS.count qs /\
     list_sum (map snd (data (ms_monsters r))) = QS.count qs) /\
    (total (ms_family r) = QS.count qs /\
     list_sum (map snd (data (ms_family r))) = QS.count qs) /\
    (total (ms_nat_stars r) = QS.count qs /\
     list_sum (map snd (data (ms_nat_stars r))) = QS.count qs /\
     Forall (fun row => rate_invariant (snd row) total_log_count (snd (fst row)))
            (data (ms_nat_stars r))) /\
    (total (ms_element r) = QS.count qs /\
     list_sum (map snd (data (ms_element r))) = QS.count qs) /\
    (total (ms_awakened r) = QS.count qs /\
     list_sum (map snd (data (ms_awakened r))) = QS.count qs).
Proof.
  intros Ht Hpos. unfold get_monster_report.
  destruct (Nat.eqb_spec (QS.count qs) 0) as [E|_]; [lia|].
  eexists. split; [reflexivity|]. cbn [ms_monsters ms_family ms_nat_stars
    ms_element ms_awakened total data]. unfold QS.count.
  repeat split; try apply count_by_sum.
  - rewrite map_map. cbn [snd].
    apply (group_by_sum (fun d => base_stars (md_monster d)) (QS.rows qs)).
  - apply Forall_forall. intros row Hrow. apply in_map_iff in Hrow.
    destruct Hrow as (g & <- & _). cbn [fst snd].
    now apply rate_invariant_percent_of.
Qed.

(* ================================================================= *)
(** ** The charts of the summary *)

Lemma rows_exclude (A : Type) (p : A -> bool) (qs : QS.t A) :
  QS.rows (QS.exclude p qs) = List.filter (fun r => negb (p r)) (QS.rows qs).
Proof. unfold QS.rows, QS.exclude; simpl. apply filter_andb. Qed.

Lemma count_by_positive (row K : Type) `{EqDec K} (key : row -> K)
      (l : list row) :
  Forall (fun kc => 0 < snd kc) (count_by key l).
Proof.
  apply Forall_forall. intros [k c] Hin. unfold count_by in Hin.
  apply in_map_iff in Hin. destruct Hin as ([k' g] & E & Hg).
  simpl in E. injection E as -> <-.
  apply group_by_In in Hg. apply Hg.
Qed.

Lemma count_gt_0_all (K : Type) (l : list (K * nat)) :
  Forall (fun kc => 0 < snd kc) l -> count_gt_0 l = l.
Proof.
  intros Hall. unfold count_gt_0. apply filter_all.
  eapply Forall_impl; [|exact Hall]. intros kc Hkc. now apply Nat.ltb_lt.
Qed.

(** The chart entries of the counts of a queryset by a key: positive
    counts in descending order that add up to the number of rows. *)
Lemma chart_of_counts (row : Type) (key : row -> string) (l : list row) :
  let entries :=
    map (fun kc => mkChart (fst kc) (snd kc))
        (by_count_desc (count_gt_0 (count_by key l))) in
  Forall (fun e => 0 < chart_count e) entries /\
  Sorted chart_desc entries /\
  list_sum (map chart_count entries) = length l.
Proof.
  cbv zeta. rewrite (count_gt_0_all (count_by_positive key l)).
  unfold by_count_desc. split; [|split].
  - apply Forall_forall. intros e He. apply in_map_iff in He.
    destruct He as (kc & <- & Hkc). apply order_by_In in Hkc.
    pose proof (count_by_positive key l) as Hp.
    rewrite Forall_forall in Hp. apply (Hp kc Hkc).
  - assert (Hs : Sorted (fun a b : string * nat => snd b <= snd a)
                        (order_by (fun a b => snd b <=? snd a) (count_by key l))).
    { eapply Sorted_impl; [|apply order_by_sorted].
      - intros a b H. now apply Nat.leb_le in H.
      - intros a b H. apply Nat.leb_le. apply Nat.leb_gt in H. lia. }
    induction Hs as [|x xs Hs IH Hhd]; simpl; constructor; [exact IH|].
    destruct Hhd; simpl; constructor. exact H.
  - rewrite map_map. cbn [chart_count].
    rewrite order_by_sum. apply count_by_sum.
Qed.

(** X3: the chart of the item category has one entry per item name, with
    positive counts in descending order that add up to the number of item
    drops that are not currency; the chart of the monster category has
    one entry per star grade and its counts add up to the number of
    monster drops. *)
Theorem summary_chart_entries :
  (forall qs : QS.t ItemDrop,
      Forall (fun e => 0 < chart_count e) (item_chart qs) /\
      Sorted chart_desc (item_chart qs) /\
      list_sum (map chart_count (item_chart qs))
      = length (List.filter
                  (fun d => negb (item_category (id_item d) =? CATEGORY_CURRENCY))
                  (QS.rows qs))) /\
  (forall qs : QS.t MonsterDrop,
      Forall (fun e => 0 < chart_count e) (monster_chart qs) /\
      Sorted chart_desc (monster_chart qs) /\
      list_sum (map chart_count (monster_chart qs)) = QS.count qs).
Proof.
  split.
  - intros qs. unfold item_chart. rewrite rows_exclude.
    apply (chart_of_counts (fun d => item_name (id_item d))).
  - intros qs. unfold monster_chart, QS.count.
    apply (chart_of_counts
             (fun d => (str (md_grade d) ++ star_monster)%string)).
Qed.

(* ================================================================= *)
(** ** The tables of the summary *)

Lemma dict_has_set (V : Type) (k k' : string) (v : V) (d : list (string * V)) :
  dict_has k' (dict_set k v d) = String.eqb k k' || dict_has k' d.
Proof.
  unfold dict_has. induction d as [|[k0 v0] d IH]; simpl.
  - reflexivity.
  - destruct (String.eqb_spec k0 k) as [->|Hne]; simpl.
    + destruct (String.eqb k k'); reflexivity.
    + rewrite IH. destruct (String.eqb k0 k'), (String.eqb k k'); reflexivity.
Qed.

Lemma group_by_length (row K : Type) `{EqDec K} (key : row -> K) (l : list row) :
  (length (group_by key l) =? 0) = (length l =? 0).
Proof.
  unfold group_by. rewrite length_map. destruct l as [|r l]; reflexivity.
Qed.

Lemma item_table_length (qs : QS.t ItemDrop) (n : nat) :
  (length (item_table qs n) =? 0) = (QS.count qs =? 0).
Proof.
  unfold item_table, QS.count.
  rewrite length_map, order_by_length.
  rewrite filter_all.
  - rewrite length_map. apply group_by_length.
  - apply Forall_forall. intros [k st] Hin. apply in_map_iff in Hin.
    destruct Hin as ([k' g] & E & Hg). simpl in E. injection E as -> <-.
    apply group_by_In in Hg. destruct Hg as [_ Hlen]. simpl.
    rewrite length_map. now apply Nat.ltb_lt.
Qed.

Lemma negb_eqb_0 (n : nat) : negb (n =? 0) = (0 <? n).
Proof. destruct n; reflexivity. Qed.

(** The chart and the truth value of the table of a category. *)
Lemma summary_of_truthy (key : string) (h : DropQS) (n : nat) :
  handle_of_key (key, h) = true ->
  exists c t, summary_of key h n = Ok (c, t) /\ truthy t = has_table (key, h) /\
    (key <> ItemDrop_RELATED_NAME -> key <> MonsterDrop_RELATED_NAME ->
     c = category_chart key h).
Proof.
  unfold handle_of_key, has_table. simpl.
  destruct h; intros E; apply String.eqb_eq in E; subst key;
    eexists; eexists; (split; [reflexivity|]); simpl;
    (split; [|try congruence; try reflexivity]).
  - rewrite item_table_length, negb_eqb_0. now rewrite orb_false_r.
  - unfold monster_table. rewrite length_map, group_by_length.
    rewrite negb_eqb_0. now rewrite orb_false_r.
  - unfold monster_piece_table. rewrite length_map, negb_eqb_0.
    now rewrite orb_false_r.
  - now rewrite orb_true_r.
  - unfold rune_craft_table, count_by.
    rewrite order_by_length, length_map, group_by_length, negb_eqb_0.
    now rewrite orb_false_r.
  - unfold secret_dungeon_table, count_by.
    rewrite length_map, group_by_length, negb_eqb_0. now rewrite orb_false_r.
Qed.

Lemma summary_loop_tables (drops : list (string * DropQS)) (n : nat)
      (s s' : Summary) :
  Forall (fun e => handle_of_key e = true) drops ->
  summary_loop drops n s = Ok s' ->
  forall key,
    dict_has key (table s')
    = dict_has key (table s)
      || existsb (fun e => String.eqb (fst e) key && has_table e) drops.
Proof.
  intros Hall. revert s. induction Hall as [|[k h] drops Hk _ IH]; intros s.
  - simpl. intros E key. injection E as <-. now rewrite orb_false_r.
  - cbn [summary_loop].
    destruct (summary_of_truthy k h n Hk) as (c & t & -> & Ht & _).
    cbn [bind fst snd]. intros E key. rewrite (IH _ E key).
    cbn [table existsb fst]. rewrite Ht.
    destruct (has_table (k, h)).
    + rewrite dict_has_set. rewrite andb_true_r.
      destruct (String.eqb k key), (dict_has key (table s)); reflexivity.
    + rewrite andb_false_r. reflexivity.
Qed.

(** X4: in the summary of a mapping of recognised keys to their handles,
    the table has an entry for a category exactly when the category has a
    drop record, or is the rune category, whose table is kept even when
    empty. *)
Theorem summary_tables (drops : list (string * DropQS)) (total_log_count : nat)
        (s : Summary) :
  Forall (fun e => handle_of_key e = true) drops ->
  get_report_summary drops total_log_count = Ok s ->
  forall key,
    dict_has key (table s)
    = existsb (fun e => String.eqb (fst e) key && has_table e) drops.
Proof.
  intros Hall E key.
  apply (@summary_loop_tables drops total_log_count
           {| table := []; chart := [] |} s Hall E key).
Qed.

Lemma summary_loop_chart (drops : list (string * DropQS)) (n : nat)
      (s s' : Summary) :
  Forall (fun e => handle_of_key e = true) drops ->
  Forall (fun e => fst e <> ItemDrop_RELATED_NAME /\
                   fst e <> MonsterDrop_RELATED_NAME) drops ->
  summary_loop drops n s = Ok s' ->
  chart s' = chart s ++ flat_map (fun e => category_chart (fst e) (snd e)) drops.
Proof.
  intros Hall. revert s. induction Hall as [|[k h] drops Hk _ IH]; intros s Hne.
  - simpl. intros E. injection E as <-. now rewrite app_nil_r.
  - cbn [summary_loop]. inversion Hne as [|? ? [Hi Hm] Hne']; subst.
    destruct (summary_of_truthy k h n Hk) as (c & t & -> & _ & Hc).
    cbn [bind fst snd]. intros E. rewrite (IH _ Hne' E).
    cbn [chart flat_map fst snd]. rewrite (Hc Hi Hm).
    now rewrite <- app_assoc.
Qed.

(** X5: for categories other than items and monsters, the chart of the
    summary has, in the order of the mapping, one entry per category
    that has a drop record, with the label of the category and the number
    of its drop records, and no entry for a category without drops. *)
Theorem summary_category_chart (drops : list (string * DropQS))
        (total_log_count : nat) (s : Summary) :
  Forall (fun e => handle_of_key e = true) drops ->
  Forall (fun e => fst e <> ItemDrop_RELATED_NAME /\
                   fst e <> MonsterDrop_RELATED_NAME) drops ->
  get_report_summary drops total_log_count = Ok s ->
  chart s = flat_map (fun e => category_chart (fst e) (snd e)) drops /\
  length (chart s)
  = length (List.filter (fun e => 0 <? drop_count (snd e)) drops).
Proof.
  intros Hall Hne E.
  pose proof (@summary_loop_chart drops total_log_count
                {| table := []; chart := [] |} s Hall Hne E) as Hc.
  simpl in Hc.
  split; [exact Hc|]. rewrite Hc. clear.
  induction drops as [|[k h] drops IH]; simpl; [reflexivity|].
  rewrite length_app, IH. unfold category_chart.
  destruct (0 <? drop_count h); reflexivity.
Qed.

(* ================================================================= *)
(** ** The sampling window selector: further properties *)

Lemma filter_nonempty_length (A : Type) (p : A -> bool) (l : list A) (x : A) :
  In x l -> p x = true -> 0 < length (List.filter p l).
Proof.
  intros Hin Hp.
  assert (H : In x (List.filter p l)) by (apply filter_In; auto).
  destruct (List.filter p l); [destruct H|simpl; lia].
Qed.

(** X6: with a minimum count of at least one, the selector returns a
    window that holds only records of the queryset and that is empty only
    when the queryset is: a target with a record is never left without a
    window. *)
Theorem window_nonempty (now : Z) (qs : QS.t Log) (T : Z) (M : nat) :
  0 < M ->
  exists w, _records_to_report now qs T M = Ok w /\
            (forall r, In r (QS.rows w) -> In r (QS.rows qs)) /\
            (QS.count w = 0 <-> QS.count qs = 0).
Proof.
  intros HM. unfold _records_to_report, QS.count, QS.slice.
  rewrite rows_filter.
  destruct (Nat.ltb_spec (length (List.filter (since (now - T)) (QS.rows qs))) M)
    as [Hlt|Hge].
  - rewrite length_firstn.
    destruct (Nat.ltb_spec 0 (Nat.min M (length (QS.rows qs)))) as [Hpos|Hzero].
    + unfold QS.slice_index.
      destruct (nth_error (firstn M (QS.rows qs))
                          (Nat.min M (length (QS.rows qs)) - 1)) as [e|] eqn:He.
      * cbn [bind]. eexists. split; [reflexivity|]. rewrite rows_filter.
        split; [intros r Hr; apply filter_In in Hr; apply Hr|].
        assert (Hin : In e (QS.rows qs)).
        { apply nth_error_In in He. rewrite <- (firstn_skipn M (QS.rows qs)).
          apply in_or_app. now left. }
        assert (Hw : 0 < length (List.filter (since (timestamp e)) (QS.rows qs))).
        { apply (filter_nonempty_length _ _ e Hin).
          unfold since. apply Z.leb_le. lia. }
        split; lia.
      * apply nth_error_None in He. rewrite length_firstn in He. lia.
    + eexists. split; [reflexivity|]. split; [auto|]. tauto.
  - eexists. split; [reflexivity|]. rewrite rows_filter.
    split; [intros r Hr; apply filter_In in Hr; apply Hr|].
    pose proof (filter_length_le (since (now - T)) (QS.rows qs)). split; lia.
Qed.

(** X7: for a queryset listed most recent first, the window of the
    selector holds every record of the time span, whether it is bounded
    by the time span or by the minimum count. *)
Theorem window_keeps_time_span (now : Z) (qs : QS.t Log) (T : Z) (M : nat)
        (w : QS.t Log) :
  recent_first (QS.rows qs) = true ->
  _records_to_report now qs T M = Ok w ->
  forall r, In r (QS.rows qs) -> since (now - T) r = true -> In r (QS.rows w).
Proof.
  intros Hsorted. apply recent_first_sorted in Hsorted.
  unfold _records_to_report, QS.count, QS.slice. rewrite rows_filter.
  set (rs := QS.rows qs) in *.
  set (within := List.filter (since (now - T)) rs).
  destruct (Nat.ltb_spec (length within) M) as [Hlt|Hge].
  - rewrite length_firstn.
    destruct (Nat.ltb_spec 0 (Nat.min M (length rs))) as [Hpos|Hzero].
    + unfold QS.slice_index. rewrite nth_error_firstn.
      destruct (Nat.ltb_spec (Nat.min M (length rs) - 1) M); [|lia].
      destruct (nth_error rs (Nat.min M (length rs) - 1)) as [e|] eqn:He;
        [|apply nth_error_None in He; lia].
      cbn [bind]. intros E. injection E as <-. rewrite rows_filter. fold rs.
      intros x Hx Hspan. apply filter_In. split; [exact Hx|].
      unfold since. apply Z.leb_le.
      destruct (Z.le_gt_cases (timestamp e) (timestamp x)) as [Hle|Hgt];
        [exact Hle|exfalso].
      set (k := Nat.min M (length rs)) in *.
      assert (Hsk : S (k - 1) = k) by lia.
      destruct (@sorted_boundary rs (k - 1) e Hsorted He) as [Hf _].
      rewrite Hsk in Hf.
      assert (Hfirst : List.filter (since (now - T)) (firstn k rs) = firstn k rs).
      { apply filter_all. apply Forall_forall. intros a Ha.
        rewrite Forall_forall in Hf. specialize (Hf a Ha).
        unfold since in *. apply Z.leb_le in Hf, Hspan. apply Z.leb_le. lia. }
      assert (Hxs : In x (skipn k rs)).
      { rewrite <- (firstn_skipn k rs) in Hx. apply in_app_or in Hx.
        destruct Hx as [Hx|Hx]; [|exact Hx].
        rewrite Forall_forall in Hf. specialize (Hf x Hx).
        unfold since in Hf. apply Z.leb_le in Hf. lia. }
      assert (Hlen : k + 1 <= length within).
      { unfold within. rewrite <- (firstn_skipn k rs), filter_app, Hfirst.
        rewrite length_app, length_firstn. fold k.
        pose proof (filter_nonempty_length (since (now - T)) _ x Hxs Hspan).
        lia. }
      pose proof (filter_length_le (since (now - T)) rs) as Hle.
      fold within in Hle. lia.
    + intros E. injection E as <-. auto.
  - intros E. injection E as <-. rewrite rows_filter. fold rs.
    intros x Hx Hspan. apply filter_In. split; assumption.
Qed.

(* ================================================================= *)
(** ** The drop category resolver: the mapping *)

Lemma map_filter_comm (A B : Type) (f : A -> B) (p : B -> bool) (l : list A) :
  map f (List.filter (fun a => p (f a)) l) = List.filter p (map f l).
Proof.
  induction l as [|a l IH]; simpl; [reflexivity|].
  destruct (p (f a)); simpl; now rewrite IH.
Qed.

Lemma drop_logs_filter (d : DropQS) (qs : QS.t Log) :
  drop_logs (filter_log_in d qs) = List.filter (log_in qs) (drop_logs d).
Proof.
  destruct d; simpl; rewrite rows_filter;
    apply (map_filter_comm _ (log_in qs)).
Qed.

Lemma filter_log_in_count (d : DropQS) (qs : QS.t Log) :
  0 < drop_count (filter_log_in d qs) -> 0 < QS.count qs.
Proof.
  intros H.
  assert (E : drop_count (filter_log_in d qs)
              = length (drop_logs (filter_log_in d qs))).
  { destruct d; simpl; unfold QS.count; now rewrite length_map. }
  rewrite E, drop_logs_filter in H.
  destruct (List.filter (log_in qs) (drop_logs d)) as [|log tl] eqn:Ef;
    [simpl in H; lia|].
  assert (Hin : In log (List.filter (log_in qs) (drop_logs d)))
    by (rewrite Ef; now left).
  apply filter_In in Hin. exact (log_in_count _ _ (proj2 Hin)).
Qed.

(** X16: a handle of the mapping of the resolver that holds a drop record
    has a record of the log queryset behind it: the count of the log
    queryset, which the level report hands to the summary composer as the
    divisor of its rates, is positive whenever a handle holds a drop. *)
Theorem resolver_divisor_positive (QUALITY_CHOICES : list (nat * string))
        (model : LogModel) (qs : QS.t Log) (key : string) (h : DropQS) :
  In (key, h) (get_drop_querysets QUALITY_CHOICES model qs) ->
  0 < drop_count h ->
  0 < QS.count qs.
Proof.
  rewrite get_drop_querysets_eq. intros Hin Hpos.
  repeat (apply in_app_or in Hin; destruct Hin as [Hin|Hin]);
    match type of Hin with
    | In _ (category_entry _ (option_map _ ?x) _) =>
        destruct x as [t|]; cbn [category_entry option_map In] in Hin;
        [|destruct Hin];
        destruct Hin as [Hin|[]]; injection Hin as _ <-;
        match type of Hpos with
        | 0 < drop_count (?c (QS.filter _ ?o)) =>
            exact (filter_log_in_count (c o) qs Hpos)
        end
    end.
Qed.

Lemma related_objects_typed (model : LogModel) (key : string) (d : DropQS)
      (qs : QS.t Log) :
  related_objects model key = Some d ->
  handle_of_key (key, filter_log_in d qs) = true.
Proof.
  unfold related_objects.
  repeat match goal with
         | |- context [String.eqb key ?n] =>
             destruct (String.eqb_spec key n) as [->|?]
         end;
    try discriminate;
    match goal with
    | |- option_map _ ?x = Some _ -> _ =>
        destruct x; simpl; intros E; [injection E as <-; reflexivity|discriminate]
    end.
Qed.

Ltac destruct_tables :=
  repeat match goal with
         | |- context [option_map _ ?x] => is_var x; destruct x
         end.

(** X8: the mapping of the resolver holds a category exactly when the log
    model has the relation of that name; the handle stored is a queryset
    of the drop model of the category, and its drop records are those of
    the drop table whose log is in the given queryset.  Asking the mapping
    for any other key raises [KeyError]. *)
Theorem resolver_mapping (QUALITY_CHOICES : list (nat * string))
        (model : LogModel) (qs : QS.t Log) (key : string) :
  match related_objects model key with
  | Some d =>
      dict_get key (get_drop_querysets QUALITY_CHOICES model qs)
      = Ok (filter_log_in d qs) /\
      handle_of_key (key, filter_log_in d qs) = true /\
      drop_logs (filter_log_in d qs) = List.filter (log_in qs) (drop_logs d)
  | None =>
      dict_get key (get_drop_querysets QUALITY_CHOICES model qs)
      = Raise (KeyError key) /\
      dict_has key (get_drop_querysets QUALITY_CHOICES model qs) = false
  end.
Proof.
  destruct (related_objects model key) as [d|] eqn:Er.
  - split; [|split; [eapply related_objects_typed; eassumption
                    |apply drop_logs_filter]].
    rewrite get_drop_querysets_eq. revert Er. unfold related_objects.
    destruct model as [o i m p r c s]. cbn [items monsters monster_pieces runes
      rune_crafts secret_dungeons].
    repeat match goal with
           | |- context [String.eqb key ?n] =>
               destruct (String.eqb_spec key n) as [->|?]
           end;
      try discriminate;
      match goal with
      | |- option_map _ ?x = Some _ -> _ =>
          destruct x; cbn [option_map]; intros E;
          [injection E as <-|discriminate]
      end;
      destruct_tables; reflexivity.
  - rewrite get_drop_querysets_eq. revert Er. unfold related_objects.
    destruct model as [o i m p r c s]. cbn [items monsters monster_pieces runes
      rune_crafts secret_dungeons].
    unfold dict_has.
    repeat match goal with
           | |- context [String.eqb key ?n] =>
               destruct (String.eqb_spec key n) as [->|?]
           end.
    all: try (match goal with
              | |- option_map _ ?x = None -> _ =>
                  destruct x; cbn [option_map]; intros E; [discriminate|]
              end;
              destruct_tables; split; reflexivity).
    intros _.
    assert (E1 : String.eqb ItemDrop_RELATED_NAME key = false)
      by (apply String.eqb_neq; congruence).
    assert (E2 : String.eqb MonsterDrop_RELATED_NAME key = false)
      by (apply String.eqb_neq; congruence).
    assert (E3 : String.eqb MonsterPieceDrop_RELATED_NAME key = false)
      by (apply String.eqb_neq; congruence).
    assert (E4 : String.eqb RuneDrop_RELATED_NAME key = false)
      by (apply String.eqb_neq; congruence).
    assert (E5 : String.eqb RuneCraftDrop_RELATED_NAME key = false)
      by (apply String.eqb_neq; congruence).
    assert (E6 : String.eqb DungeonSecretDungeonDrop_RELATED_NAME key = false)
      by (apply String.eqb_neq; congruence).
    destruct_tables;
      cbn [category_entry option_map app dict_get existsb fst];
      rewrite ?E1, ?E2, ?E3, ?E4, ?E5, ?E6; split; reflexivity.
Qed.

(* ================================================================= *)
(** ** The level report: dispatch and errors *)

Lemma Min_map_some (A : Type) (f : A -> Z) (l : list A) :
  0 < length l -> exists m, Min (map f l) = Some m.
Proof. destruct l; simpl; [lia|]. intros _. eexists. reflexivity. Qed.

Lemma Max_map_some (A : Type) (f : A -> Z) (l : list A) :
  0 < length l -> exists m, Max (map f l) = Some m.
Proof. destruct l; simpl; [lia|]. intros _. eexists. reflexivity. Qed.

(** The rune report raises only for want of a bin of the value histogram. *)
Lemma rune_report_raise (QUALITY_CHOICES : list (nat * string))
      (qs : QS.t RuneDrop) (n : nat) (e : exn) :
  get_rune_report QUALITY_CHOICES qs n = Raise e ->
  e = IndexError /\ value_bins qs = Some [] /\ 0 < QS.count qs.
Proof.
  unfold get_rune_report, value_bins.
  destruct (Nat.eqb_spec (QS.count qs) 0) as [E|Hne]; [discriminate|].
  assert (Hpos : 0 < length (QS.rows qs)) by (unfold QS.count in Hne; lia).
  destruct (Min_map_some rd_value _ Hpos) as [lo ->].
  destruct (Max_map_some rd_value _ Hpos) as [hi ->].
  destruct (@histogram_ok RuneDrop (QS.rows qs) rd_max_efficiency
              (range 0 100 5) rd_quality QUALITY_CHOICES) as [me ->];
    [apply range_nonempty; lia|].
  cbn [bind]. unfold histogram at 1.
  destruct (range (floor_to_nearest lo 1000) (ceil_to_nearest hi 1000) 500);
    [|discriminate].
  cbn [bind]. intros E. injection E as <-. unfold QS.count. auto.
Qed.

(** X9: the level report never fails on its dispatch: the only exception
    it raises is the [IndexError] of a rune report whose value histogram
    has no bin, so that a log model without rune drops always gets its
    report; a report that is returned holds the summary of the mapping of
    the resolver and one entry per category of that mapping, in its
    order. *)
Theorem level_drop_report_dispatch (QUALITY_CHOICES : list (nat * string))
        (model : LogModel) (qs : QS.t Log) :
  (forall e, level_drop_report QUALITY_CHOICES model qs = Raise e ->
     e = IndexError /\
     exists t, runes model = Some t /\
       value_bins (QS.filter (fun r => log_in qs (rd_log r)) (QS.objects t))
       = Some []) /\
  (forall rep, level_drop_report QUALITY_CHOICES model qs = Ok rep ->
     map fst (categories rep)
     = map fst (get_drop_querysets QUALITY_CHOICES model qs) /\
     get_report_summary (get_drop_querysets QUALITY_CHOICES model qs)
                        (QS.count qs) = Ok (summary rep)) /\
  (runes model = None ->
   exists rep, level_drop_report QUALITY_CHOICES model qs = Ok rep).
Proof.
  unfold level_drop_report.
  destruct (summary_loop_ok (QS.count qs) {| table := []; chart := [] |}
              (get_drop_querysets_typed QUALITY_CHOICES model qs)) as [sm Hsm].
  unfold get_report_summary. rewrite Hsm. cbn [bind].
  rewrite get_drop_querysets_eq.
  destruct model as [o i m p r c s].
  cbn [items monsters monster_pieces runes rune_crafts secret_dungeons].
  destruct_tables;
    cbn -[get_item_report get_monster_report get_rune_report drop_count].
  all: try match goal with
           | |- context [get_rune_report ?a ?b ?c] =>
               destruct (get_rune_report a b c) as [rr|e0] eqn:Erune
           end.
  all: cbn [bind]; split; [|split].
  all: try (intros e H; discriminate H).
  all: try (intros rep H; discriminate H).
  all: try (intros H; discriminate H).
  all: try (intros _; eexists; reflexivity).
  all: try (intros rep H; injection H as <-; split; reflexivity).
  all: intros e H; injection H as <-; apply rune_report_raise in Erune;
    destruct Erune as (-> & Hbins & _); split; [reflexivity|];
    eexists; split; [reflexivity|exact Hbins].
Qed.

(* ================================================================= *)
(** ** The cross-grade summary: the blocks *)

(** X10: the cross-grade summary has one block per grade choice, and every
    block lists the same entries in the same order: the items that dropped
    in the queryset, then the monsters.  An item without a drop in a grade
    is listed in the block of that grade all the same, with count 0, no
    minimum, maximum or average and no average per run.  A log model with
    neither item nor monster drops gets empty blocks. *)
Theorem grade_summary_blocks (QUALITY_CHOICES : list (nat * string))
        (GameItem_objects : list GameItem) (Monster_objects : list Monster)
        (model : LogModel) (qs : QS.t Log) (grade_choices : list (nat * string)) :
  exists summaries,
    grade_summary_report QUALITY_CHOICES GameItem_objects Monster_objects
                         model qs grade_choices = Ok summaries /\
    length summaries = length grade_choices /\
    (forall s, In s summaries ->
       map entry_name (gs_drops s)
       = map item_name (dropped_items GameItem_objects model qs)
         ++ map monster_name (dropped_monsters Monster_objects model qs)) /\
    (forall k grade s item,
       nth_error grade_choices k = Some grade ->
       nth_error summaries k = Some s ->
       In item (dropped_items GameItem_objects model qs) ->
       grade_item_drops model qs (fst grade) item = [] ->
       In (ItemSummary (item_name item) (item_icon item)
             (mkStats 0 None None None (percent_of 0 (QS.count qs)) None))
          (gs_drops s)) /\
    (items model = None -> monsters model = None ->
     forall s, In s summaries -> gs_drops s = []).
Proof.
  exists (grade_summaries GameItem_objects Monster_objects model qs grade_choices).
  split; [apply grade_summary_report_eq|].
  unfold grade_summaries. split; [apply length_map|]. split; [|split].
  - intros s Hs. apply in_map_iff in Hs. destruct Hs as (g & <- & _).
    cbn [gs_drops]. rewrite map_app, !map_map. reflexivity.
  - intros k grade s item Hg Hs Hitem Hnone.
    rewrite nth_error_map, Hg in Hs. cbn [option_map] in Hs.
    injection Hs as <-. cbn [gs_drops]. apply in_or_app. left.
    apply in_map_iff. exists item. split; [|exact Hitem].
    unfold item_entry. rewrite Hnone. reflexivity.
  - intros Hi Hm s Hs. apply in_map_iff in Hs. destruct Hs as (g & <- & _).
    cbn [gs_drops]. unfold dropped_items, dropped_monsters,
      window_item_drops, window_monster_drops. rewrite Hi, Hm. cbn [existsb].
    rewrite !filter_nothing; [reflexivity| |]; apply Forall_forall; reflexivity.
Qed.

(* ================================================================= *)
(** ** The reports of a run *)

Lemma distinct_length_le (K : Type) `{EqDec K} (ks : list K) :
  length (distinct ks) <= length ks.
Proof.
  induction ks as [|k ks IH]; simpl; [lia|].
  pose proof (filter_length_le (fun k' => negb (same k' k)) (distinct ks)). lia.
Qed.

Lemma contributors_bounds (w : QS.t Log) :
  0 < QS.count w ->
  1 <= count_distinct_wizards w <= QS.count w.
Proof.
  unfold count_distinct_wizards, QS.count. intros Hpos.
  pose proof (distinct_length_le (map wizard_id (QS.rows w))) as Hle.
  rewrite length_map in Hle. split; [|exact Hle].
  destruct (QS.rows w); simpl in *; lia.
Qed.

Lemma filter_Subseq (A : Type) (p : A -> bool) (l : list A) :
  Subseq (List.filter p l) l.
Proof.
  induction l as [|a l IH]; simpl; [constructor|].
  destruct (p a); now constructor.
Qed.

Lemma Subseq_nil_l (A : Type) (l : list A) : Subseq [] l.
Proof. induction l; now constructor. Qed.

Lemma run_levels_levels (step : Level -> result (option LevelReport))
      (levels : list Level) (created : list LevelReport) :
  (forall lv r, step lv = Ok (Some r) -> level r = lv) ->
  exists sub,
    map level (fst (run_levels step levels created))
    = map level created ++ sub /\ Subseq sub levels.
Proof.
  intros Hstep. revert created.
  induction levels as [|lv levels IH]; intros created; simpl.
  - exists []. split; [now rewrite app_nil_r|constructor].
  - destruct (step lv) as [[r|]|e] eqn:E; simpl.
    + destruct (IH (created ++ [r])) as (sub & Hsub & Hs).
      exists (lv :: sub). split; [|now constructor].
      rewrite Hsub, map_app, <- app_assoc. simpl.
      now rewrite (Hstep lv r E).
    + destruct (IH created) as (sub & Hsub & Hs).
      exists sub. split; [exact Hsub|now constructor].
    + exists []. split; [now rewrite app_nil_r|apply Subseq_nil_l].
Qed.

Lemma logged_levels_logged (Level_objects : list Level) (model : LogModel) :
  Subseq (logged_levels Level_objects model) Level_objects /\
  Forall (logged model) (logged_levels Level_objects model).
Proof.
  unfold logged_levels. rewrite rows_filter, rows_objects. split.
  - apply filter_Subseq.
  - apply Forall_forall. intros lv Hlv. apply filter_In in Hlv.
    destruct Hlv as [_ Hex]. apply existsb_exists in Hex.
    destruct Hex as (l & Hl & Heq). exists l. split; [exact Hl|].
    now apply Nat.eqb_eq in Heq.
Qed.

Section RunProps.
Variable QUALITY_CHOICES : list (nat * string).
Variable GameItem_objects : list GameItem.
Variable Monster_objects : list Monster.
Variable Level_objects : list Level.
Variable DungeonLog : LogModel.
Variable RiftDungeonLog : LogModel.
Variable GRADE_CHOICES : list (nat * string).
Variable now : Z.

(** What a created dungeon report holds besides its time range. *)
Lemma dungeon_level_report_fields (lv : Level) (r : LevelReport) :
  dungeon_level_report QUALITY_CHOICES DungeonLog now lv = Ok (Some r) ->
  exists w rd,
    dungeon_window DungeonLog now lv = Ok w /\
    0 < QS.count w /\
    level_drop_report QUALITY_CHOICES DungeonLog w = Ok rd /\
    level r = lv /\
    content_type r = DungeonLogType /\
    log_count r = QS.count w /\
    unique_contributors r = count_distinct_wizards w /\
    report r = LevelPayload rd.
Proof.
  unfold dungeon_level_report.
  destruct (dungeon_window DungeonLog now lv) as [w|e]; [|discriminate].
  cbn [bind].
  destruct (Nat.ltb_spec 0 (QS.count w)) as [Hpos|_]; [|discriminate].
  destruct (level_drop_report QUALITY_CHOICES DungeonLog w) as [rd|e] eqn:Erd;
    [|discriminate].
  cbn [bind]. unfold QS.index.
  destruct (nth_error (QS.rows w) (QS.count w - 1)); [|discriminate].
  cbn [bind]. destruct (nth_error (QS.rows w) 0); [|discriminate].
  cbn [bind]. intros E. injection E as <-.
  exists w, rd.
  cbn [level content_type log_count unique_contributors report].
  repeat split; auto.
Qed.

Lemma rift_level_report_fields (lv : Level) (r : LevelReport) :
  rift_level_report QUALITY_CHOICES GameItem_objects Monster_objects
                    RiftDungeonLog GRADE_CHOICES now lv = Ok (Some r) ->
  exists ar entries,
    rift_grades QUALITY_CHOICES RiftDungeonLog now lv GRADE_CHOICES
                (QS.none (objects RiftDungeonLog)) [] = Ok (ar, entries) /\
    0 < QS.count ar /\
    level r = lv /\
    content_type r = RiftDungeonLogType /\
    log_count r = QS.count ar /\
    unique_contributors r = count_distinct_wizards ar.
Proof.
  unfold rift_level_report.
  destruct (rift_grades QUALITY_CHOICES RiftDungeonLog now lv GRADE_CHOICES
              (QS.none (objects RiftDungeonLog)) []) as [[ar rd]|e] eqn:E;
    [|discriminate].
  cbn [bind fst snd].
  destruct (Nat.ltb_spec 0 (QS.count ar)) as [Hpos|_]; [|discriminate].
  rewrite grade_summary_report_eq. cbn [bind]. unfold QS.index.
  destruct (nth_error (QS.rows ar) (QS.count ar - 1)); [|discriminate].
  cbn [bind]. destruct (nth_error (QS.rows ar) 0); [|discriminate].
  cbn [bind]. intros H. injection H as <-.
  exists ar, rd.
  cbn [level content_type log_count unique_contributors report].
  repeat split; auto.
Qed.

(** X11: every report created by the dungeon run and by the rift run
    carries the content type of its log model and counts at least one
    contributor and no more contributors than records; the payload of a
    dungeon report is the level report of its window. *)
Theorem report_contributors :
  (forall r,
      In r (fst (generate_dungeon_log_reports QUALITY_CHOICES
                   Level_objects DungeonLog now)) ->
      content_type r = DungeonLogType /\
      1 <= unique_contributors r <= log_count r /\
      exists w rd,
        dungeon_window DungeonLog now (level r) = Ok w /\
        level_drop_report QUALITY_CHOICES DungeonLog w = Ok rd /\
        report r = LevelPayload rd) /\
  (forall r,
      In r (fst (generate_rift_dungeon_reports QUALITY_CHOICES
                   GameItem_objects Monster_objects Level_objects
                   RiftDungeonLog GRADE_CHOICES now)) ->
      content_type r = RiftDungeonLogType /\
      1 <= unique_contributors r <= log_count r).
Proof.
  split.
  - intros r Hin. apply run_levels_In in Hin.
    destruct Hin as [[]|(lv & _ & Hs)].
    apply dungeon_level_report_fields in Hs.
    destruct Hs as (w & rd & Hw & Hpos & Hrd & <- & Hct & -> & -> & Hrep).
    split; [exact Hct|]. split; [now apply contributors_bounds|].
    exists w, rd. auto.
  - intros r Hin. apply run_levels_In in Hin.
    destruct Hin as [[]|(lv & _ & Hs)].
    apply rift_level_report_fields in Hs.
    destruct Hs as (ar & rd & _ & Hpos & _ & Hct & -> & ->).
    split; [exact Hct|]. now apply contributors_bounds.
Qed.

(** X12: each run creates at most one report per level, in the order of
    the level table, and only for levels that occur in a log row of its
    model. *)
Theorem reports_follow_levels :
  (Subseq (map level (fst (generate_dungeon_log_reports QUALITY_CHOICES
                             Level_objects DungeonLog now)))
          (logged_levels Level_objects DungeonLog) /\
   Subseq (logged_levels Level_objects DungeonLog) Level_objects /\
   Forall (logged DungeonLog) (logged_levels Level_objects DungeonLog)) /\
  (Subseq (map level (fst (generate_rift_dungeon_reports QUALITY_CHOICES
                             GameItem_objects Monster_objects Level_objects
                             RiftDungeonLog GRADE_CHOICES now)))
          (logged_levels Level_objects RiftDungeonLog) /\
   Subseq (logged_levels Level_objects RiftDungeonLog) Level_objects /\
   Forall (logged RiftDungeonLog) (logged_levels Level_objects RiftDungeonLog)).
Proof.
  split; (split; [|apply logged_levels_logged]).
  - unfold generate_dungeon_log_reports.
    destruct (@run_levels_levels
                (dungeon_level_report QUALITY_CHOICES DungeonLog now)
                (logged_levels Level_objects DungeonLog) [])
      as (sub & -> & Hs); [|exact Hs].
    intros lv r H. apply dungeon_level_report_fields in H.
    destruct H as (_ & _ & _ & _ & _ & H & _). exact H.
  - unfold generate_rift_dungeon_reports.
    destruct (@run_levels_levels
                (rift_level_report QUALITY_CHOICES GameItem_objects
                   Monster_objects RiftDungeonLog GRADE_CHOICES now)
                (logged_levels Level_objects RiftDungeonLog) [])
      as (sub & -> & Hs); [|exact Hs].
    intros lv r H. apply rift_level_report_fields in H.
    destruct H as (_ & _ & _ & _ & H & _). exact H.
Qed.
End RunProps.

(* ================================================================= *)
(** ** The record count of a rift report *)

Lemma filter_length_impl (A : Type) (p q : A -> bool) (l : list A) :
  (forall a, In a l -> p a = true -> q a = true) ->
  length (List.filter p l) <= length (List.filter q l).
Proof.
  induction l as [|a l IH]; intros H; simpl; [lia|].
  assert (IH' : length (List.filter p l) <= length (List.filter q l)).
  { apply IH. intros b Hb. apply H. now right. }
  destruct (p a) eqn:Ep.
  - rewrite (H a (or_introl eq_refl) Ep). simpl. lia.
  - destruct (q a); simpl; lia.
Qed.

Lemma NoDup_key_filter (G : Type) (f : G -> nat) (x : nat) (l : list G) :
  NoDup (map f l) -> length (List.filter (fun g => f g =? x) l) <= 1.
Proof.
  induction l as [|a l IH]; simpl; intros Hnd; [lia|].
  inversion Hnd as [|? ? Hnotin Hnd']; subst.
  destruct (Nat.eqb_spec (f a) x) as [E|_]; [|now apply IH].
  simpl. rewrite filter_nothing; [simpl; lia|].
  apply Forall_forall. intros g Hg. apply Nat.eqb_neq. intros Eg.
  apply Hnotin. rewrite E, <- Eg. now apply in_map.
Qed.

Lemma sum_indicator_filter (G : Type) (p : G -> bool) (l : list G) :
  list_sum (map (fun g => if p g then 1 else 0) l) = length (List.filter p l).
Proof.
  induction l as [|g l IH]; simpl; [reflexivity|].
  rewrite IH. destruct (p g); reflexivity.
Qed.

Lemma existsb_indicator (G : Type) (p : G -> bool) (l : list G) :
  length (List.filter p l) <= 1 ->
  (if existsb p l then 1 else 0) = length (List.filter p l).
Proof.
  induction l as [|g l IH]; simpl; [reflexivity|].
  destruct (p g); simpl.
  - intros H. destruct (List.filter p l); simpl in *; [reflexivity|lia].
  - exact IH.
Qed.

(** The rows that satisfy one of several conditions, no row satisfying
    two of them, are as many as the rows of each condition together. *)
Lemma union_count (A G : Type) (P : G -> A -> bool) (gs : list G) (l : list A) :
  (forall r, In r l -> length (List.filter (fun g => P g r) gs) <= 1) ->
  length (List.filter (fun r => existsb (fun g => P g r) gs) l)
  = list_sum (map (fun g => length (List.filter (P g) l)) gs).
Proof.
  induction l as [|r l IH]; intros H.
  - simpl. clear. induction gs as [|g gs IH]; simpl; auto.
  - rewrite (map_ext _ (fun g => (if P g r then 1 else 0)
                                 + length (List.filter (P g) l))).
    + rewrite list_sum_map_add, sum_indicator_filter.
      rewrite <- (existsb_indicator (fun g => P g r) gs
                    (H r (or_introl eq_refl))).
      rewrite <- IH by (intros r0 Hr0; apply H; now right).
      simpl. destruct (existsb (fun g => P g r) gs); reflexivity.
    + intros g. simpl. destruct (P g r); reflexivity.
Qed.

(** X13: when the grade choices have distinct grades, the record count of
    a rift report is the sum of the record counts of the windows of the
    grades: the union of the windows counts every record once. *)
Theorem rift_log_count (QUALITY_CHOICES : list (nat * string))
        (GameItem_objects : list GameItem) (Monster_objects : list Monster)
        (RiftDungeonLog : LogModel) (GRADE_CHOICES : list (nat * string))
        (now : Z) (lv : Level) (rep : LevelReport) :
  NoDup (map fst GRADE_CHOICES) ->
  rift_level_report QUALITY_CHOICES GameItem_objects Monster_objects
                    RiftDungeonLog GRADE_CHOICES now lv = Ok (Some rep) ->
  log_count rep
  = list_sum (map (fun g => window_count RiftDungeonLog now lv (fst g))
                  GRADE_CHOICES).
Proof.
  intros Hnd H. apply rift_level_report_fields in H.
  destruct H as (ar & rd & Hg & _ & _ & _ & -> & _).
  destruct (rift_grades_spec _ _ _ _ _ _ _ Hg) as [Hcond _].
  pose proof (rift_grades_base _ _ _ _ _ _ _ Hg) as Hbase.
  unfold QS.count, QS.rows. rewrite Hbase. cbn [QS.none QS.base].
  rewrite (filter_ext _ (fun r => existsb
             (fun g => window_cond RiftDungeonLog now lv (fst g) r)
             GRADE_CHOICES)) by (intros r; rewrite Hcond; reflexivity).
  rewrite (union_count
             (fun g r => window_cond RiftDungeonLog now lv (fst g) r)).
  - f_equal. apply map_ext. intros g.
    unfold window_count, window_cond.
    destruct (rift_window_ok RiftDungeonLog now lv (fst g)) as (w & -> & Hb & _).
    unfold QS.count, QS.rows. now rewrite Hb.
  - intros r _.
    eapply Nat.le_trans; [|apply (NoDup_key_filter fst (log_grade r) _ Hnd)].
    apply filter_length_impl. intros g _ Hwc. unfold window_cond in Hwc.
    destruct (rift_window_ok RiftDungeonLog now lv (fst g)) as (w & Hw & _ & Hgr).
    rewrite Hw in Hwc. apply Nat.eqb_eq. symmetry. now apply Hgr.
Qed.

(* ================================================================= *)
(** ** Totals of the summary tables and of the rune report *)

Lemma histogram_bins (row : Type) (rows : list row) (column : row -> Q)
      (bins : list Z) (slice_on : row -> nat) (choices : list (nat * string))
      (h : list HistogramRow) :
  histogram rows column bins slice_on choices = Ok h ->
  map bin h = bins /\
  Forall (fun r => map fst (slices r) = map snd choices) h.
Proof.
  unfold histogram. destruct bins as [|b bs] eqn:Eb; [discriminate|].
  rewrite <- Eb. intros E. injection E as <-. split.
  - rewrite map_map. simpl. apply map_id.
  - apply Forall_forall. intros r Hr. apply in_map_iff in Hr.
    destruct Hr as (b0 & <- & _). simpl. now rewrite map_map.
Qed.

(** X14: in the summary, the counts of the table of every category add
    up to the number of drop records of the category: the rows of the
    item, monster, monster piece, rune craft and secret dungeon tables,
    and each of the three breakdowns of the rune table. *)
Theorem summary_table_totals (total_log_count : nat) :
  (forall qs : QS.t ItemDrop,
      list_sum (map (fun r => st_count (it_stats r))
                    (item_table qs total_log_count)) = QS.count qs) /\
  (forall qs : QS.t MonsterDrop,
      list_sum (map mt_count (monster_table qs total_log_count))
      = QS.count qs) /\
  (forall qs : QS.t MonsterPieceDrop,
      list_sum (map pt_count (monster_piece_table qs)) = QS.count qs) /\
  (forall qs : QS.t RuneDrop,
      exists sets slots quality,
        rune_table qs = RuneTable sets slots quality /\
        list_sum (map snd sets) = QS.count qs /\
        list_sum (map snd slots) = QS.count qs /\
        list_sum (map snd quality) = QS.count qs) /\
  (forall qs : QS.t RuneCraftDrop,
      list_sum (map snd (rune_craft_table qs)) = QS.count qs) /\
  (forall qs : QS.t SecretDungeonDrop,
      list_sum (map snd (secret_dungeon_table qs)) = QS.count qs).
Proof.
  split; [|split; [|split; [|split; [|split]]]]; intros qs; unfold QS.count.
  - unfold item_table. rewrite map_map. cbn [it_stats].
    rewrite (order_by_sum_of _ (fun r => st_count (snd r))).
    rewrite filter_all.
    + rewrite map_map. cbn [snd].
      rewrite <- (group_by_sum item_table_key (QS.rows qs)).
      apply f_equal, map_ext. intros g. simpl. apply length_map.
    + apply Forall_forall. intros [k st] Hin. apply in_map_iff in Hin.
      destruct Hin as ([k' g] & E & Hg). simpl in E. injection E as -> <-.
      apply group_by_In in Hg. destruct Hg as [_ Hlen]. simpl.
      rewrite length_map. now apply Nat.ltb_lt.
  - unfold monster_table. rewrite map_map.
    rewrite <- (group_by_sum monster_table_key (QS.rows qs)).
    apply f_equal, map_ext. intros [[[[[[[n s] i] e] c] a] st] g]. reflexivity.
  - unfold monster_piece_table. rewrite map_map. cbn [pt_count].
    induction (QS.rows qs) as [|r l IH]; simpl; [reflexivity|]. now rewrite IH.
  - eexists. eexists. eexists. split; [reflexivity|].
    unfold by_key. rewrite !order_by_sum, !count_by_sum. auto.
  - unfold rune_craft_table. rewrite order_by_sum. apply count_by_sum.
  - unfold secret_dungeon_table. apply count_by_sum.
Qed.

(** X15: a rune report that is returned has, for the star grade, the set
    type, the quality, the slot, the main stat and the innate stat, a
    block whose total is the number of runes and whose counts add up to
    it; its efficiency histogram has the twenty bins 0, 5, ..., 95 and
    its value histogram the bins of the value range, each with one count
    per quality choice. *)
Theorem rune_report_blocks (QUALITY_CHOICES : list (nat * string))
        (qs : QS.t RuneDrop) (total_log_count : nat) (r : RuneStats) :
  get_rune_report QUALITY_CHOICES qs total_log_count = Ok (RuneReport r) ->
  (total (rs_stars r) = QS.count qs /\
   list_sum (map snd (data (rs_stars r))) = QS.count qs) /\
  (total (rs_type r) = QS.count qs /\
   list_sum (map snd (data (rs_type r))) = QS.count qs) /\
  (total (rs_quality r) = QS.count qs /\
   list_sum (map snd (data (rs_quality r))) = QS.count qs) /\
  (total (rs_slot r) = QS.count qs /\
   list_sum (map snd (data (rs_slot r))) = QS.count qs) /\
  (total (rs_main_stat r) = QS.count qs /\
   list_sum (map snd (data (rs_main_stat r))) = QS.count qs) /\
  (total (rs_innate_stat r) = QS.count qs /\
   list_sum (map snd (data (rs_innate_stat r))) = QS.count qs) /\
  (map bin (rs_max_efficiency r) = range 0 100 5 /\
   length (rs_max_efficiency r) = 20 /\
   Forall (fun row => map fst (slices row) = map snd QUALITY_CHOICES)
          (rs_max_efficiency r)) /\
  (value_bins qs = Some (map bin (rs_value r)) /\
   Forall (fun row => map fst (slices row) = map snd QUALITY_CHOICES)
          (rs_value r)).
Proof.
  unfold get_rune_report, value_bins.
  destruct (QS.count qs =? 0); [discriminate|].
  destruct (Min (map rd_value (QS.rows qs))) as [lo|]; [|discriminate].
  destruct (Max (map rd_value (QS.rows qs))) as [hi|]; [|discriminate].
  destruct (histogram (QS.rows qs) rd_max_efficiency (range 0 100 5)
                      rd_quality QUALITY_CHOICES) as [me|e] eqn:Eme;
    [|discriminate].
  destruct (histogram (QS.rows qs) (fun r0 => inject_Z (rd_value r0))
              (range (floor_to_nearest lo 1000) (ceil_to_nearest hi 1000) 500)
              rd_quality QUALITY_CHOICES) as [v|e] eqn:Ev; [|discriminate].
  cbn [bind]. intros E. injection E as <-.
  cbn [rs_stars rs_type rs_quality rs_slot rs_main_stat rs_innate_stat
       rs_max_efficiency rs_value total data].
  apply histogram_bins in Eme. destruct Eme as [Hme1 Hme2].
  apply histogram_bins in Ev. destruct Ev as [Hv1 Hv2].
  unfold by_count_desc, by_key, by_nullable_key, QS.count.
  rewrite !order_by_sum, !count_by_sum.
  repeat split; auto.
  - rewrite <- (length_map bin), Hme1. reflexivity.
  - now rewrite Hv1.
Qed.

(* ================================================================= *)
(** ** The further properties at concrete inputs *)

(** One drop of an item and two of another: the row of the two drops
    comes first, and the counts add up to three. *)
Lemma item_report_rows_witness :
  exists r1 r2,
    get_item_report (QS.objects three_item_drops) 2 = ItemReport [r1; r2] /\
    ir_name r1 = "Crystal"%string /\
    st_count (ir_stats r2) <= st_count (ir_stats r1) /\
    st_count (ir_stats r1) + st_count (ir_stats r2) = 3.
Proof.
  destruct (@item_report_rows (QS.objects three_item_drops) 2
              ltac:(lia) ltac:(vm_compute; lia)) as (rows & H1 & H2 & H3 & _).
  assert (E : exists r1 r2, rows = [r1; r2] /\ ir_name r1 = "Crystal"%string).
  { vm_compute in H1. injection H1 as <-.
    eexists. eexists. split; reflexivity. }
  destruct E as (r1 & r2 & -> & Hname).
  exists r1, r2. split; [exact H1|]. split; [exact Hname|]. split.
  - inversion H3 as [|? ? _ Hhd]; subst.
    inversion Hhd as [|? ? Hdesc]; subst. exact Hdesc.
  - unfold list_sum in H2. cbn [map fold_right] in H2.
    change (QS.count (QS.objects three_item_drops)) with 3 in H2. lia.
Defined.

(** Two drops of one monster of two stars in four runs: a drop chance of
    50 for the two stars. *)
Lemma monster_report_blocks_witness :
  exists r drop_chance,
    get_monster_report (QS.objects two_imp_drops) 4 = MonsterReport r /\
    data (ms_nat_stars r) = [(2, drop_chance, 2)] /\
    (drop_chance == 50)%Q /\
    total (ms_family r) = 2 /\
    list_sum (map snd (data (ms_family r))) = 2.
Proof.
  destruct (@monster_report_blocks (QS.objects two_imp_drops) 4
              ltac:(lia) ltac:(vm_compute; lia))
    as (r & H1 & _ & H2 & (_ & _ & H3) & _).
  assert (E : exists dc, data (ms_nat_stars r) = [(2, dc, 2)]).
  { unfold get_monster_report in H1. cbn [QS.count] in H1.
    change (QS.count (QS.objects two_imp_drops) =? 0) with false in H1.
    injection H1 as <-. eexists. reflexivity. }
  destruct E as (dc & Edc).
  exists r, dc. split; [exact H1|]. split; [exact Edc|]. split; [|exact H2].
  rewrite Edc in H3. inversion H3 as [|? ? Hrow _]; subst.
  destruct Hrow as (Hrate & _). cbn [fst snd] in Hrate.
  unfold rate_of in Hrate. rewrite Hrate. reflexivity.
Defined.

(** No item drop and no rune drop: only the rune table is kept. *)
Lemma summary_tables_witness :
  exists s,
    get_report_summary
      [ ("items"%string, ItemQS (QS.objects []));
        ("runes"%string, RuneQS (QS.objects [])) ] 1 = Ok s /\
    dict_has "items" (table s) = false /\
    dict_has "runes" (table s) = true.
Proof.
  eexists. split; [vm_compute; reflexivity|].
  split;
    rewrite (@summary_tables
               [ ("items"%string, ItemQS (QS.objects []));
                 ("runes"%string, RuneQS (QS.objects [])) ] 1 _
               ltac:(repeat constructor) eq_refl);
    reflexivity.
Defined.

(** Two rune drops and no rune craft drop: one chart entry. *)
Lemma summary_category_chart_witness :
  exists s,
    get_report_summary
      [ ("runes"%string, RuneQS (QS.objects two_runes));
        ("rune_crafts"%string, RuneCraftQS (QS.objects [])) ] 1 = Ok s /\
    chart s = [mkChart "Rune" 2].
Proof.
  eexists. split; [vm_compute; reflexivity|].
  apply (proj1 (@summary_category_chart
                  [ ("runes"%string, RuneQS (QS.objects two_runes));
                    ("rune_crafts"%string, RuneCraftQS (QS.objects [])) ] 1 _
                  ltac:(repeat constructor)
                  ltac:(repeat constructor; discriminate)
                  eq_refl)).
Defined.

(** Three old runs and a minimum of one: the window is not empty. *)
Lemma window_nonempty_witness :
  exists w, _records_to_report 10000000 (QS.objects three_day_logs) two_weeks 1
            = Ok w /\ QS.count w <> 0.
Proof.
  destruct (@window_nonempty 10000000 (QS.objects three_day_logs) two_weeks 1
              ltac:(lia)) as (w & Hw & _ & Hiff).
  exists w. split; [exact Hw|].
  intros Hzero. apply Hiff in Hzero. discriminate Hzero.
Defined.

(** A time span of 150 at time 400 and a minimum of two: the run stamped
    300 is in the window. *)
Lemma window_keeps_time_span_witness :
  exists w, _records_to_report 400 (QS.objects three_day_logs) 150 2 = Ok w /\
            In (mkLog 3 1 true 0 7 300%Z) (QS.rows w).
Proof.
  eexists. split; [reflexivity|].
  apply (@window_keeps_time_span 400 (QS.objects three_day_logs) 150 2 _
           eq_refl eq_refl (mkLog 3 1 true 0 7 300%Z));
    [left; reflexivity|reflexivity].
Defined.

(** A model with item drops only: its level report is returned. *)
Lemma level_drop_report_dispatch_witness :
  exists rep,
    level_drop_report [] double_drop_model
      (QS.objects (objects double_drop_model)) = Ok rep.
Proof.
  exact (proj2 (proj2 (level_drop_report_dispatch [] double_drop_model
                         (QS.objects (objects double_drop_model)))) eq_refl).
Defined.

(** The item of grade A has no drop in grade B and is listed there with
    count 0. *)
Lemma grade_summary_blocks_witness :
  exists summaries s,
    grade_summary_report [] [crystal] [] two_grade_model
      (QS.objects (objects two_grade_model)) grades_A_B = Ok summaries /\
    nth_error summaries 1 = Some s /\
    In (ItemSummary "Crystal" "crystal.png"
          (mkStats 0 None None None (percent_of 0 2) None))
       (gs_drops s).
Proof.
  destruct (grade_summary_blocks [] [crystal] [] two_grade_model
              (QS.objects (objects two_grade_model)) grades_A_B)
    as (summaries & Hs & Hlen & _ & Hzero & _).
  exists summaries.
  destruct (nth_error summaries 1) as [s|] eqn:E;
    [|apply nth_error_None in E; rewrite Hlen in E; simpl in E; lia].
  exists s. split; [exact Hs|]. split; [reflexivity|].
  apply (Hzero 1 (2, "B"%string) s crystal eq_refl E);
    [left; reflexivity|reflexivity].
Defined.

(** The report of the single run: one contributor, one record. *)
Lemma report_contributors_witness :
  exists r,
    fst (generate_dungeon_log_reports [] [mkLevel 1] one_run_model 300) = [r] /\
    1 <= unique_contributors r <= log_count r.
Proof.
  eexists. split; [reflexivity|].
  apply (proj1 (@report_contributors [] [] [] [mkLevel 1] one_run_model
                  one_run_model [] 300) _ (or_introl eq_refl)).
Defined.

(** Two grades with one run each: a record count of two. *)
Lemma rift_log_count_witness :
  exists rep,
    rift_level_report [] [crystal] [] two_grade_model grades_A_B 300
                      (mkLevel 1) = Ok (Some rep) /\
    log_count rep = 2.
Proof.
  eexists. split; [vm_compute; reflexivity|].
  apply (@rift_log_count [] [crystal] [] two_grade_model grades_A_B 300
           (mkLevel 1) _
           ltac:(repeat constructor; simpl; intuition discriminate)
           eq_refl).
Defined.

(** The report of two runes: six blocks of total two. *)
Lemma rune_report_blocks_witness :
  exists r,
    get_rune_report [] (QS.objects two_runes) 2 = Ok (RuneReport r) /\
    total (rs_slot r) = 2 /\
    list_sum (map snd (data (rs_slot r))) = 2.
Proof.
  eexists. split; [vm_compute; reflexivity|].
  apply (@rune_report_blocks [] (QS.objects two_runes) 2 _ eq_refl).
Defined.

(** The item handle of the run that dropped two items: the log queryset
    holds a record. *)
Lemma resolver_divisor_positive_witness :
  0 < QS.count (QS.objects (objects double_drop_model)).
Proof.
  apply (@resolver_divisor_positive [] double_drop_model
           (QS.objects (objects double_drop_model)) "items"%string
           (ItemQS (QS.filter
                      (fun r => log_in (QS.objects (objects double_drop_model))
                                       (id_log r))
                      (QS.objects [ mkItemDrop 1 1 mana_stone 500;
                                    mkItemDrop 2 1 mana_stone 700 ])))).
  - left. reflexivity.
  - vm_compute. lia.
Defined.
